(** * The NIRF score engine of [dashboard/app.py]

    A shallow embedding of [percentile], [safe_float] and [compute_scores]
    and the properties of the scoring engine that the specification states.

    Numbers.  The engine is embedded twice.  First on finite numbers: Python
    floats are exact rationals ([Q]), results are compared with [==], and
    the reader of strings [float_of_str] stands for [float] on the strings
    that denote a finite number.  Then, in module [Float], on floats with
    [nan] and the infinities, which [float] also reads from strings ([nan],
    [inf], [1e999]) and which [safe_float] hands to the engine.  Theorem
    [float_compute_scores_finite] shows that the two embeddings agree on
    every cohort whose fields read as finite numbers: what is stated on the
    first one is a statement on such cohorts, and what depends on [nan] or
    on an infinity is stated on the second.  Rounding error and the
    overflow of finite arithmetic are outside both.  What both keep of
    Python's arithmetic is its failure: [a / b] raises [ZeroDivisionError]
    when [b] is zero, so every division by a computed denominator goes
    through [truediv] in an error monad; divisions by a non-zero literal
    are total.

    Records.  An input record is a [dict] read from JSON or from a form: a
    finite map from field names to scalar values ([None], booleans, finite
    numbers, strings).  Strings are ASCII text. *)

From Stdlib Require Import Ascii String QArith Qround Qminmax Lqa Lia ZArith.
From stdpp Require Import gmap strings list sorting.

Local Open Scope Q_scope.

(** ** Python values and exceptions *)

Inductive pyval : Type :=
  | PNone
  | PBool (b : bool)
  | PNum (q : Q)
  | PStr (s : string).

Inductive pyerror : Type :=
  | ZeroDivisionError
  | KeyError (k : string)
  | TypeError
  | AttributeError
  | IndexError.

Inductive result (A : Type) : Type :=
  | Ok (a : A)
  | Raise (e : pyerror).
Arguments Ok {A} a.
Arguments Raise {A} e.

#[global] Instance result_ret : MRet result := fun _ a => Ok a.
#[global] Instance result_bind : MBind result := fun _ _ f c =>
  match c with
  | Ok a => f a
  | Raise e => Raise e
  end.

Definition returns {A} (c : result A) : Prop := exists a, c = Ok a.

(** ** Comparisons and division on floats *)

Definition Qleb (a b : Q) : bool := Qle_bool a b.
Definition Qltb (a b : Q) : bool := negb (Qle_bool b a).

(** [a / b] *)
Definition truediv (a b : Q) : result Q :=
  if Qeq_bool b 0 then Raise ZeroDivisionError else Ok (a / b).

(** [x if x > 0 else 1.0] *)
Definition positive_or_one (x : Q) : Q := if Qltb 0 x then x else 1.

#[global] Instance Qle_dec' (x y : Q) : Decision (x <= y).
Proof.
  destruct (Qle_bool x y) eqn:E.
  - left. by apply Qle_bool_iff.
  - right. intros H. apply Qle_bool_iff in H. congruence.
Defined.

(** ** [percentile] *)

(** [sum(1 for v in sorted_vals if v <= target)] *)
Fixpoint count_le (vals : list Q) (target : Q) : nat :=
  match vals with
  | [] => 0%nat
  | v :: vals' => ((if Qleb v target then 1 else 0) + count_le vals' target)%nat
  end.

Definition percentile (values : list Q) (target : Q) : result Q :=
  match values with
  | [] => Ok 0
  | _ =>
    let sorted_vals := merge_sort Qle values in
    let count_le := count_le sorted_vals target in
    x ← truediv (inject_Z (Z.of_nat count_le)) (inject_Z (Z.of_nat (length sorted_vals)));
    mret (x * 100)
  end.


(** ** [safe_float] and dictionary access *)

(** [r.get(k)] and [r.get(k, d)] *)
Definition get (r : gmap string pyval) (k : string) : pyval :=
  default PNone (r !! k).
Definition get_or (r : gmap string pyval) (k : string) (d : pyval) : pyval :=
  default d (r !! k).

(** Truth value of a Python scalar, as tested by [if v] and [v or d]. *)
Definition truthy (v : pyval) : bool :=
  match v with
  | PNone => false
  | PBool b => b
  | PNum q => negb (Qeq_bool q 0)
  | PStr s => negb (String.eqb s "")
  end.

(** [str.lower], on ASCII letters. *)
Definition lower_ascii (c : ascii) : ascii :=
  let n := nat_of_ascii c in
  if ((65 <=? n) && (n <=? 90))%nat then ascii_of_nat (n + 32) else c.

Fixpoint lower (s : string) : string :=
  match s with
  | EmptyString => EmptyString
  | String c s' => String (lower_ascii c) (lower s')
  end.

(** Python's [max] of two arguments and of a non-empty list: a later item
    replaces the current one only when it is strictly greater. *)
Definition pymax (a b : Q) : Q := if Qltb a b then b else a.

Definition pymax_list (l : list Q) : Q :=
  match l with
  | [] => 0
  | x :: l' => fold_left pymax l' x
  end.

(** [round(x, 2)]: to the nearest hundredth, ties to even. *)
Definition round_half_even (x : Q) : Z :=
  let f := Qfloor x in
  let d := x - inject_Z f in
  if Qltb d (1 # 2) then f
  else if Qltb (1 # 2) d then (f + 1)%Z
  else if Z.even f then f else (f + 1)%Z.

Definition round2 (x : Q) : Q := inject_Z (round_half_even (x * 100)) / 100.

Section Engine.

(** [float(s)] on a string, for the strings that denote a finite number;
    [None] where [float] raises [ValueError].  The strings that [float]
    reads as [nan] or as an infinity are read by [Float.safe_float]. *)
Context (float_of_str : string -> option Q).

Definition safe_float (val : pyval) (default : Q) : Q :=
  match val with
  | PNone => default
  | PStr s =>
      if String.eqb s "" then default
      else match float_of_str s with
           | Some q => q
           | None => default
           end
  | PNum q => q
  | PBool b => if b then 1 else 0
  end.

(** ** First pass of [compute_scores]: the cohort vectors *)

(** One entry of [computed_internals]. *)
Record internals : Type := {
  in_F_total : Q;
  in_P : Q;
  in_CC : Q;
  in_EXLI_per_student : Q;
  in_EXLB_per_student : Q;
  in_SR_ratio : Q
}.

(** The lists filled by the first loop. *)
Record vectors : Type := {
  P_list : list Q;
  CC_over_F_list : list Q;
  PF_over_F_list : list Q;
  PG_over_F_list : list Q;
  EP_over_F_list : list Q;
  EXLI_per_student_list : list Q;
  EXLB_per_student_list : list Q;
  PE_index_list : list Q;
  CES_N_list : list Q;
  RD_other_states_list : list Q;
  RD_other_countries_list : list Q;
  PR_SR_ratio_list : list Q;
  computed_internals : list internals
}.

Definition empty_vectors : vectors :=
  {| P_list := []; CC_over_F_list := []; PF_over_F_list := [];
     PG_over_F_list := []; EP_over_F_list := [];
     EXLI_per_student_list := []; EXLB_per_student_list := [];
     PE_index_list := []; CES_N_list := []; RD_other_states_list := [];
     RD_other_countries_list := []; PR_SR_ratio_list := [];
     computed_internals := [] |}.

(** [EXLI_per_student] and [EXLB_per_student] (lines 118-122). *)
Definition per_student (seats_N EXLIP EXLIE EXLB : Q) : result (Q * Q) :=
  if Qltb 0 seats_N then
    a ← truediv EXLIP seats_N;
    b ← truediv (2 * EXLIE) seats_N;
    mret (a + b, EXLB)
  else mret (0, 0).

(** [SR_ratio = (A_apps / S_intake) if S_intake > 0 else 0.0] (line 131). *)
Definition SR_ratio_of (A_apps S_intake : Q) : result Q :=
  if Qltb 0 S_intake then truediv A_apps S_intake else mret 0.

(** [F_total = F1 + 0.3 * F2] (lines 93-95). *)
Definition F_total_of (r : gmap string pyval) : Q :=
  let F1 := safe_float (get r "F1") 0 in
  let F2 := safe_float (get r "F2") 0 in
  F1 + (3 # 10) * F2.

(** [P = 0.3 * PW + 0.5 * PS + 0.1 * PG + 0.1 * PI] (lines 98-102). *)
Definition P_of (r : gmap string pyval) : Q :=
  let PW := safe_float (get r "PW") 0 in
  let PS := safe_float (get r "PS") 0 in
  let PG := safe_float (get r "PG") 0 in
  let PI := safe_float (get r "PI") 0 in
  (3 # 10) * PW + (5 # 10) * PS + (1 # 10) * PG + (1 # 10) * PI.

(** [CC = 0.3 * CCW + 0.5 * CCS + 0.1 * CCG + 0.1 * CCI] (lines 104-108). *)
Definition CC_of (r : gmap string pyval) : Q :=
  let CCW := safe_float (get r "CCW") 0 in
  let CCS := safe_float (get r "CCS") 0 in
  let CCG := safe_float (get r "CCG") 0 in
  let CCI := safe_float (get r "CCI") 0 in
  (3 # 10) * CCW + (5 # 10) * CCS + (1 # 10) * CCG + (1 # 10) * CCI.

(** The body of the first loop (lines 92-153): one record is read and every
    list grows by one item. *)
Definition first_pass_step (acc : vectors) (r : gmap string pyval) : result vectors :=
  let F_total := F_total_of r in
  let seats_N := safe_float (get r "seats_N") 0 in
  let P := P_of r in
  let CC := CC_of r in
  let PF := safe_float (get r "PF_filed") 0 in
  let PG_granted := safe_float (get r "PG_granted") 0 in
  let EP := safe_float (get r "EP_revenue") 0 in
  let EXLIP := safe_float (get r "EXLIP") 0 in
  let EXLIE := safe_float (get r "EXLIE") 0 in
  let EXLB := safe_float (get r "EXLB") 0 in
  ps ← per_student seats_N EXLIP EXLIE EXLB;
  let EXLI_per_student := ps.1 in
  let EXLB_per_student := ps.2 in
  let pe_index := safe_float (get r "PE_index") 0 in
  let CES_N := safe_float (get r "CES_N") 0 in
  let RD_other_states := safe_float (get r "RD_other_states") 0 in
  let RD_other_countries := safe_float (get r "RD_other_countries") 0 in
  let A_apps := safe_float (get r "applications_A") 0 in
  let S_intake := safe_float (get r "sanctioned_S") 0 in
  SR_ratio ← SR_ratio_of A_apps S_intake;
  x_P ← truediv P (positive_or_one F_total);
  x_CC ← truediv CC (positive_or_one P);
  x_PF ← truediv PF (positive_or_one F_total);
  x_PG ← truediv PG_granted (positive_or_one F_total);
  x_EP ← truediv EP (positive_or_one F_total);
  mret {|
    P_list := P_list acc ++ [x_P];
    CC_over_F_list := CC_over_F_list acc ++ [x_CC];
    PF_over_F_list := PF_over_F_list acc ++ [x_PF];
    PG_over_F_list := PG_over_F_list acc ++ [x_PG];
    EP_over_F_list := EP_over_F_list acc ++ [x_EP];
    EXLI_per_student_list := EXLI_per_student_list acc ++ [EXLI_per_student];
    EXLB_per_student_list := EXLB_per_student_list acc ++ [EXLB_per_student];
    PE_index_list := PE_index_list acc ++ [pe_index];
    CES_N_list := CES_N_list acc ++ [CES_N];
    RD_other_states_list := RD_other_states_list acc ++ [RD_other_states];
    RD_other_countries_list := RD_other_countries_list acc ++ [RD_other_countries];
    PR_SR_ratio_list := PR_SR_ratio_list acc ++ [SR_ratio];
    computed_internals := computed_internals acc ++
      [{| in_F_total := F_total; in_P := P; in_CC := CC;
          in_EXLI_per_student := EXLI_per_student;
          in_EXLB_per_student := EXLB_per_student;
          in_SR_ratio := SR_ratio |}]
  |}.

Fixpoint first_pass_from (acc : vectors) (records : list (gmap string pyval))
  : result vectors :=
  match records with
  | [] => mret acc
  | r :: records' => acc' ← first_pass_step acc r; first_pass_from acc' records'
  end.

Definition first_pass (records : list (gmap string pyval)) : result vectors :=
  first_pass_from empty_vectors records.

(** [R_star = max(PR_SR_ratio_list) if PR_SR_ratio_list else 1.0] (line 156). *)
Definition R_star_of (PR_SR_ratio_list : list Q) : Q :=
  match PR_SR_ratio_list with
  | [] => 1
  | _ => pymax_list PR_SR_ratio_list
  end.

(** ** Second pass of [compute_scores]: the category calculators *)

(** [(r.get("institution_type") or "college").lower()] (line 163); a
    value that is neither false nor a string has no [lower]. *)
Definition institution_type_of (r : gmap string pyval) : result string :=
  let v := get r "institution_type" in
  match (if truthy v then v else PStr "college") with
  | PStr s => mret (lower s)
  | _ => Raise AttributeError
  end.

(** [F_over_N = (F_total / seats_N) if seats_N > 0 else 0.0] (line 167). *)
Definition F_over_N_of (F_total seats_N : Q) : result Q :=
  if Qltb 0 seats_N then truediv F_total seats_N else mret 0.

(** 1(a) FSR (lines 166-173). *)
Definition FSR_block (inst_type : string) (F_total : Q) (r : gmap string pyval)
  : result Q :=
  let seats_N := safe_float (get r "seats_N") 0 in
  F_over_N ← F_over_N_of F_total seats_N;
  let FSR :=
    if String.eqb inst_type "university" then 20 * (15 * F_over_N)
    else 30 * (20 * F_over_N) in
  let FSR := if Qltb F_over_N (1 / 50) then 0 else FSR in
  mret FSR.

(** 1(b) FQE = FQ + FE (lines 175-186). *)
Definition FQE_block (r : gmap string pyval) : Q :=
  let phd_percent := safe_float (get r "phd_percent") 0 in
  let FQ := if Qleb phd_percent 95 then 15 * (phd_percent / 95) else 15 in
  let avg_exp := safe_float (get r "avg_experience_years") 0 in
  let Ei := if Qleb avg_exp 45 then pymax (avg_exp - 30) 0 else 15 in
  let E := Ei in
  let FE := if Qleb E 15 then 15 * (E / 15) else 15 in
  FQ + FE.

(** 1(c) Library and laboratory (lines 188-199). *)
Record ll_parts : Type := {
  ll_p_EXLI : Q;
  ll_p_EXLB : Q;
  ll_LL : Q
}.

Definition LL_block (vs : vectors) (inst_type : string) (ints : internals)
  : result ll_parts :=
  let EXLI_ps := in_EXLI_per_student ints in
  let EXLB_ps := in_EXLB_per_student ints in
  p_EXLI ← percentile (EXLI_per_student_list vs) EXLI_ps;
  p_EXLB ← percentile (EXLB_per_student_list vs) EXLB_ps;
  let LI :=
    if String.eqb inst_type "university" then 20 * p_EXLI / 100
    else 15 * p_EXLI / 100 in
  let LB :=
    if String.eqb inst_type "university" then 20 * p_EXLB / 100
    else 15 * p_EXLB / 100 in
  mret {| ll_p_EXLI := p_EXLI; ll_p_EXLB := p_EXLB; ll_LL := LI + LB |}.

(** 1(d) SEC (lines 201-206). *)
Definition SEC_block (r : gmap string pyval) : Q :=
  let pA := safe_float (get r "SEC_pA_percentile") 0 / 100 in
  let pB := safe_float (get r "SEC_pB_percentile") 0 / 100 in
  let winners := safe_float (get r "SEC_winners_count") 0 in
  let pC_val :=
    if Qleb 3 winners then 1
    else safe_float (get r "SEC_pC_percentile") 0 / 100 in
  10 * (pA / 2 + pB / 4 + pC_val / 4).

(** 2. RPII (lines 210-235).  [rp_p_PF], [rp_p_PG] and [rp_p_EP] name the
    three percentile calls that the source writes inline in [PF_comp],
    [PG_comp] and [PL_comp]. *)
Record rp_parts : Type := {
  rp_p_pub : Q;
  rp_PU : Q;
  rp_base_citation_index : Q;
  rp_p_citation : Q;
  rp_CI : Q;
  rp_p_PF : Q;
  rp_p_PG : Q;
  rp_p_EP : Q;
  rp_IPR : Q;
  rp_RPII : Q
}.

Definition RPII_block (vs : vectors) (ints : internals) (r : gmap string pyval)
  : result rp_parts :=
  let F_total := in_F_total ints in
  (* (a) Publications *)
  P_over_F ← truediv (in_P ints) (positive_or_one F_total);
  p_pub ← percentile (P_list vs) P_over_F;
  let PU := 45 * (p_pub / 100) in
  (* (b) Citations *)
  let CC := in_CC ints in
  let P_val := in_P ints in
  p_P ← percentile (P_list vs) P_over_F;
  intensity ← truediv CC (positive_or_one P_val);
  let base_citation_index := intensity * (p_P / 100) in
  p_citation ← percentile (CC_over_F_list vs) base_citation_index;
  let CI := 45 * (p_citation / 100) in
  (* (c) IPR *)
  let PF_val := safe_float (get r "PF_filed") 0 in
  let PG_granted_val := safe_float (get r "PG_granted") 0 in
  let EP_val := safe_float (get r "EP_revenue") 0 in
  x_PF ← truediv PF_val (positive_or_one F_total);
  p_PF ← percentile (PF_over_F_list vs) x_PF;
  let PF_comp := 2 * (p_PF / 100) in
  x_PG ← truediv PG_granted_val (positive_or_one F_total);
  p_PG ← percentile (PG_over_F_list vs) x_PG;
  let PG_comp := 4 * (p_PG / 100) in
  let I_P :=
    if Qleb 1 PG_granted_val && Qleb 1 (safe_float (get r "PL_licensed_count") 0)
    then 1 else 0 in
  x_EP ← truediv EP_val (positive_or_one F_total);
  p_EP ← percentile (EP_over_F_list vs) x_EP;
  let PL_comp := 2 * I_P + 2 * (p_EP / 100) in
  let IPR := PF_comp + PG_comp + PL_comp in
  mret {| rp_p_pub := p_pub; rp_PU := PU;
          rp_base_citation_index := base_citation_index;
          rp_p_citation := p_citation; rp_CI := CI;
          rp_p_PF := p_PF; rp_p_PG := p_PG; rp_p_EP := p_EP;
          rp_IPR := IPR; rp_RPII := PU + CI + IPR |}.

(** 3. GO (lines 237-243). *)
Record go_parts : Type := {
  go_p_pe : Q;
  go_GO : Q
}.

Definition GO_block (vs : vectors) (r : gmap string pyval) : result go_parts :=
  let UE_percent := safe_float (get r "UE_graduating_percent") 0 in
  let UE := 50 * (UE_percent / 80) in
  let pe_index := safe_float (get r "PE_index") 0 in
  p_pe ← percentile (PE_index_list vs) pe_index;
  let PE := 50 * (p_pe / 100) in
  mret {| go_p_pe := p_pe; go_GO := UE + PE |}.

(** 4. OI (lines 245-265); the three percentile calls are named. *)
Record oi_parts : Type := {
  oi_p_CES : Q;
  oi_p_RD_states : Q;
  oi_p_RD_countries : Q;
  oi_OI : Q
}.

Definition OI_block (vs : vectors) (r : gmap string pyval) : result oi_parts :=
  let CES_base := safe_float (get r "CES_N") 0 in
  p_CES ← percentile (CES_N_list vs) CES_base;
  let CES_score := 25 * (p_CES / 100) in
  p_states ← percentile (RD_other_states_list vs)
               (safe_float (get r "RD_other_states") 0);
  let RD_states := 18 * (p_states / 100) in
  p_countries ← percentile (RD_other_countries_list vs)
                  (safe_float (get r "RD_other_countries") 0);
  let RD_countries := 7 * (p_countries / 100) in
  let RD_score := RD_states + RD_countries in
  let N1 := safe_float (get r "WS_women_students_percent") 0 in
  let N2 := safe_float (get r "WS_women_faculty_percent") 0 in
  let N3 := safe_float (get r "WS_women_leadership_percent") 0 in
  let WS := 8 * (N1 / 50) + 8 * (N2 / 20) + 4 * (N3 / 2) in
  let ESCS_N := safe_float (get r "ESCS_disadvantaged_percent") 0 in
  let ESCS := 20 * (ESCS_N / 50) in
  let DAP :=
    (if truthy (get r "DAP_ramps") then 2 else 0) +
    (if truthy (get r "DAP_lifts") then 2 else 0) +
    (if truthy (get r "DAP_walking_aids") then 2 else 0) +
    (if truthy (get r "DAP_toilets") then 3 # 2 else 0) +
    (if truthy (get r "DAP_braille_labs") then 1 else 0) +
    (if truthy (get r "DAP_av_aids") then 3 # 2 else 0) in
  mret {| oi_p_CES := p_CES; oi_p_RD_states := p_states;
          oi_p_RD_countries := p_countries;
          oi_OI := CES_score + RD_score + WS + ESCS + DAP |}.

(** 5. PR (lines 267-271). *)
Record pr_parts : Type := {
  pr_SR : Q;
  pr_PR : Q
}.

Definition PR_block (R_star : Q) (ints : internals) (r : gmap string pyval)
  : result pr_parts :=
  let PR_survey := safe_float (get r "PR_survey") 0 in
  let SR_ratio := in_SR_ratio ints in
  q ← (if Qltb 0 R_star then truediv SR_ratio R_star else mret 0);
  let SR := 50 * q in
  mret {| pr_SR := SR; pr_PR := PR_survey + SR |}.

End Engine.

(** ** The weights file *)

(** What [yaml.safe_load] makes of [core/weights.yaml]: a mapping, or a
    document that is not a mapping (empty, a scalar, a sequence). *)
Inductive yaml_doc : Type :=
  | YMapping (m : gmap string pyval)
  | YOther.

(** The state of [core/weights.yaml] when the scores are computed. *)
Inductive weights_file : Type :=
  | FileAbsent
  | LoadRaises
  | Loaded (d : yaml_doc).

Definition default_weights : gmap string pyval :=
  <["TLR" := PNum 30]> (<["RP" := PNum 30]> (<["GO" := PNum 20]>
    (<["OI" := PNum 10]> (<["PR" := PNum 10]> ∅)))).

(** The [try] block of lines 274-288. *)
Definition load_weights (env : weights_file) : yaml_doc :=
  match env with
  | FileAbsent => YMapping default_weights
  | LoadRaises => YMapping default_weights
  | Loaded d => d
  end.

(** [weights[k]] on a mapping. *)
Definition subscript (m : gmap string pyval) (k : string) : result pyval :=
  match m !! k with
  | Some v => mret v
  | None => Raise (KeyError k)
  end.

(** [x * w] for a float [x]. *)
Definition pymul (x : Q) (w : pyval) : result Q :=
  match w with
  | PNum q => mret (x * q)
  | PBool b => mret (x * (if b then 1 else 0))
  | _ => Raise TypeError
  end.

(** [total_score] (lines 290-296). *)
Definition total_block (env : weights_file) (TLR RPII GO OI PR : Q) : result Q :=
  match load_weights env with
  | YOther => Raise TypeError
  | YMapping weights =>
    w ← subscript weights "TLR";
    t1 ← pymul TLR w;
    t2 ← pymul RPII (get_or weights "RP" (get_or weights "RPII" (PNum 30)));
    w ← subscript weights "GO";
    t3 ← pymul GO w;
    w ← subscript weights "OI";
    t4 ← pymul OI w;
    w ← subscript weights "PR";
    t5 ← pymul PR w;
    mret ((t1 + t2 + t3 + t4 + t5) / 100)
  end.

(** ** [compute_scores] *)

(** One item of the returned list. *)
Record ScoreResult : Type := {
  college_name : pyval;
  institution_type : string;
  image_url : pyval;
  website_url : pyval;
  scraping_status : pyval;
  res_TLR : Q;
  res_RP : Q;
  res_GO : Q;
  res_OI : Q;
  res_PR : Q;
  res_Total : Q
}.

Section Scores.

Context (float_of_str : string -> option Q).

(** The body of the second loop (lines 159-310). *)
Definition score_record (env : weights_file) (vs : vectors) (R_star : Q)
    (idx : nat) (r : gmap string pyval) : result ScoreResult :=
  internals ← match computed_internals vs !! idx with
              | Some i => mret i
              | None => Raise IndexError
              end;
  let F_total := in_F_total internals in
  inst_type ← institution_type_of r;
  FSR ← FSR_block float_of_str inst_type F_total r;
  let FQE := FQE_block float_of_str r in
  ll ← LL_block vs inst_type internals;
  let SEC := SEC_block float_of_str r in
  let TLR := FSR + FQE + ll_LL ll + SEC in
  rp ← RPII_block float_of_str vs internals r;
  let RPII := rp_RPII rp in
  go ← GO_block float_of_str vs r;
  let GO := go_GO go in
  oi ← OI_block float_of_str vs r;
  let OI := oi_OI oi in
  pr ← PR_block float_of_str R_star internals r;
  let PR := pr_PR pr in
  total_score ← total_block env TLR RPII GO OI PR;
  mret {|
    college_name := get r "college_name";
    institution_type := inst_type;
    image_url := get_or r "image_url" (PStr "");
    website_url := get_or r "website_url" (PStr "");
    scraping_status := get_or r "scraping_status" (PStr "manual_input");
    res_TLR := round2 TLR;
    res_RP := round2 RPII;
    res_GO := round2 GO;
    res_OI := round2 OI;
    res_PR := round2 PR;
    res_Total := round2 total_score
  |}.

(** [for idx, r in enumerate(records): ... results.append(...)] *)
Fixpoint second_pass (env : weights_file) (vs : vectors) (R_star : Q)
    (idx : nat) (records : list (gmap string pyval))
    (results : list ScoreResult) : result (list ScoreResult) :=
  match records with
  | [] => mret results
  | r :: records' =>
    s ← score_record env vs R_star idx r;
    second_pass env vs R_star (S idx) records' (results ++ [s])
  end.

Definition compute_scores (env : weights_file)
    (records : list (gmap string pyval)) : result (list ScoreResult) :=
  vs ← first_pass float_of_str records;
  let R_star := R_star_of (PR_SR_ratio_list vs) in
  second_pass env vs R_star 0 records [].

End Scores.

(** ** The values the engine computes, written without the error monad *)

(** What [percentile] returns: the share of the population at or below
    the target, in percent. *)
Definition percentile_value (values : list Q) (target : Q) : Q :=
  match values with
  | [] => 0
  | _ => inject_Z (Z.of_nat (count_le values target))
         / inject_Z (Z.of_nat (length values)) * 100
  end.

(** Item [i] of [l] exists and is the number [q]. *)
Definition item_is (l : list Q) (i : nat) (q : Q) : Prop :=
  exists x, l !! i = Some x /\ x == q.

Section Values.

Context (float_of_str : string -> option Q).

(** The number read from field [k]: [safe_float(r.get(k))]. *)
Definition num (r : gmap string pyval) (k : string) : Q :=
  safe_float float_of_str (get r k) 0.

Definition EXLI_per_student_of (r : gmap string pyval) : Q :=
  let seats_N := safe_float float_of_str (get r "seats_N") 0 in
  let EXLIP := safe_float float_of_str (get r "EXLIP") 0 in
  let EXLIE := safe_float float_of_str (get r "EXLIE") 0 in
  if Qltb 0 seats_N then EXLIP / seats_N + 2 * EXLIE / seats_N else 0.

Definition EXLB_per_student_of (r : gmap string pyval) : Q :=
  let seats_N := safe_float float_of_str (get r "seats_N") 0 in
  if Qltb 0 seats_N then safe_float float_of_str (get r "EXLB") 0 else 0.

Definition SR_ratio_value (r : gmap string pyval) : Q :=
  let A_apps := safe_float float_of_str (get r "applications_A") 0 in
  let S_intake := safe_float float_of_str (get r "sanctioned_S") 0 in
  if Qltb 0 S_intake then A_apps / S_intake else 0.

Definition internals_of (r : gmap string pyval) : internals :=
  {| in_F_total := F_total_of float_of_str r;
     in_P := P_of float_of_str r;
     in_CC := CC_of float_of_str r;
     in_EXLI_per_student := EXLI_per_student_of r;
     in_EXLB_per_student := EXLB_per_student_of r;
     in_SR_ratio := SR_ratio_value r |}.

(** The five ratios whose denominator is replaced by 1 when it is not
    positive. *)
Definition P_over_F_of (r : gmap string pyval) : Q :=
  P_of float_of_str r / positive_or_one (F_total_of float_of_str r).
Definition CC_over_P_of (r : gmap string pyval) : Q :=
  CC_of float_of_str r / positive_or_one (P_of float_of_str r).
Definition PF_over_F_of (r : gmap string pyval) : Q :=
  safe_float float_of_str (get r "PF_filed") 0
  / positive_or_one (F_total_of float_of_str r).
Definition PG_over_F_of (r : gmap string pyval) : Q :=
  safe_float float_of_str (get r "PG_granted") 0
  / positive_or_one (F_total_of float_of_str r).
Definition EP_over_F_of (r : gmap string pyval) : Q :=
  safe_float float_of_str (get r "EP_revenue") 0
  / positive_or_one (F_total_of float_of_str r).

(** The state of the lists after one more record. *)
Definition snoc_row (acc : vectors) (r : gmap string pyval) : vectors :=
  {| P_list := P_list acc ++ [P_over_F_of r];
     CC_over_F_list := CC_over_F_list acc ++ [CC_over_P_of r];
     PF_over_F_list := PF_over_F_list acc ++ [PF_over_F_of r];
     PG_over_F_list := PG_over_F_list acc ++ [PG_over_F_of r];
     EP_over_F_list := EP_over_F_list acc ++ [EP_over_F_of r];
     EXLI_per_student_list := EXLI_per_student_list acc ++ [EXLI_per_student_of r];
     EXLB_per_student_list := EXLB_per_student_list acc ++ [EXLB_per_student_of r];
     PE_index_list := PE_index_list acc
       ++ [safe_float float_of_str (get r "PE_index") 0];
     CES_N_list := CES_N_list acc ++ [safe_float float_of_str (get r "CES_N") 0];
     RD_other_states_list := RD_other_states_list acc
       ++ [safe_float float_of_str (get r "RD_other_states") 0];
     RD_other_countries_list := RD_other_countries_list acc
       ++ [safe_float float_of_str (get r "RD_other_countries") 0];
     PR_SR_ratio_list := PR_SR_ratio_list acc ++ [SR_ratio_value r];
     computed_internals := computed_internals acc ++ [internals_of r] |}.

Definition vectors_of (records : list (gmap string pyval)) : vectors :=
  fold_left snoc_row records empty_vectors.

End Values.

(** A reader of strings that accepts none: every string field falls back to
    the default of [safe_float]. *)
Definition no_strings (s : string) : option Q := None.

(** ** The citation sub-score in the words of the specification *)

Section CitationSpec.

Context (float_of_str : string -> option Q).

(** The citation index of [r] in its cohort: citation intensity times the
    publication percentile over 100. *)
Definition citation_index_spec (records : list (gmap string pyval))
    (r : gmap string pyval) : Q :=
  CC_over_P_of float_of_str r
  * (percentile_value (map (P_over_F_of float_of_str) records)
       (P_over_F_of float_of_str r) / 100).

(** The index ranked against the indices of all the institutions of the
    cohort, scaled to 45. *)
Definition CI_spec (records : list (gmap string pyval))
    (r : gmap string pyval) : Q :=
  45 * (percentile_value (map (citation_index_spec records) records)
          (citation_index_spec records r) / 100).

End CitationSpec.

(** ** Well-formed inputs *)

Definition numeric (v : pyval) : bool :=
  match v with
  | PNum _ | PBool _ => true
  | _ => false
  end.

(** A weights file from which the total can be computed: none, an unreadable
    one, or a mapping that has numbers under [TLR], [GO], [OI], [PR] and
    under [RP] (or else [RPII]) when that key is present. *)
Definition weights_usable (env : weights_file) : bool :=
  match load_weights env with
  | YOther => false
  | YMapping m =>
      numeric (get m "TLR")
      && numeric (get_or m "RP" (get_or m "RPII" (PNum 30)))
      && numeric (get m "GO") && numeric (get m "OI") && numeric (get m "PR")
  end.

(** The institution category of a record is a string, or is left out. *)
Definition category_typed (r : gmap string pyval) : bool :=
  match get r "institution_type" with
  | PNone | PStr _ => true
  | _ => false
  end.

(** ** Concrete cohorts *)

(** A record without staff, seats, publications or sanctioned intake. *)
Definition r_unstaffed : gmap string pyval :=
  list_to_map [
    ("college_name", PStr "Unstaffed"); ("seats_N", PNum 0);
    ("EXLIP", PNum 5); ("CCS", PNum 4); ("PF_filed", PNum 3);
    ("applications_A", PNum 7); ("sanctioned_S", PNum 0)].

(** A university with 100 effective faculty on 1000 seats. *)
Definition r_univ : gmap string pyval :=
  list_to_map [
    ("college_name", PStr "A"); ("institution_type", PStr "University");
    ("F1", PNum 100); ("seats_N", PNum 1000);
    ("PS", PNum 20); ("CCS", PNum 40);
    ("applications_A", PNum 50); ("sanctioned_S", PNum 10)].

(** The same record entered as a college. *)
Definition r_univ_as_college : gmap string pyval :=
  <["institution_type" := PStr "college"]> r_univ.

(** A college with 10 effective faculty on 1000 seats. *)
Definition r_small : gmap string pyval :=
  list_to_map [
    ("college_name", PStr "B");
    ("F1", PNum 10); ("seats_N", PNum 1000);
    ("PS", PNum 1); ("CCS", PNum 4)].

(** A weights file from which the key [TLR] is missing. *)
Definition weights_without_TLR : weights_file :=
  Loaded (YMapping (list_to_map [
    ("RP", PNum 30); ("GO", PNum 20); ("OI", PNum 10); ("PR", PNum 10)])).

(** ** What the engine reads of a record *)

(** The keys [compute_scores] reads through [safe_float]. *)
Definition numeric_keys : list string := [
  "F1"; "F2"; "seats_N"; "PW"; "PS"; "PG"; "PI"; "CCW"; "CCS"; "CCG"; "CCI";
  "PF_filed"; "PG_granted"; "EP_revenue"; "EXLIP"; "EXLIE"; "EXLB";
  "PE_index"; "CES_N"; "RD_other_states"; "RD_other_countries";
  "applications_A"; "sanctioned_S"; "phd_percent"; "avg_experience_years";
  "SEC_pA_percentile"; "SEC_pB_percentile"; "SEC_winners_count";
  "SEC_pC_percentile"; "PL_licensed_count"; "UE_graduating_percent";
  "WS_women_students_percent"; "WS_women_faculty_percent";
  "WS_women_leadership_percent"; "ESCS_disadvantaged_percent"; "PR_survey"].

(** The keys it tests for truth. *)
Definition flag_keys : list string := [
  "DAP_ramps"; "DAP_lifts"; "DAP_walking_aids"; "DAP_toilets";
  "DAP_braille_labs"; "DAP_av_aids"].

(** The keys it copies to the result, and the institution type. *)
Definition passthrough_keys : list string := [
  "college_name"; "institution_type"; "image_url"; "website_url";
  "scraping_status"].

Definition key_in (k : string) (keys : list string) : bool :=
  existsb (String.eqb k) keys.

(** Two records from which the engine reads the same numbers, flags, type
    and copied fields. *)
Definition reads_same (float_of_str : string -> option Q)
    (r r' : gmap string pyval) : Prop :=
  (forall k, key_in k numeric_keys = true ->
     num float_of_str r k = num float_of_str r' k) /\
  (forall k, key_in k flag_keys = true ->
     truthy (get r k) = truthy (get r' k)) /\
  (forall k, key_in k passthrough_keys = true -> r !! k = r' !! k).

(** ** The stored inputs: insert or replace by college name *)

(** [a == b] on scalars: numbers by value, a boolean as 0 or 1. *)
Definition py_eq (a b : pyval) : bool :=
  match a, b with
  | PNone, PNone => true
  | PStr s, PStr s' => String.eqb s s'
  | PNum q, PNum q' => Qeq_bool q q'
  | PBool b1, PBool b2 => Bool.eqb b1 b2
  | PBool b1, PNum q => Qeq_bool (if b1 then 1 else 0) q
  | PNum q, PBool b2 => Qeq_bool q (if b2 then 1 else 0)
  | _, _ => false
  end.

(** The loop of lines 513-517 (and 664-668, 685-689): the first record with
    the name is replaced; [None] when the loop ends without a match. *)
Fixpoint replace_first (name : pyval) (record : gmap string pyval)
    (inputs : list (gmap string pyval)) : option (list (gmap string pyval)) :=
  match inputs with
  | [] => None
  | r :: inputs' =>
      if py_eq (get r "college_name") name then Some (record :: inputs')
      else cons r <$> replace_first name record inputs'
  end.

(** Lines 512-519: replace the record of that college, else append. *)
Definition upsert (inputs : list (gmap string pyval))
    (record : gmap string pyval) : list (gmap string pyval) :=
  match replace_first (get record "college_name") record inputs with
  | Some inputs' => inputs'
  | None => inputs ++ [record]
  end.

(** College names that are pairwise different under [==]. *)
Definition names_distinct (inputs : list (gmap string pyval)) : Prop :=
  forall i j ri rj,
    inputs !! i = Some ri -> inputs !! j = Some rj ->
    py_eq (get ri "college_name") (get rj "college_name") = true -> i = j.

(** ** The summary table of [input_metrics] *)

(** [sorted(scores, key=lambda x: x["Total"], reverse=True)]: the stable
    sort by decreasing total.  An item goes before the first item whose
    total is not greater than its own. *)
Fixpoint insert_by_total (s : ScoreResult) (sorted : list ScoreResult)
  : list ScoreResult :=
  match sorted with
  | [] => [s]
  | t :: sorted' =>
      if Qleb (res_Total t) (res_Total s) then s :: t :: sorted'
      else t :: insert_by_total s sorted'
  end.

Fixpoint sorted_by_total (scores : list ScoreResult) : list ScoreResult :=
  match scores with
  | [] => []
  | s :: scores' => insert_by_total s (sorted_by_total scores')
  end.

(** One row of [results_summary.csv]. *)
Record summary_row : Type := {
  row_Rank : nat;
  row_College : pyval;
  row_TLR : Q;
  row_RP : Q;
  row_GO : Q;
  row_OI : Q;
  row_PR : Q;
  row_Total_Score : Q;
  row_Status : string
}.

(** Lines 530-543. *)
Definition summary_rows (scores : list ScoreResult) : list summary_row :=
  imap (fun i s =>
          {| row_Rank := i + 1;
             row_College := college_name s;
             row_TLR := res_TLR s;
             row_RP := res_RP s;
             row_GO := res_GO s;
             row_OI := res_OI s;
             row_PR := res_PR s;
             row_Total_Score := res_Total s;
             row_Status := "manual_input" |})
       (sorted_by_total scores).


(** ** Scraped data: [apply_intelligent_defaults] and [advanced_scraping]
    of [main.py] *)

(** [needle in hay] on strings. *)
Fixpoint contains (needle hay : string) : bool :=
  match hay with
  | EmptyString => String.prefix needle hay
  | String _ hay' => String.prefix needle hay || contains needle hay'
  end.

(** The [defaults] dictionary of lines 346-370, in its order. *)
Definition base_defaults : list (string * pyval) := [
  ("faculty_count", PNum 200); ("phd_count", PNum 120);
  ("student_count", PNum 4000);
  ("publications", PNum 300); ("citations", PNum 2000); ("patents", PNum 15);
  ("median_salary_lpa", PNum 6); ("students_placed", PNum 80);
  ("higher_studies", PNum 20);
  ("female_percentage", PNum 45); ("obc_percentage", PNum 25);
  ("sc_percentage", PNum 15); ("pwd_students", PNum 2);
  ("linkedin_mentions", PNum 500); ("engagement_score", PNum 75)].

(** The values assigned for premier institutions (lines 375-385). *)
Definition premier_overrides : list (string * pyval) := [
  ("faculty_count", PNum 400); ("phd_count", PNum 300);
  ("student_count", PNum 8000);
  ("publications", PNum 800); ("citations", PNum 5000); ("patents", PNum 30);
  ("median_salary_lpa", PNum 12); ("students_placed", PNum 95);
  ("higher_studies", PNum 30);
  ("linkedin_mentions", PNum 2000); ("engagement_score", PNum 85)].

(** [defaults[k] = v] on the ordered dictionary: the value changes, the
    place of the key does not. *)
Definition assign (k : string) (v : pyval) (d : list (string * pyval))
  : list (string * pyval) :=
  map (fun kv => if String.eqb kv.1 k then (k, v) else kv) d.

(** [any(keyword in college_name.lower() for keyword in [...])] *)
Definition is_premier (college_name : string) : bool :=
  existsb (fun keyword => contains keyword (lower college_name))
    ["iit"; "iim"; "nit"; "central"].

Definition defaults_for (college_name : string) : list (string * pyval) :=
  if is_premier college_name
  then fold_left (fun d kv => assign kv.1 kv.2 d) premier_overrides base_defaults
  else base_defaults.

(** Lines 387-390: a default is written where the key is missing or holds
    [None]. *)
Definition apply_default (data : gmap string pyval) (kv : string * pyval)
  : gmap string pyval :=
  match data !! kv.1 with
  | None | Some PNone => <[kv.1 := kv.2]> data
  | Some _ => data
  end.

Definition apply_intelligent_defaults (data : gmap string pyval)
    (college_name : string) : gmap string pyval :=
  fold_left apply_default (defaults_for college_name) data.

(** [advanced_scraping] (lines 104-125).  What the three scraping
    strategies return is given: the dictionary of the main page, those of
    the subpages in the order visited, and that of the search. *)
Definition advanced_scraping (main_data : gmap string pyval)
    (subpage_data : list (gmap string pyval)) (search_data : gmap string pyval)
    (college_name : string) : gmap string pyval :=
  let data : gmap string pyval := ∅ in
  (* data.update(main_data) *)
  let data := main_data ∪ data in
  let data := fold_left (fun data sub => sub ∪ data) subpage_data data in
  let data := search_data ∪ data in
  apply_intelligent_defaults data college_name.

(** ** [map_scraped_to_record] *)

(** [v > 0]; a string or [None] cannot be compared with a number. *)
Definition py_gt_zero (v : pyval) : result bool :=
  match v with
  | PNum q => mret (Qltb 0 q)
  | PBool b => mret b
  | _ => Raise TypeError
  end.

(** [v or 0] *)
Definition or_zero (v : pyval) : pyval := if truthy v then v else PNum 0.

Section Scraped.

Context (float_of_str : string -> option Q).

(** [float(v)], [None] where it raises. *)
Definition py_float (v : pyval) : option Q :=
  match v with
  | PNone => None
  | PBool b => Some (if b then 1 else 0)
  | PNum q => Some q
  | PStr s => float_of_str s
  end.

(** Lines 602-607: the [try] turns every failure of the conversion or of
    the division into 0.0; the comparison is outside it. *)
Definition scraped_phd_percent (faculty_count phd_count : pyval) : result Q :=
  if truthy faculty_count && truthy phd_count then
    positive ← py_gt_zero faculty_count;
    if positive : bool then
      match py_float phd_count, py_float faculty_count with
      | Some p, Some f =>
          match truediv p f with
          | Ok x => mret (x * 100)
          | Raise _ => mret 0
          end
      | _, _ => mret 0
      end
    else mret 0
  else mret 0.

Definition map_scraped_to_record (college_name website_url : string)
    (scraped : gmap string pyval) : result (gmap string pyval) :=
  let faculty_count := get scraped "faculty_count" in
  let phd_count := get scraped "phd_count" in
  let student_count := get scraped "student_count" in
  let publications := get scraped "publications" in
  let citations := get scraped "citations" in
  let patents := get scraped "patents" in
  phd_percent ← scraped_phd_percent faculty_count phd_count;
  mret (list_to_map [
    ("college_name", PStr college_name);
    ("website_url", PStr website_url);
    ("image_url", get_or scraped "image_url" (PStr ""));
    ("institution_type", PStr "college");
    ("scraping_status",
       PStr (if decide (scraped = ∅) then "manual_input" else "success"));
    ("F1", or_zero faculty_count);
    ("F2", PNum 0);
    ("seats_N", or_zero student_count);
    ("phd_percent", PNum (round2 phd_percent));
    ("avg_experience_years", PNum 0);
    ("EXLIP", PNum 0); ("EXLIE", PNum 0); ("EXLB", PNum 0);
    ("SEC_pA_percentile", PNum 0); ("SEC_pB_percentile", PNum 0);
    ("SEC_pC_percentile", PNum 0); ("SEC_winners_count", PNum 0);
    ("PW", PNum 0); ("PS", or_zero publications); ("PG", PNum 0);
    ("PI", PNum 0);
    ("CCW", PNum 0); ("CCS", or_zero citations); ("CCG", PNum 0);
    ("CCI", PNum 0);
    ("PF_filed", PNum 0); ("PG_granted", or_zero patents);
    ("PL_licensed_count", PNum 0); ("EP_revenue", PNum 0);
    ("UE_graduating_percent", PNum 0); ("PE_index", PNum 0);
    ("CES_N", PNum 0);
    ("RD_other_states", PNum 0); ("RD_other_countries", PNum 0);
    ("WS_women_students_percent", PNum 0);
    ("WS_women_faculty_percent", PNum 0);
    ("WS_women_leadership_percent", PNum 0);
    ("ESCS_disadvantaged_percent", PNum 0);
    ("DAP_ramps", PBool false); ("DAP_lifts", PBool false);
    ("DAP_walking_aids", PBool false); ("DAP_toilets", PBool false);
    ("DAP_braille_labs", PBool false); ("DAP_av_aids", PBool false);
    ("PR_survey", PNum 0); ("applications_A", PNum 0);
    ("sanctioned_S", PNum 0)]).

End Scraped.

(** Scraped data whose values are all numbers, as [int] and [float] make
    them. *)
Definition numeric_data (data : gmap string pyval) : Prop :=
  forall k v, data !! k = Some v -> exists q, v = PNum q.

(** ** The form of [input_metrics] and the files it writes *)

(** [str.strip()], on ASCII white space. *)
Definition is_space (c : ascii) : bool :=
  let n := nat_of_ascii c in
  (((9 <=? n) && (n <=? 13)) || ((28 <=? n) && (n <=? 32)))%nat.

Fixpoint lstrip (s : string) : string :=
  match s with
  | EmptyString => EmptyString
  | String c s' => if is_space c then lstrip s' else s
  end.

Fixpoint rstrip (s : string) : string :=
  match s with
  | EmptyString => EmptyString
  | String c s' =>
      match rstrip s' with
      | EmptyString => if is_space c then EmptyString else String c EmptyString
      | t => String c t
      end
  end.

Definition strip (s : string) : string := rstrip (lstrip s).

(** Text of ASCII characters, on which [str.strip] and [str.lower] are
    [strip] and [lower]. *)
Fixpoint ascii_text (s : string) : bool :=
  match s with
  | EmptyString => true
  | String c s' => (nat_of_ascii c <? 128)%nat && ascii_text s'
  end.

(** [form.get(k, d)] *)
Definition form_get (form : gmap string string) (k d : string) : string :=
  default d (form !! k).

(** [bool(form.get(k))] *)
Definition form_flag (form : gmap string string) (k : string) : pyval :=
  PBool (match form !! k with
         | Some s => negb (String.eqb s "")
         | None => false
         end).

(** The record built from the submitted form (lines 452-508). *)
Definition form_record (form : gmap string string) : gmap string pyval :=
  let text k := PStr (form_get form k "0") in
  list_to_map [
    ("college_name", PStr (strip (form_get form "college_name" "")));
    ("website_url", PStr (strip (form_get form "website_url" "")));
    ("image_url", PStr (strip (form_get form "image_url" "")));
    ("institution_type", PStr (form_get form "institution_type" "college"));
    ("scraping_status", PStr "manual_input");
    ("F1", text "F1"); ("F2", text "F2"); ("seats_N", text "seats_N");
    ("phd_percent", text "phd_percent");
    ("avg_experience_years", text "avg_experience_years");
    ("EXLIP", text "EXLIP"); ("EXLIE", text "EXLIE"); ("EXLB", text "EXLB");
    ("SEC_pA_percentile", text "SEC_pA_percentile");
    ("SEC_pB_percentile", text "SEC_pB_percentile");
    ("SEC_pC_percentile", text "SEC_pC_percentile");
    ("SEC_winners_count", text "SEC_winners_count");
    ("PW", text "PW"); ("PS", text "PS"); ("PG", text "PG"); ("PI", text "PI");
    ("CCW", text "CCW"); ("CCS", text "CCS"); ("CCG", text "CCG");
    ("CCI", text "CCI");
    ("PF_filed", text "PF_filed"); ("PG_granted", text "PG_granted");
    ("PL_licensed_count", text "PL_licensed_count");
    ("EP_revenue", text "EP_revenue");
    ("UE_graduating_percent", text "UE_graduating_percent");
    ("PE_index", text "PE_index");
    ("CES_N", text "CES_N");
    ("RD_other_states", text "RD_other_states");
    ("RD_other_countries", text "RD_other_countries");
    ("WS_women_students_percent", text "WS_women_students_percent");
    ("WS_women_faculty_percent", text "WS_women_faculty_percent");
    ("WS_women_leadership_percent", text "WS_women_leadership_percent");
    ("ESCS_disadvantaged_percent", text "ESCS_disadvantaged_percent");
    ("DAP_ramps", form_flag form "DAP_ramps");
    ("DAP_lifts", form_flag form "DAP_lifts");
    ("DAP_walking_aids", form_flag form "DAP_walking_aids");
    ("DAP_toilets", form_flag form "DAP_toilets");
    ("DAP_braille_labs", form_flag form "DAP_braille_labs");
    ("DAP_av_aids", form_flag form "DAP_av_aids");
    ("PR_survey", text "PR_survey");
    ("applications_A", text "applications_A");
    ("sanctioned_S", text "sanctioned_S")].

(** A file of the warehouse: not there, there but unreadable, or holding a
    value. *)
Inductive file (A : Type) : Type :=
  | Missing
  | Unreadable
  | Holds (a : A).
Arguments Missing {A}.
Arguments Unreadable {A}.
Arguments Holds {A} a.

(** The body of [load_inputs] (lines 26-33), and the same reading of the
    history in [append_history] (lines 44-50): an absent or unreadable
    file reads as the empty list. *)
Definition load_list {A} (f : file (list A)) : list A :=
  match f with
  | Holds l => l
  | _ => []
  end.

(** One item of [history.json]. *)
Record history_entry : Type := {
  h_timestamp : string;
  h_college_name : pyval;
  h_record : gmap string pyval;
  h_scores : ScoreResult
}.

Record store : Type := {
  inputs_json : file (list (gmap string pyval));
  nirf_scores_csv : file (list ScoreResult);
  results_summary_csv : file (list summary_row);
  history_json : file (list history_entry)
}.

(** [append_history] (lines 42-53). *)
Definition append_history (entry : history_entry)
    (history_file : file (list history_entry)) : file (list history_entry) :=
  let history := load_list history_file in
  Holds (history ++ [entry]).

Section InputMetrics.

Context (float_of_str : string -> option Q).

(** The POST branch of [input_metrics] (lines 450-558): the state of the
    files afterwards, and [Raise] when [compute_scores] raises.  [now] is
    the time stamp. *)
Definition input_metrics_post (env : weights_file) (now : string)
    (form : gmap string string) (st : store) : store * result unit :=
  let record := form_record form in
  let inputs := load_list (inputs_json st) in
  let inputs := upsert inputs record in
  (* save_inputs(inputs) *)
  let st := {| inputs_json := Holds inputs;
               nirf_scores_csv := nirf_scores_csv st;
               results_summary_csv := results_summary_csv st;
               history_json := history_json st |} in
  match compute_scores float_of_str env inputs with
  | Raise e => (st, Raise e)
  | Ok scores =>
      let saved_score :=
        List.find (fun s => py_eq (college_name s) (get record "college_name"))
          scores in
      let history :=
        match saved_score with
        | Some s =>
            append_history
              {| h_timestamp := now;
                 h_college_name := get record "college_name";
                 h_record := record;
                 h_scores := s |} (history_json st)
        | None => history_json st
        end in
      ({| inputs_json := Holds inputs;
          nirf_scores_csv := Holds scores;
          results_summary_csv := Holds (summary_rows scores);
          history_json := history |}, mret ())
  end.

End InputMetrics.

(** ** [resolve_official_site] and [auto_scrape] *)

(** [s.replace(old, new)] for a non-empty [old]: the occurrences are
    replaced from the left and do not overlap.  [skip] counts the characters
    of a replaced occurrence still to be passed over. *)
Fixpoint replace_from (old new : string) (skip : nat) (s : string) : string :=
  match s with
  | EmptyString => EmptyString
  | String c s' =>
      match skip with
      | S k => replace_from old new k s'
      | O =>
          if String.prefix old s
          then new +:+ replace_from old new (String.length old - 1) s'
          else String c (replace_from old new 0 s')
      end
  end.

Definition replace (old new s : string) : string := replace_from old new 0 s.

(** The four guesses of lines 577-583. *)
Definition site_candidates (college_name : string) : list string :=
  let name :=
    replace "college" "" (replace "university" "" (replace " " ""
      (lower college_name))) in
  [ "https://www." +:+ name +:+ ".ac.in";
    "https://" +:+ name +:+ ".ac.in";
    "https://www." +:+ name +:+ ".edu.in";
    "https://" +:+ name +:+ ".edu.in" ].

(** The loop of lines 585-591.  [head url] is the answer to
    [requests.head(url, ...)]: the status code and the final URL, or [None]
    when the request raises. *)
Fixpoint first_reachable (head : string -> option (nat * string))
    (candidates : list string) : option string :=
  match candidates with
  | [] => None
  | url :: candidates' =>
      match head url with
      | Some (status_code, final_url) =>
          if (status_code <? 400)%nat then Some final_url
          else first_reachable head candidates'
      | None => first_reachable head candidates'
      end
  end.

Definition resolve_official_site (head : string -> option (nat * string))
    (college_name : string) (provided_url : option string) : option string :=
  match provided_url with
  | Some url =>
      if negb (String.eqb url "") then Some (strip url)
      else first_reachable head (site_candidates college_name)
  | None => first_reachable head (site_candidates college_name)
  end.

(** What a view returns: a page, with or without an error message, or a
    redirection to the input form of a college. *)
Inductive response : Type :=
  | Rendered (error : option string)
  | Redirected (college : string).

Section AutoScrape.

Context (float_of_str : string -> option Q).

(** The POST branch of [auto_scrape] (lines 650-694).
    [scraper_available] tells whether [main.NIRFCalculator] could be
    imported; [scrape site name] is what
    [NIRFCalculator().advanced_scraping(site, name)] returns, [None] when
    the constructor or the call raises. *)
Definition auto_scrape_post (head : string -> option (nat * string))
    (scraper_available : bool)
    (scrape : string -> string -> option (gmap string pyval))
    (form : gmap string string) (st : store) : store * result response :=
  let college_name := strip (default "" (form !! "college_name")) in
  let website_url := strip (default "" (form !! "website_url")) in
  if String.eqb college_name "" then
    (st, mret (Rendered (Some "College name is required")))
  else
    let site :=
      resolve_official_site head college_name
        (if String.eqb website_url "" then None else Some website_url) in
    if negb scraper_available then
      (st, mret (Rendered (Some "Scraper not available.")))
    else
      let store_record record :=
        {| inputs_json := Holds (upsert (load_list (inputs_json st)) record);
           nirf_scores_csv := nirf_scores_csv st;
           results_summary_csv := results_summary_csv st;
           history_json := history_json st |} in
      match site with
      | Some site_url =>
          if String.eqb site_url "" then
            match map_scraped_to_record float_of_str college_name website_url ∅ with
            | Ok minimal => (store_record minimal, mret (Redirected college_name))
            | Raise e => (st, Raise e)
            end
          else
            let scraped := default ∅ (scrape site_url college_name) in
            match map_scraped_to_record float_of_str college_name site_url
                    scraped with
            | Ok record => (store_record record, mret (Redirected college_name))
            | Raise e => (st, Raise e)
            end
      | None =>
          match map_scraped_to_record float_of_str college_name website_url ∅ with
          | Ok minimal => (store_record minimal, mret (Redirected college_name))
          | Raise e => (st, Raise e)
          end
      end.

End AutoScrape.


(** ** The engine on floats with [nan] and infinities

    [float] accepts the strings [nan], [inf], [infinity] and, by overflow,
    [1e999], so [safe_float] can return a float that is not a finite number,
    and the engine computes with it.  Module [Float] is the embedding of
    [percentile], [safe_float] and [compute_scores] over such floats: a
    finite number (an exact rational, rounding is not modelled), an
    infinity, or [nan], with the arithmetic and the comparisons of IEEE 754
    on them (every comparison with [nan] is false) and with Python's
    [ZeroDivisionError] for a zero divisor.  Each definition is the
    function of the same name above, read on floats, and embeds the source
    lines given there; [Float.compute_scores] agrees with
    [compute_scores] on every cohort whose fields read as finite
    numbers. *)

Module Float.

Inductive pyfloat : Type :=
  | Fin (q : Q)
  | PInf
  | NInf
  | NaN.

Definition is_nan (x : pyfloat) : bool :=
  match x with
  | NaN => true
  | _ => false
  end.

(** The infinity of the sign of [s1 * s2], for signs given as "is
    negative". *)
Definition inf_of (negative : bool) : pyfloat :=
  if negative then NInf else PInf.

(** [x + y] *)
Definition fadd (x y : pyfloat) : pyfloat :=
  match x, y with
  | NaN, _ | _, NaN => NaN
  | Fin a, Fin b => Fin (a + b)
  | PInf, NInf | NInf, PInf => NaN
  | PInf, _ | _, PInf => PInf
  | NInf, _ | _, NInf => NInf
  end.

(** [x - y] *)
Definition fsub (x y : pyfloat) : pyfloat :=
  match x, y with
  | NaN, _ | _, NaN => NaN
  | Fin a, Fin b => Fin (a - b)
  | PInf, PInf | NInf, NInf => NaN
  | PInf, _ | _, NInf => PInf
  | NInf, _ | _, PInf => NInf
  end.

(** [x * y]; zero times an infinity is [nan]. *)
Definition fmul (x y : pyfloat) : pyfloat :=
  match x, y with
  | NaN, _ | _, NaN => NaN
  | Fin a, Fin b => Fin (a * b)
  | Fin a, PInf | PInf, Fin a =>
      if Qeq_bool a 0 then NaN else inf_of (Qltb a 0)
  | Fin a, NInf | NInf, Fin a =>
      if Qeq_bool a 0 then NaN else inf_of (negb (Qltb a 0))
  | PInf, PInf | NInf, NInf => PInf
  | PInf, NInf | NInf, PInf => NInf
  end.

(** [x / y]: a zero divisor raises, whatever [x] is. *)
Definition truediv (x y : pyfloat) : result pyfloat :=
  match y with
  | Fin b =>
      if Qeq_bool b 0 then Raise ZeroDivisionError
      else match x with
           | Fin a => Ok (Fin (a / b))
           | PInf => Ok (inf_of (Qltb b 0))
           | NInf => Ok (inf_of (negb (Qltb b 0)))
           | NaN => Ok NaN
           end
  | PInf | NInf =>
      match x with
      | Fin _ => Ok (Fin 0)
      | _ => Ok NaN
      end
  | NaN => Ok NaN
  end.

(** [x / c] for a literal [c] that is positive. *)
Definition fdivc (x : pyfloat) (c : Q) : pyfloat :=
  match x with
  | Fin a => Fin (a / c)
  | _ => x
  end.

(** [x <= y] and [x < y]: false as soon as one side is [nan]. *)
Definition fle (x y : pyfloat) : bool :=
  match x, y with
  | NaN, _ | _, NaN => false
  | Fin a, Fin b => Qleb a b
  | NInf, _ | _, PInf => true
  | _, _ => false
  end.

Definition flt (x y : pyfloat) : bool :=
  match x, y with
  | NaN, _ | _, NaN => false
  | Fin a, Fin b => Qltb a b
  | PInf, _ | _, NInf => false
  | _, _ => true
  end.

(** [x if x > 0 else 1.0] *)
Definition positive_or_one (x : pyfloat) : pyfloat :=
  if flt (Fin 0) x then x else Fin 1.

(** Python's [max]: a later item replaces the current one only when it is
    strictly greater, so a [nan] in first place stays and a later [nan] is
    passed over. *)
Definition pymax (a b : pyfloat) : pyfloat := if flt a b then b else a.

Definition pymax_list (l : list pyfloat) : pyfloat :=
  match l with
  | [] => Fin 0
  | x :: l' => fold_left pymax l' x
  end.

(** [round(x, 2)] *)
Definition round2 (x : pyfloat) : pyfloat :=
  match x with
  | Fin q => Fin (round2 q)
  | _ => x
  end.

#[global] Instance fle_dec (x y : pyfloat) : Decision (fle x y = true).
Proof. apply _. Defined.

(** *** [percentile] *)

Fixpoint count_le (vals : list pyfloat) (target : pyfloat) : nat :=
  match vals with
  | [] => 0%nat
  | v :: vals' => ((if fle v target then 1 else 0) + count_le vals' target)%nat
  end.

(** With [nan] among the values the order that [sorted] gives depends on
    its algorithm; what [percentile] returns does not, it depends on the
    values as a multiset only.  The sorted list is here the merge sort. *)
Definition percentile (values : list pyfloat) (target : pyfloat)
  : result pyfloat :=
  match values with
  | [] => Ok (Fin 0)
  | _ =>
    let sorted_vals := merge_sort (fun x y => fle x y = true) values in
    let count_le := count_le sorted_vals target in
    x ← truediv (Fin (inject_Z (Z.of_nat count_le)))
                (Fin (inject_Z (Z.of_nat (length sorted_vals))));
    mret (fmul x (Fin 100))
  end.

Section Engine.

(** [float(s)] on a string: a float, [nan] and the infinities included;
    [None] where [float] raises [ValueError]. *)
Context (float_of_str : string -> option pyfloat).

Definition safe_float (val : pyval) (default : pyfloat) : pyfloat :=
  match val with
  | PNone => default
  | PStr s =>
      if String.eqb s "" then default
      else match float_of_str s with
           | Some x => x
           | None => default
           end
  | PNum q => Fin q
  | PBool b => Fin (if b then 1 else 0)
  end.

(** *** First pass *)

Record internals : Type := {
  in_F_total : pyfloat;
  in_P : pyfloat;
  in_CC : pyfloat;
  in_EXLI_per_student : pyfloat;
  in_EXLB_per_student : pyfloat;
  in_SR_ratio : pyfloat
}.

Record vectors : Type := {
  P_list : list pyfloat;
  CC_over_F_list : list pyfloat;
  PF_over_F_list : list pyfloat;
  PG_over_F_list : list pyfloat;
  EP_over_F_list : list pyfloat;
  EXLI_per_student_list : list pyfloat;
  EXLB_per_student_list : list pyfloat;
  PE_index_list : list pyfloat;
  CES_N_list : list pyfloat;
  RD_other_states_list : list pyfloat;
  RD_other_countries_list : list pyfloat;
  PR_SR_ratio_list : list pyfloat;
  computed_internals : list internals
}.

Definition empty_vectors : vectors :=
  {| P_list := []; CC_over_F_list := []; PF_over_F_list := [];
     PG_over_F_list := []; EP_over_F_list := [];
     EXLI_per_student_list := []; EXLB_per_student_list := [];
     PE_index_list := []; CES_N_list := []; RD_other_states_list := [];
     RD_other_countries_list := []; PR_SR_ratio_list := [];
     computed_internals := [] |}.

Definition per_student (seats_N EXLIP EXLIE EXLB : pyfloat)
  : result (pyfloat * pyfloat) :=
  if flt (Fin 0) seats_N then
    a ← truediv EXLIP seats_N;
    b ← truediv (fmul (Fin 2) EXLIE) seats_N;
    mret (fadd a b, EXLB)
  else mret (Fin 0, Fin 0).

Definition SR_ratio_of (A_apps S_intake : pyfloat) : result pyfloat :=
  if flt (Fin 0) S_intake then truediv A_apps S_intake else mret (Fin 0).

Definition F_total_of (r : gmap string pyval) : pyfloat :=
  let F1 := safe_float (get r "F1") (Fin 0) in
  let F2 := safe_float (get r "F2") (Fin 0) in
  fadd F1 (fmul (Fin (3 # 10)) F2).

Definition P_of (r : gmap string pyval) : pyfloat :=
  let PW := safe_float (get r "PW") (Fin 0) in
  let PS := safe_float (get r "PS") (Fin 0) in
  let PG := safe_float (get r "PG") (Fin 0) in
  let PI := safe_float (get r "PI") (Fin 0) in
  fadd (fadd (fadd (fmul (Fin (3 # 10)) PW) (fmul (Fin (5 # 10)) PS))
             (fmul (Fin (1 # 10)) PG))
       (fmul (Fin (1 # 10)) PI).

Definition CC_of (r : gmap string pyval) : pyfloat :=
  let CCW := safe_float (get r "CCW") (Fin 0) in
  let CCS := safe_float (get r "CCS") (Fin 0) in
  let CCG := safe_float (get r "CCG") (Fin 0) in
  let CCI := safe_float (get r "CCI") (Fin 0) in
  fadd (fadd (fadd (fmul (Fin (3 # 10)) CCW) (fmul (Fin (5 # 10)) CCS))
             (fmul (Fin (1 # 10)) CCG))
       (fmul (Fin (1 # 10)) CCI).

Definition first_pass_step (acc : vectors) (r : gmap string pyval)
  : result vectors :=
  let F_total := F_total_of r in
  let seats_N := safe_float (get r "seats_N") (Fin 0) in
  let P := P_of r in
  let CC := CC_of r in
  let PF := safe_float (get r "PF_filed") (Fin 0) in
  let PG_granted := safe_float (get r "PG_granted") (Fin 0) in
  let EP := safe_float (get r "EP_revenue") (Fin 0) in
  let EXLIP := safe_float (get r "EXLIP") (Fin 0) in
  let EXLIE := safe_float (get r "EXLIE") (Fin 0) in
  let EXLB := safe_float (get r "EXLB") (Fin 0) in
  ps ← per_student seats_N EXLIP EXLIE EXLB;
  let EXLI_per_student := ps.1 in
  let EXLB_per_student := ps.2 in
  let pe_index := safe_float (get r "PE_index") (Fin 0) in
  let CES_N := safe_float (get r "CES_N") (Fin 0) in
  let RD_other_states := safe_float (get r "RD_other_states") (Fin 0) in
  let RD_other_countries := safe_float (get r "RD_other_countries") (Fin 0) in
  let A_apps := safe_float (get r "applications_A") (Fin 0) in
  let S_intake := safe_float (get r "sanctioned_S") (Fin 0) in
  SR_ratio ← SR_ratio_of A_apps S_intake;
  x_P ← truediv P (positive_or_one F_total);
  x_CC ← truediv CC (positive_or_one P);
  x_PF ← truediv PF (positive_or_one F_total);
  x_PG ← truediv PG_granted (positive_or_one F_total);
  x_EP ← truediv EP (positive_or_one F_total);
  mret {|
    P_list := P_list acc ++ [x_P];
    CC_over_F_list := CC_over_F_list acc ++ [x_CC];
    PF_over_F_list := PF_over_F_list acc ++ [x_PF];
    PG_over_F_list := PG_over_F_list acc ++ [x_PG];
    EP_over_F_list := EP_over_F_list acc ++ [x_EP];
    EXLI_per_student_list := EXLI_per_student_list acc ++ [EXLI_per_student];
    EXLB_per_student_list := EXLB_per_student_list acc ++ [EXLB_per_student];
    PE_index_list := PE_index_list acc ++ [pe_index];
    CES_N_list := CES_N_list acc ++ [CES_N];
    RD_other_states_list := RD_other_states_list acc ++ [RD_other_states];
    RD_other_countries_list := RD_other_countries_list acc ++ [RD_other_countries];
    PR_SR_ratio_list := PR_SR_ratio_list acc ++ [SR_ratio];
    computed_internals := computed_internals acc ++
      [{| in_F_total := F_total; in_P := P; in_CC := CC;
          in_EXLI_per_student := EXLI_per_student;
          in_EXLB_per_student := EXLB_per_student;
          in_SR_ratio := SR_ratio |}]
  |}.

Fixpoint first_pass_from (acc : vectors) (records : list (gmap string pyval))
  : result vectors :=
  match records with
  | [] => mret acc
  | r :: records' => acc' ← first_pass_step acc r; first_pass_from acc' records'
  end.

Definition first_pass (records : list (gmap string pyval)) : result vectors :=
  first_pass_from empty_vectors records.

Definition R_star_of (PR_SR_ratio_list : list pyfloat) : pyfloat :=
  match PR_SR_ratio_list with
  | [] => Fin 1
  | _ => pymax_list PR_SR_ratio_list
  end.

(** *** Second pass *)

Definition F_over_N_of (F_total seats_N : pyfloat) : result pyfloat :=
  if flt (Fin 0) seats_N then truediv F_total seats_N else mret (Fin 0).

Definition FSR_block (inst_type : string) (F_total : pyfloat)
    (r : gmap string pyval) : result pyfloat :=
  let seats_N := safe_float (get r "seats_N") (Fin 0) in
  F_over_N ← F_over_N_of F_total seats_N;
  let FSR :=
    if String.eqb inst_type "university"
    then fmul (Fin 20) (fmul (Fin 15) F_over_N)
    else fmul (Fin 30) (fmul (Fin 20) F_over_N) in
  let FSR := if flt F_over_N (Fin (1 / 50)) then Fin 0 else FSR in
  mret FSR.

Definition FQE_block (r : gmap string pyval) : pyfloat :=
  let phd_percent := safe_float (get r "phd_percent") (Fin 0) in
  let FQ :=
    if fle phd_percent (Fin 95) then fmul (Fin 15) (fdivc phd_percent 95)
    else Fin 15 in
  let avg_exp := safe_float (get r "avg_experience_years") (Fin 0) in
  let Ei :=
    if fle avg_exp (Fin 45) then pymax (fsub avg_exp (Fin 30)) (Fin 0)
    else Fin 15 in
  let E := Ei in
  let FE := if fle E (Fin 15) then fmul (Fin 15) (fdivc E 15) else Fin 15 in
  fadd FQ FE.

Record ll_parts : Type := {
  ll_p_EXLI : pyfloat;
  ll_p_EXLB : pyfloat;
  ll_LL : pyfloat
}.

Definition LL_block (vs : vectors) (inst_type : string) (ints : internals)
  : result ll_parts :=
  let EXLI_ps := in_EXLI_per_student ints in
  let EXLB_ps := in_EXLB_per_student ints in
  p_EXLI ← percentile (EXLI_per_student_list vs) EXLI_ps;
  p_EXLB ← percentile (EXLB_per_student_list vs) EXLB_ps;
  let LI :=
    if String.eqb inst_type "university"
    then fdivc (fmul (Fin 20) p_EXLI) 100
    else fdivc (fmul (Fin 15) p_EXLI) 100 in
  let LB :=
    if String.eqb inst_type "university"
    then fdivc (fmul (Fin 20) p_EXLB) 100
    else fdivc (fmul (Fin 15) p_EXLB) 100 in
  mret {| ll_p_EXLI := p_EXLI; ll_p_EXLB := p_EXLB; ll_LL := fadd LI LB |}.

Definition SEC_block (r : gmap string pyval) : pyfloat :=
  let pA := fdivc (safe_float (get r "SEC_pA_percentile") (Fin 0)) 100 in
  let pB := fdivc (safe_float (get r "SEC_pB_percentile") (Fin 0)) 100 in
  let winners := safe_float (get r "SEC_winners_count") (Fin 0) in
  let pC_val :=
    if fle (Fin 3) winners then Fin 1
    else fdivc (safe_float (get r "SEC_pC_percentile") (Fin 0)) 100 in
  fmul (Fin 10) (fadd (fadd (fdivc pA 2) (fdivc pB 4)) (fdivc pC_val 4)).

Record rp_parts : Type := {
  rp_p_pub : pyfloat;
  rp_PU : pyfloat;
  rp_base_citation_index : pyfloat;
  rp_p_citation : pyfloat;
  rp_CI : pyfloat;
  rp_p_PF : pyfloat;
  rp_p_PG : pyfloat;
  rp_p_EP : pyfloat;
  rp_IPR : pyfloat;
  rp_RPII : pyfloat
}.

Definition RPII_block (vs : vectors) (ints : internals) (r : gmap string pyval)
  : result rp_parts :=
  let F_total := in_F_total ints in
  P_over_F ← truediv (in_P ints) (positive_or_one F_total);
  p_pub ← percentile (P_list vs) P_over_F;
  let PU := fmul (Fin 45) (fdivc p_pub 100) in
  let CC := in_CC ints in
  let P_val := in_P ints in
  p_P ← percentile (P_list vs) P_over_F;
  intensity ← truediv CC (positive_or_one P_val);
  let base_citation_index := fmul intensity (fdivc p_P 100) in
  p_citation ← percentile (CC_over_F_list vs) base_citation_index;
  let CI := fmul (Fin 45) (fdivc p_citation 100) in
  let PF_val := safe_float (get r "PF_filed") (Fin 0) in
  let PG_granted_val := safe_float (get r "PG_granted") (Fin 0) in
  let EP_val := safe_float (get r "EP_revenue") (Fin 0) in
  x_PF ← truediv PF_val (positive_or_one F_total);
  p_PF ← percentile (PF_over_F_list vs) x_PF;
  let PF_comp := fmul (Fin 2) (fdivc p_PF 100) in
  x_PG ← truediv PG_granted_val (positive_or_one F_total);
  p_PG ← percentile (PG_over_F_list vs) x_PG;
  let PG_comp := fmul (Fin 4) (fdivc p_PG 100) in
  let I_P :=
    if fle (Fin 1) PG_granted_val
       && fle (Fin 1) (safe_float (get r "PL_licensed_count") (Fin 0))
    then Fin 1 else Fin 0 in
  x_EP ← truediv EP_val (positive_or_one F_total);
  p_EP ← percentile (EP_over_F_list vs) x_EP;
  let PL_comp := fadd (fmul (Fin 2) I_P) (fmul (Fin 2) (fdivc p_EP 100)) in
  let IPR := fadd (fadd PF_comp PG_comp) PL_comp in
  mret {| rp_p_pub := p_pub; rp_PU := PU;
          rp_base_citation_index := base_citation_index;
          rp_p_citation := p_citation; rp_CI := CI;
          rp_p_PF := p_PF; rp_p_PG := p_PG; rp_p_EP := p_EP;
          rp_IPR := IPR; rp_RPII := fadd (fadd PU CI) IPR |}.

Record go_parts : Type := {
  go_p_pe : pyfloat;
  go_GO : pyfloat
}.

Definition GO_block (vs : vectors) (r : gmap string pyval) : result go_parts :=
  let UE_percent := safe_float (get r "UE_graduating_percent") (Fin 0) in
  let UE := fmul (Fin 50) (fdivc UE_percent 80) in
  let pe_index := safe_float (get r "PE_index") (Fin 0) in
  p_pe ← percentile (PE_index_list vs) pe_index;
  let PE := fmul (Fin 50) (fdivc p_pe 100) in
  mret {| go_p_pe := p_pe; go_GO := fadd UE PE |}.

Record oi_parts : Type := {
  oi_p_CES : pyfloat;
  oi_p_RD_states : pyfloat;
  oi_p_RD_countries : pyfloat;
  oi_OI : pyfloat
}.

Definition OI_block (vs : vectors) (r : gmap string pyval) : result oi_parts :=
  let CES_base := safe_float (get r "CES_N") (Fin 0) in
  p_CES ← percentile (CES_N_list vs) CES_base;
  let CES_score := fmul (Fin 25) (fdivc p_CES 100) in
  p_states ← percentile (RD_other_states_list vs)
               (safe_float (get r "RD_other_states") (Fin 0));
  let RD_states := fmul (Fin 18) (fdivc p_states 100) in
  p_countries ← percentile (RD_other_countries_list vs)
                  (safe_float (get r "RD_other_countries") (Fin 0));
  let RD_countries := fmul (Fin 7) (fdivc p_countries 100) in
  let RD_score := fadd RD_states RD_countries in
  let N1 := safe_float (get r "WS_women_students_percent") (Fin 0) in
  let N2 := safe_float (get r "WS_women_faculty_percent") (Fin 0) in
  let N3 := safe_float (get r "WS_women_leadership_percent") (Fin 0) in
  let WS :=
    fadd (fadd (fmul (Fin 8) (fdivc N1 50)) (fmul (Fin 8) (fdivc N2 20)))
         (fmul (Fin 4) (fdivc N3 2)) in
  let ESCS_N := safe_float (get r "ESCS_disadvantaged_percent") (Fin 0) in
  let ESCS := fmul (Fin 20) (fdivc ESCS_N 50) in
  let flag k (points : Q) := if truthy (get r k) then Fin points else Fin 0 in
  let DAP :=
    fadd (fadd (fadd (fadd (fadd
      (flag "DAP_ramps" 2) (flag "DAP_lifts" 2)) (flag "DAP_walking_aids" 2))
      (flag "DAP_toilets" (3 # 2))) (flag "DAP_braille_labs" 1))
      (flag "DAP_av_aids" (3 # 2)) in
  mret {| oi_p_CES := p_CES; oi_p_RD_states := p_states;
          oi_p_RD_countries := p_countries;
          oi_OI := fadd (fadd (fadd (fadd CES_score RD_score) WS) ESCS) DAP |}.

Record pr_parts : Type := {
  pr_SR : pyfloat;
  pr_PR : pyfloat
}.

Definition PR_block (R_star : pyfloat) (ints : internals)
    (r : gmap string pyval) : result pr_parts :=
  let PR_survey := safe_float (get r "PR_survey") (Fin 0) in
  let SR_ratio := in_SR_ratio ints in
  q ← (if flt (Fin 0) R_star then truediv SR_ratio R_star else mret (Fin 0));
  let SR := fmul (Fin 50) q in
  mret {| pr_SR := SR; pr_PR := fadd PR_survey SR |}.

(** *** Total and result *)

Definition pymul (x : pyfloat) (w : pyval) : result pyfloat :=
  match w with
  | PNum q => mret (fmul x (Fin q))
  | PBool b => mret (fmul x (Fin (if b then 1 else 0)))
  | _ => Raise TypeError
  end.

Definition total_block (env : weights_file) (TLR RPII GO OI PR : pyfloat)
  : result pyfloat :=
  match load_weights env with
  | YOther => Raise TypeError
  | YMapping weights =>
    w ← subscript weights "TLR";
    t1 ← pymul TLR w;
    t2 ← pymul RPII (get_or weights "RP" (get_or weights "RPII" (PNum 30)));
    w ← subscript weights "GO";
    t3 ← pymul GO w;
    w ← subscript weights "OI";
    t4 ← pymul OI w;
    w ← subscript weights "PR";
    t5 ← pymul PR w;
    mret (fdivc (fadd (fadd (fadd (fadd t1 t2) t3) t4) t5) 100)
  end.

Record ScoreResult : Type := {
  college_name : pyval;
  institution_type : string;
  image_url : pyval;
  website_url : pyval;
  scraping_status : pyval;
  res_TLR : pyfloat;
  res_RP : pyfloat;
  res_GO : pyfloat;
  res_OI : pyfloat;
  res_PR : pyfloat;
  res_Total : pyfloat
}.

Definition score_record (env : weights_file) (vs : vectors) (R_star : pyfloat)
    (idx : nat) (r : gmap string pyval) : result ScoreResult :=
  internals ← match computed_internals vs !! idx with
              | Some i => mret i
              | None => Raise IndexError
              end;
  let F_total := in_F_total internals in
  inst_type ← institution_type_of r;
  FSR ← FSR_block inst_type F_total r;
  let FQE := FQE_block r in
  ll ← LL_block vs inst_type internals;
  let SEC := SEC_block r in
  let TLR := fadd (fadd (fadd FSR FQE) (ll_LL ll)) SEC in
  rp ← RPII_block vs internals r;
  let RPII := rp_RPII rp in
  go ← GO_block vs r;
  let GO := go_GO go in
  oi ← OI_block vs r;
  let OI := oi_OI oi in
  pr ← PR_block R_star internals r;
  let PR := pr_PR pr in
  total_score ← total_block env TLR RPII GO OI PR;
  mret {|
    college_name := get r "college_name";
    institution_type := inst_type;
    image_url := get_or r "image_url" (PStr "");
    website_url := get_or r "website_url" (PStr "");
    scraping_status := get_or r "scraping_status" (PStr "manual_input");
    res_TLR := round2 TLR;
    res_RP := round2 RPII;
    res_GO := round2 GO;
    res_OI := round2 OI;
    res_PR := round2 PR;
    res_Total := round2 total_score
  |}.

Fixpoint second_pass (env : weights_file) (vs : vectors) (R_star : pyfloat)
    (idx : nat) (records : list (gmap string pyval))
    (results : list ScoreResult) : result (list ScoreResult) :=
  match records with
  | [] => mret results
  | r :: records' =>
    s ← score_record env vs R_star idx r;
    second_pass env vs R_star (S idx) records' (results ++ [s])
  end.

Definition compute_scores (env : weights_file)
    (records : list (gmap string pyval)) : result (list ScoreResult) :=
  vs ← first_pass records;
  let R_star := R_star_of (PR_SR_ratio_list vs) in
  second_pass env vs R_star 0 records [].

(** *** The values ranked by percentile *)

(** [x / (d if d > 0 else 1.0)]; the divisor is never zero. *)
Definition ratio (x d : pyfloat) : pyfloat :=
  match truediv x (positive_or_one d) with
  | Ok y => y
  | Raise _ => NaN
  end.

Definition EXLI_per_student_of (r : gmap string pyval) : pyfloat :=
  match per_student (safe_float (get r "seats_N") (Fin 0))
          (safe_float (get r "EXLIP") (Fin 0))
          (safe_float (get r "EXLIE") (Fin 0))
          (safe_float (get r "EXLB") (Fin 0)) with
  | Ok ps => ps.1
  | Raise _ => NaN
  end.

Definition EXLB_per_student_of (r : gmap string pyval) : pyfloat :=
  if flt (Fin 0) (safe_float (get r "seats_N") (Fin 0))
  then safe_float (get r "EXLB") (Fin 0) else Fin 0.

Definition SR_ratio_value (r : gmap string pyval) : pyfloat :=
  match SR_ratio_of (safe_float (get r "applications_A") (Fin 0))
          (safe_float (get r "sanctioned_S") (Fin 0)) with
  | Ok x => x
  | Raise _ => NaN
  end.

(** The eleven values of a record that are ranked against the cohort:
    library, laboratory, publication and citation intensity, patents filed,
    granted and patent revenue per faculty, placement index, community
    engagement, other states, other countries. *)
Definition ranked_values (r : gmap string pyval) : list pyfloat := [
  EXLI_per_student_of r;
  EXLB_per_student_of r;
  ratio (P_of r) (F_total_of r);
  ratio (CC_of r) (P_of r);
  ratio (safe_float (get r "PF_filed") (Fin 0)) (F_total_of r);
  ratio (safe_float (get r "PG_granted") (Fin 0)) (F_total_of r);
  ratio (safe_float (get r "EP_revenue") (Fin 0)) (F_total_of r);
  safe_float (get r "PE_index") (Fin 0);
  safe_float (get r "CES_N") (Fin 0);
  safe_float (get r "RD_other_states") (Fin 0);
  safe_float (get r "RD_other_countries") (Fin 0)].

Definition internals_of (r : gmap string pyval) : internals :=
  {| in_F_total := F_total_of r;
     in_P := P_of r;
     in_CC := CC_of r;
     in_EXLI_per_student := EXLI_per_student_of r;
     in_EXLB_per_student := EXLB_per_student_of r;
     in_SR_ratio := SR_ratio_value r |}.

Definition snoc_row (acc : vectors) (r : gmap string pyval) : vectors :=
  {| P_list := P_list acc ++ [ratio (P_of r) (F_total_of r)];
     CC_over_F_list := CC_over_F_list acc ++ [ratio (CC_of r) (P_of r)];
     PF_over_F_list := PF_over_F_list acc
       ++ [ratio (safe_float (get r "PF_filed") (Fin 0)) (F_total_of r)];
     PG_over_F_list := PG_over_F_list acc
       ++ [ratio (safe_float (get r "PG_granted") (Fin 0)) (F_total_of r)];
     EP_over_F_list := EP_over_F_list acc
       ++ [ratio (safe_float (get r "EP_revenue") (Fin 0)) (F_total_of r)];
     EXLI_per_student_list := EXLI_per_student_list acc ++ [EXLI_per_student_of r];
     EXLB_per_student_list := EXLB_per_student_list acc ++ [EXLB_per_student_of r];
     PE_index_list := PE_index_list acc ++ [safe_float (get r "PE_index") (Fin 0)];
     CES_N_list := CES_N_list acc ++ [safe_float (get r "CES_N") (Fin 0)];
     RD_other_states_list := RD_other_states_list acc
       ++ [safe_float (get r "RD_other_states") (Fin 0)];
     RD_other_countries_list := RD_other_countries_list acc
       ++ [safe_float (get r "RD_other_countries") (Fin 0)];
     PR_SR_ratio_list := PR_SR_ratio_list acc ++ [SR_ratio_value r];
     computed_internals := computed_internals acc ++ [internals_of r] |}.

Definition vectors_of (records : list (gmap string pyval)) : vectors :=
  fold_left snoc_row records empty_vectors.

End Engine.

(** A reader of strings that knows [nan] and [inf] and refuses every other
    string. *)
Definition nan_inf_reader (s : string) : option pyfloat :=
  if String.eqb s "nan" then Some NaN
  else if String.eqb s "inf" then Some PInf
  else None.

(** The finite part of a reader of strings: the reader of the engine on
    finite numbers that agrees with it on the strings read as finite. *)
Definition finite_part (float_of_str : string -> option pyfloat)
    (s : string) : option Q :=
  match float_of_str s with
  | Some (Fin q) => Some q
  | _ => None
  end.

(** What [percentile] returns: the share of the population at or below
    the target, in percent; no value is at or below [nan], and [nan] is at
    or below no target. *)
Definition percentile_value (values : list pyfloat) (target : pyfloat)
  : pyfloat :=
  match values with
  | [] => Fin 0
  | _ => Fin (inject_Z (Z.of_nat (count_le values target))
              / inject_Z (Z.of_nat (length values)) * 100)
  end.

(** [x == y] and "x is a finite number". *)
Definition feq (x y : pyfloat) : bool :=
  match x, y with
  | Fin a, Fin b => Qeq_bool a b
  | PInf, PInf | NInf, NInf => true
  | _, _ => false
  end.


(** A value that [safe_float] reads as a finite number, and a record of
    such values. *)
Definition finite_value (float_of_str : string -> option pyfloat)
    (v : pyval) : bool :=
  match v with
  | PStr s =>
      String.eqb s ""
      || match float_of_str s with
         | Some (Fin _) | None => true
         | Some _ => false
         end
  | _ => true
  end.

Definition finite_record (float_of_str : string -> option pyfloat)
    (r : gmap string pyval) : Prop :=
  forall k, finite_value float_of_str (get r k) = true.

End Float.

(** *** From finite numbers to floats *)

Definition lift_internals (i : internals) : Float.internals :=
  {| Float.in_F_total := Float.Fin (in_F_total i);
     Float.in_P := Float.Fin (in_P i);
     Float.in_CC := Float.Fin (in_CC i);
     Float.in_EXLI_per_student := Float.Fin (in_EXLI_per_student i);
     Float.in_EXLB_per_student := Float.Fin (in_EXLB_per_student i);
     Float.in_SR_ratio := Float.Fin (in_SR_ratio i) |}.

Definition lift_vectors (vs : vectors) : Float.vectors :=
  {| Float.P_list := map Float.Fin (P_list vs);
     Float.CC_over_F_list := map Float.Fin (CC_over_F_list vs);
     Float.PF_over_F_list := map Float.Fin (PF_over_F_list vs);
     Float.PG_over_F_list := map Float.Fin (PG_over_F_list vs);
     Float.EP_over_F_list := map Float.Fin (EP_over_F_list vs);
     Float.EXLI_per_student_list := map Float.Fin (EXLI_per_student_list vs);
     Float.EXLB_per_student_list := map Float.Fin (EXLB_per_student_list vs);
     Float.PE_index_list := map Float.Fin (PE_index_list vs);
     Float.CES_N_list := map Float.Fin (CES_N_list vs);
     Float.RD_other_states_list := map Float.Fin (RD_other_states_list vs);
     Float.RD_other_countries_list :=
       map Float.Fin (RD_other_countries_list vs);
     Float.PR_SR_ratio_list := map Float.Fin (PR_SR_ratio_list vs);
     Float.computed_internals := map lift_internals (computed_internals vs) |}.

Definition lift_result (s : ScoreResult) : Float.ScoreResult :=
  {| Float.college_name := college_name s;
     Float.institution_type := institution_type s;
     Float.image_url := image_url s;
     Float.website_url := website_url s;
     Float.scraping_status := scraping_status s;
     Float.res_TLR := Float.Fin (res_TLR s);
     Float.res_RP := Float.Fin (res_RP s);
     Float.res_GO := Float.Fin (res_GO s);
     Float.res_OI := Float.Fin (res_OI s);
     Float.res_PR := Float.Fin (res_PR s);
     Float.res_Total := Float.Fin (res_Total s) |}.

(** [c] in the engine on finite numbers, read as a computation on floats. *)
Definition lift {A B} (f : A -> B) (c : result A) : result B :=
  match c with
  | Ok a => Ok (f a)
  | Raise e => Raise e
  end.

(** A one-record cohort whose placement index is the string [nan]. *)
Definition r_nan_index : gmap string pyval :=
  list_to_map [("college_name", PStr "A"); ("PE_index", PStr "nan")].

(** A cohort of two: five applications per seat, and [nan] applications. *)
Definition r_five_per_seat : gmap string pyval :=
  list_to_map [("college_name", PStr "A");
               ("applications_A", PNum 5); ("sanctioned_S", PNum 1)].
Definition r_nan_applications : gmap string pyval :=
  list_to_map [("college_name", PStr "B");
               ("applications_A", PStr "nan"); ("sanctioned_S", PNum 1)].

(** A record whose institution type is the number 5. *)
Definition r_numeric_type : gmap string pyval :=
  list_to_map [("college_name", PStr "A"); ("institution_type", PNum 5)].

(** ** Facts on the primitives *)

Lemma Qleb_le a b : Qleb a b = true <-> a <= b.
Proof. apply Qle_bool_iff. Qed.

Lemma Qltb_lt a b : Qltb a b = true <-> a < b.
Proof.
  unfold Qltb. rewrite negb_true_iff. split.
  - intros H. apply Qnot_le_lt. intros Hle. apply Qle_bool_iff in Hle. congruence.
  - intros H. destruct (Qle_bool b a) eqn:E; [|done].
    apply Qle_bool_iff in E. apply Qlt_not_le in H. contradiction.
Qed.

Lemma Qltb_ge a b : Qltb a b = false <-> b <= a.
Proof.
  unfold Qltb. rewrite negb_false_iff. apply Qle_bool_iff.
Qed.

Lemma Qleb_gt a b : Qleb a b = false <-> b < a.
Proof.
  rewrite <- Qltb_lt. unfold Qltb, Qleb. rewrite negb_true_iff. done.
Qed.

Lemma truediv_nonzero a b : ~ b == 0 -> truediv a b = Ok (a / b).
Proof.
  intros H. unfold truediv. destruct (Qeq_bool b 0) eqn:E; [|done].
  apply Qeq_bool_iff in E. contradiction.
Qed.

Lemma truediv_pos a b : 0 < b -> truediv a b = Ok (a / b).
Proof. intros H. apply truediv_nonzero. intros E. rewrite E in H. lra. Qed.

Lemma positive_or_one_pos x : 0 < positive_or_one x.
Proof.
  unfold positive_or_one. destruct (Qltb 0 x) eqn:E.
  - by apply Qltb_lt.
  - reflexivity.
Qed.

Lemma positive_or_one_nonpos x : x <= 0 -> positive_or_one x = 1.
Proof.
  intros H. unfold positive_or_one. by apply Qltb_ge in H as ->.
Qed.

Lemma truediv_guarded a x : truediv a (positive_or_one x) = Ok (a / positive_or_one x).
Proof. apply truediv_pos, positive_or_one_pos. Qed.

(** *** Counting *)

Lemma count_le_mono vals t1 t2 :
  t1 <= t2 -> (count_le vals t1 <= count_le vals t2)%nat.
Proof.
  intros Ht. induction vals as [|v vals IH]; simpl; [lia|].
  destruct (Qleb v t1) eqn:E1.
  - apply Qleb_le in E1.
    assert (Qleb v t2 = true) as -> by (apply Qleb_le; lra). lia.
  - destruct (Qleb v t2); lia.
Qed.

Lemma count_le_length vals t : (count_le vals t <= length vals)%nat.
Proof.
  induction vals as [|v vals IH]; simpl; [lia|].
  destruct (Qleb v t); lia.
Qed.

Lemma count_le_Permutation vals vals' t :
  Permutation vals vals' -> count_le vals t = count_le vals' t.
Proof.
  induction 1; simpl; try lia.
Qed.

Lemma count_le_Qeq vals t t' : t == t' -> count_le vals t = count_le vals t'.
Proof.
  intros Ht. apply Nat.le_antisymm; apply count_le_mono; lra.
Qed.

Lemma percentile_returns values target :
  exists p, percentile values target = Ok p /\ p == percentile_value values target.
Proof.
  destruct values as [|v values]; [by exists 0|].
  unfold percentile.
  set (s := merge_sort Qle (v :: values)).
  assert (Permutation s (v :: values)) as Hp by apply merge_sort_Permutation.
  assert (length s = S (length values)) as Hl by (by rewrite Hp).
  rewrite truediv_nonzero.
  - eexists; split; [reflexivity|]. simpl percentile_value.
    rewrite (count_le_Permutation _ _ _ Hp), Hl. reflexivity.
  - rewrite Hl. unfold Qeq, inject_Z; simpl. lia.
Qed.

Lemma percentile_value_mono values t1 t2 :
  t1 <= t2 -> percentile_value values t1 <= percentile_value values t2.
Proof.
  intros Ht. destruct values as [|v values]; [simpl; lra|].
  unfold percentile_value.
  pose proof (count_le_mono (v :: values) t1 t2 Ht) as Hc.
  set (n := length (v :: values)).
  assert (0 < inject_Z (Z.of_nat n)) as Hn.
  { unfold n, Qlt, inject_Z; simpl. lia. }
  apply Qmult_le_compat_r; [|lra].
  apply Qmult_le_compat_r.
  - rewrite <- Zle_Qle. lia.
  - apply Qlt_le_weak, Qinv_lt_0_compat, Hn.
Qed.

Lemma percentile_value_Qeq values t t' :
  t == t' -> percentile_value values t == percentile_value values t'.
Proof.
  intros Ht. apply Qle_antisym; apply percentile_value_mono; lra.
Qed.

(** ** The claims on [percentile] *)

(** C7. Percentile monotonicity: on a fixed population, a smaller target
    never gets a greater percentile; both calls return. *)
Theorem percentile_monotone (population : list Q) (target1 target2 : Q) :
  target1 < target2 ->
  exists p1 p2,
    percentile population target1 = Ok p1 /\
    percentile population target2 = Ok p2 /\
    p1 <= p2.
Proof.
  intros Hlt.
  destruct (percentile_returns population target1) as (p1 & E1 & V1).
  destruct (percentile_returns population target2) as (p2 & E2 & V2).
  exists p1, p2. split; [done|]. split; [done|].
  rewrite V1, V2. apply percentile_value_mono. lra.
Qed.

Lemma percentile_monotone_witness :
  exists p1 p2,
    percentile [3; 1; 2; 2] 1 = Ok p1 /\
    percentile [3; 1; 2; 2] 2 = Ok p2 /\
    p1 <= p2.
Proof.
  apply (percentile_monotone [3; 1; 2; 2] 1 2). reflexivity.
Defined.

(** ** The first pass never raises *)

Section FirstPassFacts.

Context (float_of_str : string -> option Q).

Lemma per_student_returns seats_N EXLIP EXLIE EXLB :
  per_student seats_N EXLIP EXLIE EXLB =
  Ok (if Qltb 0 seats_N then (EXLIP / seats_N + 2 * EXLIE / seats_N, EXLB)
      else (0, 0)).
Proof.
  unfold per_student. destruct (Qltb 0 seats_N) eqn:E; [|done].
  apply Qltb_lt in E. by rewrite !truediv_pos.
Qed.

Lemma SR_ratio_of_returns A_apps S_intake :
  SR_ratio_of A_apps S_intake =
  Ok (if Qltb 0 S_intake then A_apps / S_intake else 0).
Proof.
  unfold SR_ratio_of. destruct (Qltb 0 S_intake) eqn:E; [|done].
  apply Qltb_lt in E. by rewrite truediv_pos.
Qed.

Lemma first_pass_step_returns acc r :
  first_pass_step float_of_str acc r = Ok (snoc_row float_of_str acc r).
Proof.
  unfold first_pass_step.
  rewrite per_student_returns, SR_ratio_of_returns, !truediv_guarded.
  unfold snoc_row, internals_of, EXLI_per_student_of, EXLB_per_student_of,
    SR_ratio_value, P_over_F_of, CC_over_P_of, PF_over_F_of, PG_over_F_of,
    EP_over_F_of.
  unfold num. simpl.
  destruct (Qltb 0 (safe_float float_of_str (get r "seats_N") 0)); reflexivity.
Qed.

Lemma first_pass_from_returns records : forall acc,
  first_pass_from float_of_str acc records =
  Ok (fold_left (snoc_row float_of_str) records acc).
Proof.
  induction records as [|r records IH]; intros acc; simpl; [done|].
  rewrite first_pass_step_returns. simpl. apply IH.
Qed.

Lemma first_pass_returns records :
  first_pass float_of_str records = Ok (vectors_of float_of_str records).
Proof. apply first_pass_from_returns. Qed.

(** Every list of the first pass is the image of the cohort, in order. *)
Lemma fold_snoc_row_fields records : forall acc,
  let vs := fold_left (snoc_row float_of_str) records acc in
  P_list vs = P_list acc ++ map (P_over_F_of float_of_str) records /\
  CC_over_F_list vs = CC_over_F_list acc ++ map (CC_over_P_of float_of_str) records /\
  PF_over_F_list vs = PF_over_F_list acc ++ map (PF_over_F_of float_of_str) records /\
  PG_over_F_list vs = PG_over_F_list acc ++ map (PG_over_F_of float_of_str) records /\
  EP_over_F_list vs = EP_over_F_list acc ++ map (EP_over_F_of float_of_str) records /\
  EXLI_per_student_list vs =
    EXLI_per_student_list acc ++ map (EXLI_per_student_of float_of_str) records /\
  EXLB_per_student_list vs =
    EXLB_per_student_list acc ++ map (EXLB_per_student_of float_of_str) records /\
  PE_index_list vs = PE_index_list acc ++ map (fun r => num float_of_str r "PE_index") records /\
  CES_N_list vs = CES_N_list acc ++ map (fun r => num float_of_str r "CES_N") records /\
  RD_other_states_list vs =
    RD_other_states_list acc ++ map (fun r => num float_of_str r "RD_other_states") records /\
  RD_other_countries_list vs =
    RD_other_countries_list acc ++ map (fun r => num float_of_str r "RD_other_countries") records /\
  PR_SR_ratio_list vs =
    PR_SR_ratio_list acc ++ map (SR_ratio_value float_of_str) records /\
  computed_internals vs =
    computed_internals acc ++ map (internals_of float_of_str) records.
Proof.
  induction records as [|r records IH]; intros acc; simpl.
  - rewrite !app_nil_r. repeat split.
  - specialize (IH (snoc_row float_of_str acc r)). simpl in IH.
    destruct IH as (-> & -> & -> & -> & -> & -> & -> & -> & -> & -> & -> & -> & ->).
    rewrite <- !app_assoc. repeat split.
Qed.

Lemma vectors_of_fields records :
  let vs := vectors_of float_of_str records in
  P_list vs = map (P_over_F_of float_of_str) records /\
  CC_over_F_list vs = map (CC_over_P_of float_of_str) records /\
  PF_over_F_list vs = map (PF_over_F_of float_of_str) records /\
  PG_over_F_list vs = map (PG_over_F_of float_of_str) records /\
  EP_over_F_list vs = map (EP_over_F_of float_of_str) records /\
  EXLI_per_student_list vs = map (EXLI_per_student_of float_of_str) records /\
  EXLB_per_student_list vs = map (EXLB_per_student_of float_of_str) records /\
  PE_index_list vs = map (fun r => num float_of_str r "PE_index") records /\
  CES_N_list vs = map (fun r => num float_of_str r "CES_N") records /\
  RD_other_states_list vs = map (fun r => num float_of_str r "RD_other_states") records /\
  RD_other_countries_list vs = map (fun r => num float_of_str r "RD_other_countries") records /\
  PR_SR_ratio_list vs = map (SR_ratio_value float_of_str) records /\
  computed_internals vs = map (internals_of float_of_str) records.
Proof. apply (fold_snoc_row_fields records empty_vectors). Qed.

Lemma item_is_map {A} (f : A -> Q) (l : list A) (i : nat) (a : A) (q : Q) :
  l !! i = Some a -> f a == q -> item_is (map f l) i q.
Proof.
  intros Hl Hq. exists (f a). split; [|done].
  by rewrite list_lookup_fmap, Hl.
Qed.

(** C1 (amended). In the first pass a denominator that is not positive is
    replaced by 1 in the five ratios over the effective faculty and over the
    publication score, so these ratios are the numerator itself; the
    library-items-per-student ratio and the application/seat ratio are 0
    when their denominator is not positive.  The first pass returns. *)
Theorem first_pass_zero_guards (records : list (gmap string pyval)) (idx : nat)
    (r : gmap string pyval) :
  records !! idx = Some r ->
  exists vs,
    first_pass float_of_str records = Ok vs /\
    (F_total_of float_of_str r <= 0 ->
       item_is (P_list vs) idx (P_of float_of_str r) /\
       item_is (PF_over_F_list vs) idx (num float_of_str r "PF_filed") /\
       item_is (PG_over_F_list vs) idx (num float_of_str r "PG_granted") /\
       item_is (EP_over_F_list vs) idx (num float_of_str r "EP_revenue")) /\
    (P_of float_of_str r <= 0 ->
       item_is (CC_over_F_list vs) idx (CC_of float_of_str r)) /\
    (num float_of_str r "seats_N" <= 0 -> item_is (EXLI_per_student_list vs) idx 0) /\
    (num float_of_str r "sanctioned_S" <= 0 -> item_is (PR_SR_ratio_list vs) idx 0).
Proof.
  intros Hr. exists (vectors_of float_of_str records).
  split; [apply first_pass_returns|].
  destruct (vectors_of_fields records)
    as (-> & -> & -> & -> & -> & -> & _ & _ & _ & _ & _ & -> & _).
  unfold num. repeat split.
  - apply (item_is_map _ _ _ _ _ Hr). unfold P_over_F_of.
    rewrite positive_or_one_nonpos by done. field.
  - apply (item_is_map _ _ _ _ _ Hr). unfold PF_over_F_of.
    rewrite positive_or_one_nonpos by done. field.
  - apply (item_is_map _ _ _ _ _ Hr). unfold PG_over_F_of.
    rewrite positive_or_one_nonpos by done. field.
  - apply (item_is_map _ _ _ _ _ Hr). unfold EP_over_F_of.
    rewrite positive_or_one_nonpos by done. field.
  - intros HP. apply (item_is_map _ _ _ _ _ Hr). unfold CC_over_P_of.
    rewrite positive_or_one_nonpos by done. field.
  - intros Hs. apply (item_is_map _ _ _ _ _ Hr). unfold EXLI_per_student_of.
    apply Qltb_ge in Hs. by rewrite Hs.
  - intros Hs. apply (item_is_map _ _ _ _ _ Hr). unfold SR_ratio_value.
    apply Qltb_ge in Hs. by rewrite Hs.
Qed.

End FirstPassFacts.

(** C1, as stated, fails for the library ratio and for the application/seat
    ratio: with no seats and no sanctioned intake both are 0, not their
    numerators 5 and 7. *)
Lemma zero_denominator_substitution_counterexample :
  exists vs,
    first_pass no_strings [r_unstaffed] = Ok vs /\
    num no_strings r_unstaffed "seats_N" <= 0 /\
    EXLI_per_student_list vs = [0] /\
    ~ 0 == num no_strings r_unstaffed "EXLIP"
           + 2 * num no_strings r_unstaffed "EXLIE" /\
    num no_strings r_unstaffed "sanctioned_S" <= 0 /\
    PR_SR_ratio_list vs = [0] /\
    ~ 0 == num no_strings r_unstaffed "applications_A".
Proof.
  eexists. split; [vm_compute; reflexivity|].
  repeat split; try (vm_compute; congruence).
Qed.

Lemma first_pass_zero_guards_witness :
  exists vs,
    first_pass no_strings [r_unstaffed] = Ok vs /\
    item_is (PF_over_F_list vs) 0 3 /\
    item_is (CC_over_F_list vs) 0 2 /\
    item_is (EXLI_per_student_list vs) 0 0 /\
    item_is (PR_SR_ratio_list vs) 0 0.
Proof.
  destruct (first_pass_zero_guards no_strings [r_unstaffed] 0 r_unstaffed eq_refl)
    as (vs & Hvs & HF & HP & HS & HA).
  exists vs. split; [exact Hvs|].
  assert (F_total_of no_strings r_unstaffed <= 0) as H1 by (vm_compute; congruence).
  assert (P_of no_strings r_unstaffed <= 0) as H2 by (vm_compute; congruence).
  assert (num no_strings r_unstaffed "seats_N" <= 0) as H3 by (vm_compute; congruence).
  assert (num no_strings r_unstaffed "sanctioned_S" <= 0) as H4 by (vm_compute; congruence).
  destruct (HF H1) as (_ & (x & Hx & Ex) & _).
  destruct (HP H2) as (y & Hy & Ey).
  repeat split.
  - exists x. split; [exact Hx|]. rewrite Ex. reflexivity.
  - exists y. split; [exact Hy|]. rewrite Ey. reflexivity.
  - exact (HS H3).
  - exact (HA H4).
Defined.

(** ** The faculty-ratio sub-score *)

Section FSRFacts.

Context (float_of_str : string -> option Q).

Lemma F_over_N_of_returns F_total seats_N :
  F_over_N_of F_total seats_N =
  Ok (if Qltb 0 seats_N then F_total / seats_N else 0).
Proof.
  unfold F_over_N_of. destruct (Qltb 0 seats_N) eqn:E; [|done].
  apply Qltb_lt in E. by rewrite truediv_pos.
Qed.

Lemma FSR_block_returns inst_type F_total r :
  FSR_block float_of_str inst_type F_total r =
  Ok (let x := if Qltb 0 (num float_of_str r "seats_N")
               then F_total / num float_of_str r "seats_N" else 0 in
      if Qltb x (1 / 50) then 0
      else if String.eqb inst_type "university" then 20 * (15 * x)
           else 30 * (20 * x)).
Proof.
  unfold FSR_block. rewrite F_over_N_of_returns. reflexivity.
Qed.

Lemma FSR_block_below_floor inst_type F_total r :
  (0 < num float_of_str r "seats_N" ->
   F_total / num float_of_str r "seats_N" < 1 / 50) ->
  FSR_block float_of_str inst_type F_total r = Ok 0.
Proof.
  intros H. rewrite FSR_block_returns. cbv zeta.
  destruct (Qltb 0 (num float_of_str r "seats_N")) eqn:E.
  - apply Qltb_lt in E. specialize (H E). by apply Qltb_lt in H as ->.
  - reflexivity.
Qed.

Lemma internals_at records idx r :
  records !! idx = Some r ->
  computed_internals (vectors_of float_of_str records) !! idx
  = Some (internals_of float_of_str r).
Proof.
  intros Hr.
  destruct (vectors_of_fields float_of_str records)
    as (_ & _ & _ & _ & _ & _ & _ & _ & _ & _ & _ & _ & ->).
  by rewrite list_lookup_fmap, Hr.
Qed.

(** C5. Floor rule: when the effective-faculty/seats ratio of a record is
    below 1/50, its FSR component is exactly 0, whatever the institution
    type, the other fields and the rest of the cohort. *)
Theorem FSR_floor_rule (records : list (gmap string pyval)) (idx : nat)
    (r : gmap string pyval) :
  records !! idx = Some r ->
  (0 < num float_of_str r "seats_N" ->
   F_total_of float_of_str r / num float_of_str r "seats_N" < 1 / 50) ->
  exists vs ints,
    first_pass float_of_str records = Ok vs /\
    computed_internals vs !! idx = Some ints /\
    in_F_total ints = F_total_of float_of_str r /\
    forall inst_type,
      FSR_block float_of_str inst_type (in_F_total ints) r = Ok 0.
Proof.
  intros Hr Hlow.
  exists (vectors_of float_of_str records), (internals_of float_of_str r).
  split; [apply first_pass_returns|].
  split; [by apply internals_at|].
  split; [reflexivity|].
  intros inst_type. by apply FSR_block_below_floor.
Qed.

(** C8. Zero guard: a record with seat count 0 and sanctioned intake 0 has
    faculty ratio 0, FSR component 0 and application/seat ratio 0, all
    returned as numbers; the two guarded divisions return on every input. *)
Theorem zero_seats_guard (records : list (gmap string pyval)) (idx : nat)
    (r : gmap string pyval) :
  records !! idx = Some r ->
  num float_of_str r "seats_N" == 0 ->
  num float_of_str r "sanctioned_S" == 0 ->
  exists vs ints,
    first_pass float_of_str records = Ok vs /\
    computed_internals vs !! idx = Some ints /\
    F_over_N_of (in_F_total ints) (num float_of_str r "seats_N") = Ok 0 /\
    (forall inst_type,
       FSR_block float_of_str inst_type (in_F_total ints) r = Ok 0) /\
    SR_ratio_of (num float_of_str r "applications_A")
                (num float_of_str r "sanctioned_S") = Ok 0 /\
    in_SR_ratio ints = 0 /\
    PR_SR_ratio_list vs !! idx = Some 0 /\
    (forall F_total seats_N, returns (F_over_N_of F_total seats_N)) /\
    (forall inst_type F_total r',
       returns (FSR_block float_of_str inst_type F_total r')) /\
    (forall A_apps S_intake, returns (SR_ratio_of A_apps S_intake)).
Proof.
  intros Hr Hseats Hintake.
  assert (Qltb 0 (num float_of_str r "seats_N") = false) as Es
    by (apply Qltb_ge; lra).
  assert (Qltb 0 (num float_of_str r "sanctioned_S") = false) as Ei
    by (apply Qltb_ge; lra).
  assert (SR_ratio_value float_of_str r = 0) as Esr.
  { unfold SR_ratio_value. unfold num in Ei. by rewrite Ei. }
  exists (vectors_of float_of_str records), (internals_of float_of_str r).
  split; [apply first_pass_returns|].
  split; [by apply internals_at|].
  split; [by rewrite F_over_N_of_returns, Es|].
  split.
  { intros inst_type. apply FSR_block_below_floor.
    intros Hpos. apply Qltb_lt in Hpos. congruence. }
  split; [by rewrite SR_ratio_of_returns, Ei|].
  split; [exact Esr|].
  split.
  { destruct (vectors_of_fields float_of_str records)
      as (_ & _ & _ & _ & _ & _ & _ & _ & _ & _ & _ & -> & _).
    by rewrite list_lookup_fmap, Hr, <- Esr. }
  split; [intros; rewrite F_over_N_of_returns; by eexists|].
  split; [intros; rewrite FSR_block_returns; by eexists|].
  intros; rewrite SR_ratio_of_returns; by eexists.
Qed.


End FSRFacts.

Lemma FSR_floor_rule_witness :
  exists vs ints,
    first_pass no_strings [r_univ; r_small] = Ok vs /\
    computed_internals vs !! 1%nat = Some ints /\
    in_F_total ints = F_total_of no_strings r_small /\
    forall inst_type, FSR_block no_strings inst_type (in_F_total ints) r_small = Ok 0.
Proof.
  apply (FSR_floor_rule no_strings [r_univ; r_small] 1 r_small eq_refl).
  intros _. vm_compute. reflexivity.
Defined.

Lemma zero_seats_guard_witness :
  exists vs ints,
    first_pass no_strings [r_univ; r_unstaffed] = Ok vs /\
    computed_internals vs !! 1%nat = Some ints /\
    (forall inst_type,
       FSR_block no_strings inst_type (in_F_total ints) r_unstaffed = Ok 0) /\
    in_SR_ratio ints = 0 /\
    PR_SR_ratio_list vs !! 1%nat = Some 0.
Proof.
  destruct (zero_seats_guard no_strings [r_univ; r_unstaffed] 1 r_unstaffed eq_refl)
    as (vs & ints & H1 & H2 & _ & H4 & _ & H6 & H7 & _);
    [vm_compute; reflexivity | vm_compute; reflexivity |].
  exists vs, ints. repeat split; assumption.
Defined.



(** ** The percentile-ranked components *)

Ltac step_bind := cbn [mbind result_bind mret result_ret].

(** Runs the next [percentile] call of the goal. *)
Ltac run_percentile :=
  match goal with
  | |- context [percentile ?l ?t] =>
      let p := fresh "p" in
      let E := fresh "E" in
      let Hp := fresh "Hp" in
      destruct (percentile_returns l t) as (p & E & Hp);
      rewrite E; step_bind
  end.

Lemma percentile_value_single v t : v <= t -> percentile_value [v] t == 100.
Proof.
  intros H. unfold percentile_value, count_le.
  apply Qleb_le in H. rewrite H. reflexivity.
Qed.

Lemma pymax_list_In x l : In (fold_left pymax l x) (x :: l).
Proof.
  revert x. induction l as [|y l IH]; intros x; simpl; [by left|].
  destruct (IH (pymax x y)) as [H|H].
  - rewrite <- H. unfold pymax. destruct (Qltb x y); auto.
  - auto.
Qed.

Section BlockFacts.

Context (float_of_str : string -> option Q).

Lemma LL_block_returns vs inst_type ints :
  exists ll,
    LL_block vs inst_type ints = Ok ll /\
    ll_p_EXLI ll ==
      percentile_value (EXLI_per_student_list vs) (in_EXLI_per_student ints) /\
    ll_p_EXLB ll ==
      percentile_value (EXLB_per_student_list vs) (in_EXLB_per_student ints).
Proof.
  unfold LL_block. do 2 run_percentile.
  eexists. split; [reflexivity|]. simpl. by split.
Qed.

Lemma RPII_block_returns vs ints r :
  let F := positive_or_one (in_F_total ints) in
  exists rp,
    RPII_block float_of_str vs ints r = Ok rp /\
    rp_p_pub rp == percentile_value (P_list vs) (in_P ints / F) /\
    rp_base_citation_index rp ==
      in_CC ints / positive_or_one (in_P ints) * (rp_p_pub rp / 100) /\
    rp_p_citation rp ==
      percentile_value (CC_over_F_list vs) (rp_base_citation_index rp) /\
    rp_CI rp == 45 * (rp_p_citation rp / 100) /\
    rp_p_PF rp ==
      percentile_value (PF_over_F_list vs) (num float_of_str r "PF_filed" / F) /\
    rp_p_PG rp ==
      percentile_value (PG_over_F_list vs) (num float_of_str r "PG_granted" / F) /\
    rp_p_EP rp ==
      percentile_value (EP_over_F_list vs) (num float_of_str r "EP_revenue" / F).
Proof.
  intros F. unfold RPII_block. rewrite !truediv_guarded. step_bind.
  run_percentile. rewrite ?E. step_bind. do 4 run_percentile.
  eexists. split; [reflexivity|]. simpl. unfold num.
  repeat split; try done.
Qed.

Lemma GO_block_returns vs r :
  exists go,
    GO_block float_of_str vs r = Ok go /\
    go_p_pe go == percentile_value (PE_index_list vs) (num float_of_str r "PE_index").
Proof.
  unfold GO_block. run_percentile. eexists. split; [reflexivity|]. done.
Qed.

Lemma OI_block_returns vs r :
  exists oi,
    OI_block float_of_str vs r = Ok oi /\
    oi_p_CES oi == percentile_value (CES_N_list vs) (num float_of_str r "CES_N") /\
    oi_p_RD_states oi ==
      percentile_value (RD_other_states_list vs)
        (num float_of_str r "RD_other_states") /\
    oi_p_RD_countries oi ==
      percentile_value (RD_other_countries_list vs)
        (num float_of_str r "RD_other_countries").
Proof.
  unfold OI_block. do 3 run_percentile.
  eexists. split; [reflexivity|]. simpl. by repeat split.
Qed.

Lemma PR_block_returns R_star ints r :
  exists pr,
    PR_block float_of_str R_star ints r = Ok pr /\
    pr_SR pr == 50 * (if Qltb 0 R_star then in_SR_ratio ints / R_star else 0).
Proof.
  unfold PR_block. destruct (Qltb 0 R_star) eqn:E.
  - apply Qltb_lt in E. rewrite truediv_pos by done. step_bind.
    eexists. split; [reflexivity|]. done.
  - step_bind. eexists. split; [reflexivity|]. done.
Qed.

(** C10. In a non-empty cohort whose application/seat ratios are all 0 the
    anchor [R_star] is 0, and the SR component of every record is returned
    and is 0. *)
Theorem all_zero_ratios_anchor (records : list (gmap string pyval)) :
  records <> [] ->
  (forall r, In r records -> SR_ratio_value float_of_str r == 0) ->
  exists vs,
    first_pass float_of_str records = Ok vs /\
    R_star_of (PR_SR_ratio_list vs) == 0 /\
    forall idx r,
      records !! idx = Some r ->
      exists ints pr,
        computed_internals vs !! idx = Some ints /\
        PR_block float_of_str (R_star_of (PR_SR_ratio_list vs)) ints r = Ok pr /\
        pr_SR pr == 0.
Proof.
  intros Hne Hzero.
  exists (vectors_of float_of_str records).
  split; [apply first_pass_returns|].
  assert (R_star_of (PR_SR_ratio_list (vectors_of float_of_str records)) == 0)
    as HR.
  { destruct (vectors_of_fields float_of_str records)
      as (_ & _ & _ & _ & _ & _ & _ & _ & _ & _ & _ & -> & _).
    destruct records as [|r0 records]; [done|].
    unfold R_star_of. cbn [map pymax_list].
    pose proof (pymax_list_In (SR_ratio_value float_of_str r0)
                  (map (SR_ratio_value float_of_str) records)) as Hin.
    change (In (fold_left pymax (map (SR_ratio_value float_of_str) records)
                  (SR_ratio_value float_of_str r0))
               (map (SR_ratio_value float_of_str) (r0 :: records))) in Hin.
    apply in_map_iff in Hin. destruct Hin as (r' & <- & Hr').
    by apply Hzero. }
  split; [exact HR|].
  intros idx r Hr.
  destruct (PR_block_returns
              (R_star_of (PR_SR_ratio_list (vectors_of float_of_str records)))
              (internals_of float_of_str r) r) as (pr & Epr & Hsr).
  exists (internals_of float_of_str r), pr.
  split; [by apply internals_at|]. split; [exact Epr|].
  rewrite Hsr.
  assert (Qltb 0 (R_star_of (PR_SR_ratio_list (vectors_of float_of_str records)))
          = false) as -> by (apply Qltb_ge; lra).
  ring.
Qed.

End BlockFacts.

Lemma all_zero_ratios_anchor_witness :
  exists vs,
    first_pass no_strings [r_unstaffed; r_small] = Ok vs /\
    R_star_of (PR_SR_ratio_list vs) == 0 /\
    forall idx r,
      [r_unstaffed; r_small] !! idx = Some r ->
      exists ints pr,
        computed_internals vs !! idx = Some ints /\
        PR_block no_strings (R_star_of (PR_SR_ratio_list vs)) ints r = Ok pr /\
        pr_SR pr == 0.
Proof.
  apply (all_zero_ratios_anchor no_strings [r_unstaffed; r_small]).
  - discriminate.
  - intros r [<- | [<- | []]]; vm_compute; reflexivity.
Defined.

(** ** The citation sub-score *)

Section CohortFacts.

Context (float_of_str : string -> option Q).

(** C4 (amended). The citation index of a record is its citation intensity
    (citation score over publication score, a publication score that is not
    positive replaced by 1) times its publication percentile over 100; it
    is ranked against the cohort's vector of citation intensities, one per
    institution and not multiplied by any percentile, and scaled to 45. *)
Theorem citation_ranked_against_intensities
    (records : list (gmap string pyval)) (idx : nat) (r : gmap string pyval) :
  records !! idx = Some r ->
  exists vs ints rp,
    first_pass float_of_str records = Ok vs /\
    computed_internals vs !! idx = Some ints /\
    RPII_block float_of_str vs ints r = Ok rp /\
    CC_over_F_list vs = map (CC_over_P_of float_of_str) records /\
    rp_p_pub rp ==
      percentile_value (map (P_over_F_of float_of_str) records)
        (P_over_F_of float_of_str r) /\
    rp_base_citation_index rp ==
      CC_over_P_of float_of_str r * (rp_p_pub rp / 100) /\
    rp_p_citation rp ==
      percentile_value (map (CC_over_P_of float_of_str) records)
        (rp_base_citation_index rp) /\
    rp_CI rp == 45 * (rp_p_citation rp / 100).
Proof.
  intros Hr.
  destruct (RPII_block_returns float_of_str (vectors_of float_of_str records)
              (internals_of float_of_str r) r)
    as (rp & E & Hpub & Hidx & Hcit & HCI & _).
  exists (vectors_of float_of_str records), (internals_of float_of_str r), rp.
  split; [apply first_pass_returns|].
  split; [by apply internals_at|].
  split; [exact E|].
  destruct (vectors_of_fields float_of_str records)
    as (HP & HCC & _).
  cbv zeta in HP, HCC. rewrite HP in Hpub. rewrite HCC in Hcit.
  repeat split; assumption.
Qed.

End CohortFacts.

Lemma citation_ranked_against_intensities_witness :
  exists vs ints rp,
    first_pass no_strings [r_univ; r_small] = Ok vs /\
    computed_internals vs !! 1%nat = Some ints /\
    RPII_block no_strings vs ints r_small = Ok rp /\
    rp_p_citation rp ==
      percentile_value (map (CC_over_P_of no_strings) [r_univ; r_small])
        (rp_base_citation_index rp) /\
    rp_CI rp == 45 * (rp_p_citation rp / 100).
Proof.
  destruct (citation_ranked_against_intensities no_strings [r_univ; r_small] 1
              r_small eq_refl)
    as (vs & ints & rp & H1 & H2 & H3 & _ & _ & _ & H7 & H8).
  exists vs, ints, rp. repeat split; assumption.
Defined.

(** C4, as stated, fails: in the cohort of [r_univ] and [r_small] both
    citation indices are 2, so ranking the index of [r_small] against the
    indices gives 45; the engine ranks it against the intensities 2 and 4
    and gives 22.5. *)
Lemma citation_index_vector_counterexample :
  exists vs ints rp,
    first_pass no_strings [r_univ; r_small] = Ok vs /\
    computed_internals vs !! 1%nat = Some ints /\
    RPII_block no_strings vs ints r_small = Ok rp /\
    rp_CI rp == 45 # 2 /\
    CI_spec no_strings [r_univ; r_small] r_small == 45 /\
    ~ rp_CI rp == CI_spec no_strings [r_univ; r_small] r_small.
Proof.
  do 3 eexists. split; [vm_compute; reflexivity|].
  split; [vm_compute; reflexivity|].
  split; [vm_compute; reflexivity|].
  split; [vm_compute; reflexivity|].
  split; [vm_compute; reflexivity|].
  vm_compute. congruence.
Qed.

(** ** The whole engine *)

Section EngineFacts.

Context (float_of_str : string -> option Q).

Lemma institution_type_of_typed r :
  category_typed r = true -> exists t, institution_type_of r = Ok t.
Proof.
  unfold category_typed, institution_type_of.
  destruct (get r "institution_type") as [|b|q|s]; try discriminate; intros _.
  - by eexists.
  - simpl. destruct (negb (String.eqb s "")); by eexists.
Qed.

Lemma pymul_numeric x w : numeric w = true -> exists y, pymul x w = Ok y.
Proof. destruct w; try discriminate; intros _; by eexists. Qed.

Lemma subscript_numeric (m : gmap string pyval) k :
  numeric (get m k) = true ->
  exists w, subscript m k = Ok w /\ numeric w = true.
Proof.
  unfold get, subscript. destruct (m !! k) as [w|]; simpl; [|discriminate].
  intros H. by exists w.
Qed.

Lemma total_block_returns env TLR RPII GO OI PR :
  weights_usable env = true ->
  exists total, total_block env TLR RPII GO OI PR = Ok total.
Proof.
  unfold weights_usable, total_block.
  destruct (load_weights env) as [m|]; [|discriminate].
  rewrite !andb_true_iff. intros ((((H1 & H2) & H3) & H4) & H5).
  destruct (subscript_numeric m "TLR" H1) as (w1 & -> & N1).
  destruct (subscript_numeric m "GO" H3) as (w3 & -> & N3).
  destruct (subscript_numeric m "OI" H4) as (w4 & -> & N4).
  destruct (subscript_numeric m "PR" H5) as (w5 & -> & N5).
  step_bind.
  destruct (pymul_numeric TLR w1 N1) as (t1 & ->). step_bind.
  destruct (pymul_numeric RPII _ H2) as (t2 & ->). step_bind.
  destruct (pymul_numeric GO w3 N3) as (t3 & ->). step_bind.
  destruct (pymul_numeric OI w4 N4) as (t4 & ->). step_bind.
  destruct (pymul_numeric PR w5 N5) as (t5 & ->). step_bind.
  by eexists.
Qed.

(** A record is scored, and keeps its name, when its internals are there. *)
Lemma score_record_returns env vs R_star idx r ints :
  weights_usable env = true ->
  category_typed r = true ->
  computed_internals vs !! idx = Some ints ->
  exists s,
    score_record float_of_str env vs R_star idx r = Ok s /\
    college_name s = get r "college_name".
Proof.
  intros Hw Ht Hi. unfold score_record. rewrite Hi. step_bind.
  destruct (institution_type_of_typed r Ht) as (t & ->). step_bind.
  rewrite FSR_block_returns. step_bind.
  destruct (LL_block_returns vs t ints) as (ll & -> & _). step_bind.
  destruct (RPII_block_returns float_of_str vs ints r) as (rp & -> & _). step_bind.
  destruct (GO_block_returns float_of_str vs r) as (go & -> & _). step_bind.
  destruct (OI_block_returns float_of_str vs r) as (oi & -> & _). step_bind.
  destruct (PR_block_returns float_of_str R_star ints r) as (pr & -> & _). step_bind.
  match goal with
  | |- context [total_block env ?a ?b ?c ?d ?e] =>
      destruct (total_block_returns env a b c d e Hw) as (total & ->)
  end.
  step_bind. eexists. split; reflexivity.
Qed.

Lemma second_pass_returns env vs R_star records : forall idx results,
  weights_usable env = true ->
  Forall (fun r => category_typed r = true) records ->
  (forall i r, records !! i = Some r ->
     is_Some (computed_internals vs !! (idx + i)%nat)) ->
  exists out,
    second_pass float_of_str env vs R_star idx records results
      = Ok (results ++ out) /\
    Forall2 (fun r s => college_name s = get r "college_name") records out.
Proof.
  induction records as [|r records IH]; intros idx results Hw Ht Hi.
  - exists []. rewrite app_nil_r. split; [reflexivity|constructor].
  - inversion Ht as [|? ? Hr Hrest]; subst.
    destruct (Hi 0%nat r eq_refl) as (ints & Hints).
    rewrite Nat.add_0_r in Hints.
    destruct (score_record_returns env vs R_star idx r ints Hw Hr Hints)
      as (s & Es & Hname).
    destruct (IH (S idx) (results ++ [s]) Hw Hrest) as (out & Eout & Hout).
    { intros i r' Hr'. replace (S idx + i)%nat with (idx + S i)%nat by lia.
      by apply (Hi (S i) r'). }
    exists (s :: out). cbn [second_pass]. rewrite Es. step_bind.
    rewrite Eout, <- app_assoc. split; [reflexivity|].
    by constructor.
Qed.

(** An unreadable weights file gives the totals of the default weights. *)
Lemma unreadable_weights_are_defaults (records : list (gmap string pyval)) :
  compute_scores float_of_str LoadRaises records
  = compute_scores float_of_str (Loaded (YMapping default_weights)) records.
Proof.
  unfold compute_scores. destruct (first_pass float_of_str records) as [vs|e];
    [|reflexivity].
  step_bind. generalize (R_star_of (PR_SR_ratio_list vs)) as R_star.
  generalize (@nil ScoreResult) as results. generalize 0%nat as idx.
  induction records as [|r records IH]; intros idx results R_star;
    [reflexivity|].
  cbn [second_pass].
  change (score_record float_of_str LoadRaises vs R_star idx r)
    with (score_record float_of_str (Loaded (YMapping default_weights))
            vs R_star idx r).
  destruct (score_record _ _ vs R_star idx r) as [s|e]; [|reflexivity].
  step_bind. apply IH.
Qed.

(** A mapping without [RP] and [RPII] weighs the research score by 30. *)
Lemma missing_RP_uses_default (m : gmap string pyval) TLR RPII GO OI PR :
  m !! "RP" = None -> m !! "RPII" = None ->
  total_block (Loaded (YMapping m)) TLR RPII GO OI PR
  = total_block (Loaded (YMapping (<["RP" := PNum 30]> m))) TLR RPII GO OI PR.
Proof.
  intros H1 H2. unfold total_block, load_weights, subscript, get_or.
  rewrite H1, H2, lookup_insert_eq.
  rewrite !lookup_insert_ne by done. reflexivity.
Qed.

(** A mapping without [TLR] stops the total, and so does a document that is
    not a mapping. *)
Lemma total_block_missing_TLR (m : gmap string pyval) TLR RPII GO OI PR :
  m !! "TLR" = None ->
  total_block (Loaded (YMapping m)) TLR RPII GO OI PR = Raise (KeyError "TLR").
Proof.
  intros H. unfold total_block, load_weights, subscript. by rewrite H.
Qed.

Lemma total_block_not_mapping TLR RPII GO OI PR :
  total_block (Loaded YOther) TLR RPII GO OI PR = Raise TypeError.
Proof. reflexivity. Qed.

End EngineFacts.

(** C2 at a weights file that lacks the key [TLR]: the total is not
    computed with the default 30 for that key, the engine raises
    [KeyError]. *)
Theorem missing_TLR_key_raises :
  compute_scores no_strings weights_without_TLR [r_univ]
  = Raise (KeyError "TLR").
Proof. vm_compute. reflexivity. Qed.

(** ** Further properties of [percentile] *)

Lemma count_le_all vals t :
  Forall (fun v => v <= t) vals -> count_le vals t = length vals.
Proof.
  induction 1 as [|v vals Hv _ IH]; simpl; [done|].
  apply Qleb_le in Hv. rewrite Hv, IH. done.
Qed.

Lemma count_le_none vals t :
  Forall (fun v => t < v) vals -> count_le vals t = 0%nat.
Proof.
  induction 1 as [|v vals Hv _ IH]; simpl; [done|].
  apply Qleb_gt in Hv. rewrite Hv, IH. done.
Qed.

Lemma percentile_value_bounds values target :
  0 <= percentile_value values target <= 100.
Proof.
  destruct values as [|v values]; [simpl; lra|].
  unfold percentile_value.
  pose proof (count_le_length (v :: values) target) as Hc.
  set (c := count_le (v :: values) target) in *.
  set (n := length (v :: values)) in *.
  assert (0 < inject_Z (Z.of_nat n)) as Hn.
  { unfold n, Qlt, inject_Z; simpl. lia. }
  assert (0 <= inject_Z (Z.of_nat c)) as Hc0.
  { change 0 with (inject_Z 0). rewrite <- Zle_Qle. lia. }
  assert (inject_Z (Z.of_nat c) <= inject_Z (Z.of_nat n)) as Hcn.
  { rewrite <- Zle_Qle. lia. }
  split.
  - apply Qmult_le_0_compat; [|lra].
    apply Qle_shift_div_l; [exact Hn|]. lra.
  - assert (inject_Z (Z.of_nat c) / inject_Z (Z.of_nat n) <= 1) as H1.
    { apply Qle_shift_div_r; [exact Hn|]. lra. }
    lra.
Qed.

(** X1. [percentile] returns on every population and target, and what it
    returns lies between 0 and 100. *)
Theorem percentile_bounds (population : list Q) (target : Q) :
  exists p, percentile population target = Ok p /\ 0 <= p /\ p <= 100.
Proof.
  destruct (percentile_returns population target) as (p & E & V).
  exists p. split; [exact E|].
  pose proof (percentile_value_bounds population target). lra.
Qed.

(** X2. A target at or above every member of a non-empty population is at
    the 100th percentile. *)
Theorem percentile_top (population : list Q) (target : Q) :
  population <> [] ->
  Forall (fun v => v <= target) population ->
  exists p, percentile population target = Ok p /\ p == 100.
Proof.
  intros Hne Hall.
  destruct (percentile_returns population target) as (p & E & V).
  exists p. split; [exact E|]. rewrite V.
  destruct population as [|v vals]; [done|].
  unfold percentile_value. rewrite (count_le_all _ _ Hall).
  set (n := length (v :: vals)).
  assert (0 < inject_Z (Z.of_nat n)) as Hn.
  { unfold n, Qlt, inject_Z; simpl. lia. }
  field. lra.
Qed.

Lemma percentile_top_witness :
  exists p, percentile [3; 1; 2] 3 = Ok p /\ p == 100.
Proof.
  apply (percentile_top [3; 1; 2] 3).
  - discriminate.
  - repeat constructor; vm_compute; congruence.
Defined.

(** X3. A target below every member of the population is at percentile 0;
    so is any target on the empty population. *)
Theorem percentile_bottom (population : list Q) (target : Q) :
  Forall (fun v => target < v) population ->
  exists p, percentile population target = Ok p /\ p == 0.
Proof.
  intros Hall.
  destruct (percentile_returns population target) as (p & E & V).
  exists p. split; [exact E|]. rewrite V.
  destruct population as [|v vals]; [reflexivity|].
  unfold percentile_value. rewrite (count_le_none _ _ Hall).
  unfold Qdiv. ring.
Qed.

Lemma percentile_bottom_witness :
  exists p, percentile [3; 1; 2] (1 # 2) = Ok p /\ p == 0.
Proof.
  apply (percentile_bottom [3; 1; 2] (1 # 2)).
  repeat constructor.
Defined.

(** X4. The percentile of a target does not depend on the order of the
    population: the sort inside [percentile] is immaterial. *)
Theorem percentile_Permutation (population population' : list Q) (target : Q) :
  Permutation population population' ->
  exists p p',
    percentile population target = Ok p /\
    percentile population' target = Ok p' /\
    p == p'.
Proof.
  intros Hperm.
  destruct (percentile_returns population target) as (p & E & V).
  destruct (percentile_returns population' target) as (p' & E' & V').
  exists p, p'. split; [exact E|]. split; [exact E'|].
  rewrite V, V'.
  destruct population as [|v vals].
  - apply Permutation_nil_l in Hperm. subst. reflexivity.
  - destruct population' as [|v' vals'].
    + by apply Permutation_nil_r in Hperm.
    + unfold percentile_value.
      rewrite (count_le_Permutation _ _ target Hperm).
      by rewrite (Permutation_length Hperm).
Qed.

Lemma percentile_Permutation_witness :
  exists p p',
    percentile [3; 1; 2] 2 = Ok p /\
    percentile [1; 2; 3] 2 = Ok p' /\
    p == p'.
Proof.
  apply (percentile_Permutation [3; 1; 2] [1; 2; 3] 2).
  apply (perm_trans (l' := [1; 3; 2])).
  - apply perm_swap.
  - apply perm_skip, perm_swap.
Defined.

(** ** Ranges of the category calculators *)

(** Linear arithmetic with divisions by literals. *)
Ltac divs_to_mults :=
  unfold Qdiv in *;
  repeat match goal with
  | |- context [Qinv (?n # ?d)] =>
      let v := eval vm_compute in (Qinv (n # d)) in
      change (Qinv (n # d)) with v
  | H : context [Qinv (?n # ?d)] |- _ =>
      let v := eval vm_compute in (Qinv (n # d)) in
      change (Qinv (n # d)) with v in H
  end.

Ltac qlra := divs_to_mults; lra.

Lemma pymax_list_upper l : forall x y,
  In y (x :: l) -> y <= fold_left pymax l x.
Proof.
  induction l as [|z l IH]; intros x y Hy; simpl.
  - destruct Hy as [<-|[]]. apply Qle_refl.
  - assert (x <= pymax x z /\ z <= pymax x z) as [Hx Hz].
    { unfold pymax. destruct (Qltb x z) eqn:E.
      - apply Qltb_lt in E. lra.
      - apply Qltb_ge in E. lra. }
    destruct Hy as [Hy|[Hy|Hy]].
    + subst y. eapply Qle_trans; [exact Hx|]. apply IH. by left.
    + subst y. eapply Qle_trans; [exact Hz|]. apply IH. by left.
    + apply IH. by right.
Qed.

Section RangeFacts.

Context (float_of_str : string -> option Q).

(** X5. The qualification sub-score has a closed form: the PhD percentage
    counts linearly up to 95 and saturates there, the experience term is
    [avg_experience_years - 30] clamped to [0, 15]; the sum never exceeds
    30. *)
Theorem FQE_closed_form (r : gmap string pyval) :
  FQE_block float_of_str r ==
    15 * (Qmin (num float_of_str r "phd_percent") 95 / 95)
    + Qmin (Qmax (num float_of_str r "avg_experience_years" - 30) 0) 15 /\
  FQE_block float_of_str r <= 30.
Proof.
  unfold FQE_block, pymax, num.
  set (phd := safe_float float_of_str (get r "phd_percent") 0).
  set (avg := safe_float float_of_str (get r "avg_experience_years") 0).
  assert ((if Qleb phd 95 then 15 * (phd / 95) else 15)
          == 15 * (Qmin phd 95 / 95)
          /\ (if Qleb phd 95 then 15 * (phd / 95) else 15) <= 15) as [HQ HQ'].
  { destruct (Qleb phd 95) eqn:E.
    - apply Qleb_le in E. rewrite (Q.min_l _ _ E). split; [reflexivity|qlra].
    - apply Qleb_gt in E. rewrite Q.min_r by lra. split; [field|lra]. }
  set (Ei := if Qleb avg 45
             then (if Qltb (avg - 30) 0 then 0 else avg - 30) else 15).
  assert (Ei == Qmin (Qmax (avg - 30) 0) 15 /\ 0 <= Ei <= 15) as [HE HE'].
  { unfold Ei. destruct (Qleb avg 45) eqn:E.
    - apply Qleb_le in E. destruct (Qltb (avg - 30) 0) eqn:E'.
      + apply Qltb_lt in E'. rewrite Q.max_r by lra. rewrite Q.min_l by lra.
        split; [reflexivity|lra].
      + apply Qltb_ge in E'. rewrite Q.max_l by lra. rewrite Q.min_l by lra.
        split; [reflexivity|lra].
    - apply Qleb_gt in E. rewrite Q.max_l by lra. rewrite Q.min_r by lra.
      split; [reflexivity|lra]. }
  assert (Qleb Ei 15 = true) as -> by (apply Qleb_le; lra).
  rewrite <- HE, <- HQ. split; [field|].
  assert (15 * (Ei / 15) == Ei) as -> by field. lra.
Qed.

(** X6. With three or more competition winners the sports sub-score no
    longer depends on the third percentile input: that share counts in
    full. *)
Theorem SEC_winners_override (r : gmap string pyval) :
  3 <= num float_of_str r "SEC_winners_count" ->
  SEC_block float_of_str r ==
    5 * (num float_of_str r "SEC_pA_percentile" / 100)
    + (5 # 2) * (num float_of_str r "SEC_pB_percentile" / 100)
    + (5 # 2).
Proof.
  unfold SEC_block, num. intros H. apply Qleb_le in H. rewrite H. field.
Qed.

(** X7. The library and laboratory sub-score is returned and lies in
    [0, 40] for a university and in [0, 30] for any other type. *)
Theorem LL_block_range (vs : vectors) (inst_type : string) (ints : internals) :
  exists ll,
    LL_block vs inst_type ints = Ok ll /\
    0 <= ll_LL ll /\
    ll_LL ll <= (if String.eqb inst_type "university" then 40 else 30).
Proof.
  unfold LL_block.
  destruct (percentile_returns (EXLI_per_student_list vs)
              (in_EXLI_per_student ints)) as (p1 & -> & V1).
  destruct (percentile_returns (EXLB_per_student_list vs)
              (in_EXLB_per_student ints)) as (p2 & -> & V2).
  pose proof (percentile_value_bounds (EXLI_per_student_list vs)
                (in_EXLI_per_student ints)) as [H1 H1'].
  pose proof (percentile_value_bounds (EXLB_per_student_list vs)
                (in_EXLB_per_student ints)) as [H2 H2'].
  rewrite <- V1 in H1, H1'. rewrite <- V2 in H2, H2'.
  step_bind. eexists. split; [reflexivity|]. cbn [ll_LL].
  destruct (String.eqb inst_type "university"); split; qlra.
Qed.

Lemma RPII_block_parts vs ints r :
  exists rp,
    RPII_block float_of_str vs ints r = Ok rp /\
    0 <= rp_p_pub rp <= 100 /\
    0 <= rp_p_citation rp <= 100 /\
    0 <= rp_p_PF rp <= 100 /\
    0 <= rp_p_PG rp <= 100 /\
    0 <= rp_p_EP rp <= 100 /\
    rp_PU rp == 45 * (rp_p_pub rp / 100) /\
    rp_CI rp == 45 * (rp_p_citation rp / 100) /\
    rp_IPR rp ==
      2 * (rp_p_PF rp / 100) + 4 * (rp_p_PG rp / 100)
      + (2 * (if Qleb 1 (num float_of_str r "PG_granted")
                 && Qleb 1 (num float_of_str r "PL_licensed_count")
              then 1 else 0)
         + 2 * (rp_p_EP rp / 100)) /\
    rp_RPII rp == rp_PU rp + rp_CI rp + rp_IPR rp.
Proof.
  unfold RPII_block. rewrite !truediv_guarded. step_bind.
  run_percentile. rewrite ?E. step_bind. do 4 run_percentile.
  eexists. split; [reflexivity|]. simpl. unfold num.
  rewrite Hp, Hp0, Hp1, Hp2, Hp3.
  repeat split; try apply percentile_value_bounds.
Qed.

(** X8. The research score is returned for every record and cohort
    vectors; publications and citations each lie in [0, 45], the patent part
    in [0, 10] and the score in [0, 100]. *)
Theorem RPII_block_range (vs : vectors) (ints : internals)
    (r : gmap string pyval) :
  exists rp,
    RPII_block float_of_str vs ints r = Ok rp /\
    0 <= rp_PU rp <= 45 /\
    0 <= rp_CI rp <= 45 /\
    0 <= rp_IPR rp <= 10 /\
    0 <= rp_RPII rp <= 100.
Proof.
  destruct (RPII_block_parts vs ints r)
    as (rp & E & H1 & H2 & H3 & H4 & H5 & EPU & ECI & EIPR & ER).
  exists rp. split; [exact E|].
  rewrite ER, EPU, ECI, EIPR.
  destruct (Qleb 1 (num float_of_str r "PG_granted")
            && Qleb 1 (num float_of_str r "PL_licensed_count"));
    repeat split; qlra.
Qed.

(** X9. The graduation score is returned; it is the linear term
    [50 * UE% / 80], which is not capped at the 80% reference, plus a
    placement part in [0, 50]. *)
Theorem GO_block_range (vs : vectors) (r : gmap string pyval) :
  exists go,
    GO_block float_of_str vs r = Ok go /\
    50 * (num float_of_str r "UE_graduating_percent" / 80) <= go_GO go /\
    go_GO go <= 50 * (num float_of_str r "UE_graduating_percent" / 80) + 50.
Proof.
  unfold GO_block, num.
  destruct (percentile_returns (PE_index_list vs)
              (safe_float float_of_str (get r "PE_index") 0))
    as (p & -> & V).
  pose proof (percentile_value_bounds (PE_index_list vs)
                (safe_float float_of_str (get r "PE_index") 0)) as [H1 H2].
  rewrite <- V in H1, H2.
  step_bind. eexists. split; [reflexivity|]. cbn [go_GO]. split; qlra.
Qed.

End RangeFacts.

Lemma SEC_winners_override_witness :
  SEC_block no_strings
    (<["SEC_winners_count" := PNum 3]> (<["SEC_pC_percentile" := PNum 10]> r_univ))
  == 5 # 2.
Proof.
  rewrite (SEC_winners_override no_strings); vm_compute; congruence.
Defined.

(** ** The engine reads a record only through its known keys *)

Section ReadsFacts.

Context (float_of_str : string -> option Q).

(** Rewrites every number and flag read from [r] into the one read from
    [r']. *)
Ltac reads_rewrite r Hnum Hflag :=
  repeat match goal with
  | |- context [safe_float float_of_str (get r ?k) 0] =>
      change (safe_float float_of_str (get r k) 0) with (num float_of_str r k);
      rewrite (Hnum k) by reflexivity
  | |- context [truthy (get r ?k)] =>
      rewrite (Hflag k) by reflexivity
  end;
  unfold num.

Lemma reads_same_get r r' k :
  reads_same float_of_str r r' ->
  key_in k passthrough_keys = true ->
  get r k = get r' k /\ forall d, get_or r k d = get_or r' k d.
Proof.
  intros (_ & _ & H) Hk. unfold get, get_or. rewrite (H k Hk). done.
Qed.

Lemma first_pass_step_reads acc r r' :
  reads_same float_of_str r r' ->
  first_pass_step float_of_str acc r = first_pass_step float_of_str acc r'.
Proof.
  intros (Hnum & Hflag & _).
  unfold first_pass_step, F_total_of, P_of, CC_of.
  reads_rewrite r Hnum Hflag. reflexivity.
Qed.

Lemma first_pass_from_reads records : forall records' acc,
  Forall2 (reads_same float_of_str) records records' ->
  first_pass_from float_of_str acc records
  = first_pass_from float_of_str acc records'.
Proof.
  induction records as [|r records IH]; intros records' acc H;
    inversion H as [|? r' ? rest Hr Hrest]; subst; [reflexivity|].
  cbn [first_pass_from]. rewrite (first_pass_step_reads acc r r' Hr).
  destruct (first_pass_step float_of_str acc r') as [acc'|e]; [|reflexivity].
  step_bind. by apply IH.
Qed.

Lemma score_record_reads env vs R_star idx r r' :
  reads_same float_of_str r r' ->
  score_record float_of_str env vs R_star idx r
  = score_record float_of_str env vs R_star idx r'.
Proof.
  intros Hsame. pose proof Hsame as (Hnum & Hflag & _).
  destruct (reads_same_get r r' "college_name" Hsame eq_refl) as [Hname _].
  destruct (reads_same_get r r' "institution_type" Hsame eq_refl) as [Htype _].
  destruct (reads_same_get r r' "image_url" Hsame eq_refl) as [_ Himg].
  destruct (reads_same_get r r' "website_url" Hsame eq_refl) as [_ Hweb].
  destruct (reads_same_get r r' "scraping_status" Hsame eq_refl) as [_ Hst].
  unfold score_record, institution_type_of, FSR_block, FQE_block, SEC_block,
    RPII_block, GO_block, OI_block, PR_block.
  rewrite Hname, Htype, Himg, Hweb, Hst.
  reads_rewrite r Hnum Hflag. reflexivity.
Qed.

Lemma second_pass_reads env vs R_star records : forall records' idx results,
  Forall2 (reads_same float_of_str) records records' ->
  second_pass float_of_str env vs R_star idx records results
  = second_pass float_of_str env vs R_star idx records' results.
Proof.
  induction records as [|r records IH]; intros records' idx results H;
    inversion H as [|? r' ? rest Hr Hrest]; subst; [reflexivity|].
  cbn [second_pass]. rewrite (score_record_reads env vs R_star idx r r' Hr).
  destruct (score_record float_of_str env vs R_star idx r') as [s|e];
    [|reflexivity].
  step_bind. by apply IH.
Qed.

Lemma compute_scores_reads env records records' :
  Forall2 (reads_same float_of_str) records records' ->
  compute_scores float_of_str env records
  = compute_scores float_of_str env records'.
Proof.
  intros H. unfold compute_scores, first_pass.
  rewrite (first_pass_from_reads records records' empty_vectors H).
  destruct (first_pass_from float_of_str empty_vectors records') as [vs|e];
    [|reflexivity].
  step_bind. by apply second_pass_reads.
Qed.

Lemma reads_same_refl r : reads_same float_of_str r r.
Proof. by repeat split. Qed.

Lemma Forall2_reads_same_insert records i r r' :
  records !! i = Some r ->
  reads_same float_of_str r r' ->
  Forall2 (reads_same float_of_str) records (<[i := r']> records).
Proof.
  revert i. induction records as [|r0 records IH]; intros i Hi Hsame;
    [done|].
  destruct i as [|i]; simpl in *.
  - injection Hi as ->. constructor; [done|].
    apply Forall_Forall2_diag, Forall_forall. intros; apply reads_same_refl.
  - constructor; [apply reads_same_refl|]. by apply IH.
Qed.

(** X11. A key that the engine does not read is ignored: setting it to any
    value in any record of the cohort changes neither the scores nor the
    error raised. *)
Theorem unread_key_ignored (env : weights_file)
    (records : list (gmap string pyval)) (i : nat) (r : gmap string pyval)
    (k : string) (v : pyval) :
  records !! i = Some r ->
  key_in k (numeric_keys ++ flag_keys ++ passthrough_keys) = false ->
  compute_scores float_of_str env (<[i := <[k := v]> r]> records)
  = compute_scores float_of_str env records.
Proof.
  intros Hi Hk. symmetry. apply compute_scores_reads.
  apply (Forall2_reads_same_insert records i r _ Hi).
  assert (forall k', key_in k' (numeric_keys ++ flag_keys ++ passthrough_keys)
                     = true -> (<[k := v]> r) !! k' = r !! k') as Hne.
  { intros k' Hk'. apply lookup_insert_ne. intros ->. congruence. }
  repeat split; intros k' Hk'; unfold key_in in *.
  - unfold num, get. rewrite Hne; [done|].
    rewrite existsb_app, Hk'. done.
  - unfold get. rewrite Hne; [done|].
    rewrite !existsb_app, Hk'. by rewrite orb_true_r.
  - rewrite Hne; [done|].
    rewrite !existsb_app, Hk'. by rewrite !orb_true_r.
Qed.

(** X12. A numeric field counts only by the number [safe_float] reads from
    it: writing that number in place of the field (0 for a missing, [None],
    empty or unreadable field, the parsed number for a string) changes
    neither the scores nor the error raised. *)
Theorem numeric_field_normalised (env : weights_file)
    (records : list (gmap string pyval)) (i : nat) (r : gmap string pyval)
    (k : string) :
  records !! i = Some r ->
  key_in k numeric_keys = true ->
  compute_scores float_of_str env
    (<[i := <[k := PNum (num float_of_str r k)]> r]> records)
  = compute_scores float_of_str env records.
Proof.
  intros Hi Hk. symmetry. apply compute_scores_reads.
  apply (Forall2_reads_same_insert records i r _ Hi).
  assert (forall k', key_in k' (flag_keys ++ passthrough_keys) = true ->
            k <> k') as Hdisj.
  { intros k' Hk' ->. unfold key_in in *.
    apply existsb_exists in Hk as (a & Ha & Ea).
    apply String.eqb_eq in Ea. subst a.
    apply existsb_exists in Hk' as (b & Hb & Eb).
    apply String.eqb_eq in Eb. subst b.
    revert Hb. cbn [flag_keys passthrough_keys app In].
    intros Hb. revert Ha. cbn [numeric_keys In].
    repeat (destruct Hb as [<-|Hb];
            [intros Ha; repeat (destruct Ha as [Ha|Ha]; [discriminate|]);
             exact Ha|]).
    destruct Hb. }
  repeat split; intros k' Hk'; unfold key_in in *.
  - unfold num, get.
    destruct (decide (k = k')) as [<-|Hne].
    + by rewrite lookup_insert_eq.
    + by rewrite lookup_insert_ne.
  - unfold get. rewrite lookup_insert_ne; [done|].
    apply Hdisj. by rewrite existsb_app, Hk'.
  - rewrite lookup_insert_ne; [done|].
    apply Hdisj. rewrite existsb_app, Hk'. by rewrite orb_true_r.
Qed.

End ReadsFacts.

Lemma unread_key_ignored_witness :
  compute_scores no_strings FileAbsent
    (<[1%nat := <["notes" := PStr "draft"]> r_small]> [r_univ; r_small])
  = compute_scores no_strings FileAbsent [r_univ; r_small].
Proof.
  apply (unread_key_ignored no_strings FileAbsent [r_univ; r_small] 1 r_small
           "notes" (PStr "draft")); reflexivity.
Defined.

Lemma numeric_field_normalised_witness :
  compute_scores no_strings FileAbsent
    (<[1%nat := <["EXLIP" := PNum (num no_strings r_small "EXLIP")]> r_small]>
       [r_univ; r_small])
  = compute_scores no_strings FileAbsent [r_univ; r_small].
Proof.
  apply (numeric_field_normalised no_strings FileAbsent [r_univ; r_small] 1
           r_small "EXLIP"); reflexivity.
Defined.

(** ** The weights file, key by key *)

Section WeightFacts.

Context (float_of_str : string -> option Q).

Lemma score_record_total_raises env vs R_star idx r ints err :
  category_typed r = true ->
  computed_internals vs !! idx = Some ints ->
  (forall TLR RPII GO OI PR, total_block env TLR RPII GO OI PR = Raise err) ->
  score_record float_of_str env vs R_star idx r = Raise err.
Proof.
  intros Ht Hi Hraise. unfold score_record. rewrite Hi. step_bind.
  destruct (institution_type_of_typed r Ht) as (t & ->). step_bind.
  rewrite FSR_block_returns. step_bind.
  destruct (LL_block_returns vs t ints) as (ll & -> & _). step_bind.
  destruct (RPII_block_returns float_of_str vs ints r) as (rp & -> & _). step_bind.
  destruct (GO_block_returns float_of_str vs r) as (go & -> & _). step_bind.
  destruct (OI_block_returns float_of_str vs r) as (oi & -> & _). step_bind.
  destruct (PR_block_returns float_of_str R_star ints r) as (pr & -> & _). step_bind.
  by rewrite Hraise.
Qed.

Lemma compute_scores_total_raises env records err :
  Forall (fun r => category_typed r = true) records ->
  (forall TLR RPII GO OI PR, total_block env TLR RPII GO OI PR = Raise err) ->
  compute_scores float_of_str env records =
  match records with
  | [] => Ok []
  | _ :: _ => Raise err
  end.
Proof.
  intros Ht Hraise. unfold compute_scores.
  rewrite first_pass_returns. step_bind.
  destruct records as [|r records]; [reflexivity|].
  cbn [second_pass]. inversion Ht as [|? ? Hr _]; subst.
  rewrite (score_record_total_raises env _ _ 0 r (internals_of float_of_str r) err);
    [reflexivity | exact Hr | | exact Hraise].
  by apply (internals_at float_of_str (r :: records) 0 r).
Qed.

(** X13. With a weights mapping that lacks the key [TLR], and with a
    weights document that is not a mapping, the engine scores no cohort
    but the empty one: every non-empty cohort of records with a string (or
    no) institution category raises [KeyError] for [TLR], respectively
    [TypeError]; the empty cohort returns the empty list. *)
Theorem unusable_weights_raise (m : gmap string pyval)
    (records : list (gmap string pyval)) :
  m !! "TLR" = None ->
  Forall (fun r => category_typed r = true) records ->
  compute_scores float_of_str (Loaded (YMapping m)) records =
    match records with
    | [] => Ok []
    | _ :: _ => Raise (KeyError "TLR")
    end /\
  compute_scores float_of_str (Loaded YOther) records =
    match records with
    | [] => Ok []
    | _ :: _ => Raise TypeError
    end.
Proof.
  intros Hm Ht. split.
  - apply compute_scores_total_raises; [exact Ht|].
    intros. by apply total_block_missing_TLR.
  - apply compute_scores_total_raises; [exact Ht|].
    intros. apply total_block_not_mapping.
Qed.

(** X14. With numbers under [TLR], [GO], [OI] and [PR], the total is the
    weighted sum over 100, and the research score is weighted by the value
    under [RP]; when [RP] is missing, by the value under [RPII]; when both
    are missing, by 30. *)
Theorem research_weight_order (m : gmap string pyval) (wT wG wO wP : Q)
    (TLR RPII GO OI PR : Q) :
  m !! "TLR" = Some (PNum wT) ->
  m !! "GO" = Some (PNum wG) ->
  m !! "OI" = Some (PNum wO) ->
  m !! "PR" = Some (PNum wP) ->
  let total wR :=
    Ok ((TLR * wT + RPII * wR + GO * wG + OI * wO + PR * wP) / 100) in
  (forall w, m !! "RP" = Some (PNum w) ->
     total_block (Loaded (YMapping m)) TLR RPII GO OI PR = total w) /\
  (forall w, m !! "RP" = None -> m !! "RPII" = Some (PNum w) ->
     total_block (Loaded (YMapping m)) TLR RPII GO OI PR = total w) /\
  (m !! "RP" = None -> m !! "RPII" = None ->
     total_block (Loaded (YMapping m)) TLR RPII GO OI PR = total 30).
Proof.
  intros HT HG HO HP total.
  unfold total_block, load_weights, subscript, get_or.
  rewrite HT, HG, HO, HP. repeat split.
  - intros w ->. reflexivity.
  - intros w -> ->. reflexivity.
  - intros -> ->. reflexivity.
Qed.

End WeightFacts.

Lemma unusable_weights_raise_witness :
  compute_scores no_strings
    (Loaded (YMapping (delete "TLR" default_weights))) [r_univ; r_small]
  = Raise (KeyError "TLR").
Proof.
  apply (unusable_weights_raise no_strings (delete "TLR" default_weights)
           [r_univ; r_small]).
  - reflexivity.
  - repeat constructor.
Defined.

Lemma research_weight_order_witness :
  total_block
    (Loaded (YMapping (<["RPII" := PNum 40]> (delete "RP" default_weights))))
    1 1 1 1 1
  = Ok ((1 * 30 + 1 * 40 + 1 * 20 + 1 * 10 + 1 * 10) / 100).
Proof.
  apply (research_weight_order
           (<["RPII" := PNum 40]> (delete "RP" default_weights))
           30 20 10 10 1 1 1 1 1); reflexivity.
Defined.

(** ** Insert or replace by college name *)

Lemma py_eq_refl v : py_eq v v = true.
Proof.
  destruct v as [|b|q|s]; simpl.
  - done.
  - by destruct b.
  - apply Qeq_bool_iff. reflexivity.
  - apply String.eqb_refl.
Qed.

Lemma Qeq_bool_sym x y : Qeq_bool x y = Qeq_bool y x.
Proof.
  destruct (Qeq_bool x y) eqn:E; symmetry.
  - apply Qeq_bool_iff. apply Qeq_bool_iff in E. by symmetry.
  - destruct (Qeq_bool y x) eqn:E'; [|done].
    apply Qeq_bool_iff in E'. symmetry in E'.
    apply Qeq_bool_iff in E'. congruence.
Qed.

Lemma py_eq_sym a b : py_eq a b = py_eq b a.
Proof.
  destruct a as [|b1|q|s], b as [|b2|q'|s']; simpl; try done.
  - by destruct b1, b2.
  - apply Qeq_bool_sym.
  - apply Qeq_bool_sym.
  - apply Qeq_bool_sym.
  - apply String.eqb_sym.
Qed.

Lemma py_eq_trans a b c :
  py_eq a b = true -> py_eq b c = true -> py_eq a c = true.
Proof.
  assert (forall x y z, Qeq_bool x y = true -> Qeq_bool y z = true ->
            Qeq_bool x z = true) as Hq.
  { intros x y z H1 H2. apply Qeq_bool_iff in H1, H2. apply Qeq_bool_iff.
    by rewrite H1. }
  assert (forall b1 b2 : bool,
            Qeq_bool (if b1 then 1 else 0) (if b2 then 1 else 0) = true ->
            Bool.eqb b1 b2 = true) as Hb.
  { by intros [] []. }
  assert (forall b1 b2 : bool, Bool.eqb b1 b2 = true ->
            Qeq_bool (if b1 then 1 else 0) (if b2 then 1 else 0) = true) as Hb'.
  { by intros [] []. }
  destruct a as [|b1|q1|s1], b as [|b2|q2|s2], c as [|b3|q3|s3]; simpl;
    try done; intros H1 H2.
  - apply Bool.eqb_prop in H1. by subst.
  - apply Bool.eqb_prop in H1. by subst.
  - apply Hb. by eapply Hq.
  - by eapply Hq.
  - apply Hb' in H2. by eapply Hq.
  - by eapply Hq.
  - by eapply Hq.
  - by eapply Hq.
  - apply String.eqb_eq in H1, H2. subst. apply String.eqb_refl.
Qed.

Lemma replace_first_None name record inputs :
  replace_first name record inputs = None <->
  Forall (fun r => py_eq (get r "college_name") name = false) inputs.
Proof.
  induction inputs as [|r inputs IH]; simpl.
  - split; [constructor|done].
  - destruct (py_eq (get r "college_name") name) eqn:E.
    + split; [done|]. intros H. inversion H; congruence.
    + destruct (replace_first name record inputs) as [l|]; simpl.
      * split; [done|]. intros H. inversion H as [|? ? _ H']; subst.
        by apply IH in H'.
      * split; [|done]. intros _. constructor; [done|]. by apply IH.
Qed.

Lemma replace_first_Some name record inputs inputs' :
  replace_first name record inputs = Some inputs' ->
  exists before r after,
    inputs = before ++ r :: after /\
    inputs' = before ++ record :: after /\
    py_eq (get r "college_name") name = true /\
    Forall (fun r => py_eq (get r "college_name") name = false) before.
Proof.
  revert inputs'. induction inputs as [|r inputs IH]; intros inputs'; simpl;
    [done|].
  destruct (py_eq (get r "college_name") name) eqn:E.
  - intros [= <-]. exists [], r, inputs. repeat split; done.
  - destruct (replace_first name record inputs) as [l|]; simpl; [|done].
    intros [= <-]. destruct (IH l eq_refl) as (b & r0 & a & -> & -> & H1 & H2).
    exists (r :: b), r0, a. repeat split; try done. by constructor.
Qed.

(** X15. [upsert] either appends the record, when no stored record bears
    its college name, or replaces the first stored record of that name and
    leaves every other record, and the length, as they were. *)
Theorem upsert_cases (inputs : list (gmap string pyval))
    (record : gmap string pyval) :
  (Forall (fun r => py_eq (get r "college_name") (get record "college_name")
                    = false) inputs /\
   upsert inputs record = inputs ++ [record]) \/
  (exists before r after,
     inputs = before ++ r :: after /\
     py_eq (get r "college_name") (get record "college_name") = true /\
     Forall (fun r => py_eq (get r "college_name") (get record "college_name")
                      = false) before /\
     upsert inputs record = before ++ record :: after /\
     length (upsert inputs record) = length inputs).
Proof.
  unfold upsert.
  destruct (replace_first (get record "college_name") record inputs) as [l|] eqn:E.
  - right. destruct (replace_first_Some _ _ _ _ E) as (b & r & a & -> & -> & H1 & H2).
    exists b, r, a. repeat split; try done.
    by rewrite !length_app.
  - left. split; [|done].
    by apply (proj1 (replace_first_None _ record inputs)).
Qed.

(** X16. [upsert] is idempotent: storing the same record twice is storing
    it once; and after it the record is stored. *)
Theorem upsert_idempotent (inputs : list (gmap string pyval))
    (record : gmap string pyval) :
  upsert (upsert inputs record) record = upsert inputs record /\
  exists i, upsert inputs record !! i = Some record.
Proof.
  set (name := get record "college_name").
  assert (forall before after,
            Forall (fun r => py_eq (get r "college_name") name = false) before ->
            replace_first name record (before ++ record :: after)
            = Some (before ++ record :: after)) as Hfix.
  { intros before after Hb.
    induction Hb as [|r before Hr _ IH]; simpl.
    - unfold name. by rewrite py_eq_refl.
    - by rewrite Hr, IH. }
  unfold upsert at 2 3 4. fold name.
  destruct (replace_first name record inputs) as [l|] eqn:E.
  - destruct (replace_first_Some _ _ _ _ E) as (b & r & a & _ & -> & _ & Hb).
    split.
    + unfold upsert. fold name. by rewrite (Hfix b a Hb).
    + exists (length b). by rewrite lookup_app_r, Nat.sub_diag.
  - apply (proj1 (replace_first_None _ record inputs)) in E.
    split.
    + unfold upsert. fold name. by rewrite (Hfix inputs [] E).
    + exists (length inputs). by rewrite lookup_app_r, Nat.sub_diag.
Qed.

Lemma names_distinct_cons r inputs :
  names_distinct (r :: inputs) <->
  Forall (fun r' => py_eq (get r "college_name") (get r' "college_name") = false)
    inputs /\ names_distinct inputs.
Proof.
  split.
  - intros H. split.
    + apply Forall_forall. intros r' Hr'.
      apply list_elem_of_lookup in Hr' as (j & Hj).
      destruct (py_eq (get r "college_name") (get r' "college_name")) eqn:E;
        [|done].
      by specialize (H 0%nat (S j) r r' eq_refl Hj E).
    + intros i j ri rj Hi Hj E.
      specialize (H (S i) (S j) ri rj Hi Hj E). lia.
  - intros [Hr Hd] i j ri rj Hi Hj E.
    rewrite Forall_forall in Hr.
    destruct i as [|i], j as [|j]; simpl in *.
    + done.
    + injection Hi as <-.
      rewrite (Hr rj) in E; [done|]. by eapply list_elem_of_lookup_2.
    + injection Hj as <-. rewrite py_eq_sym in E.
      rewrite (Hr ri) in E; [done|]. by eapply list_elem_of_lookup_2.
    + f_equal. by eapply Hd.
Qed.

Lemma upsert_keeps_distinct (inputs : list (gmap string pyval))
    (record : gmap string pyval) :
  names_distinct inputs -> names_distinct (upsert inputs record).
Proof.
  intros Hd.
  assert (names_distinct (upsert inputs record)) as Hd'.
  { unfold upsert. set (name := get record "college_name").
    induction inputs as [|r inputs IH]; simpl.
    - intros [|i] [|j] ri rj; simpl; try done.
    - apply names_distinct_cons in Hd as [Hr Hd].
      destruct (py_eq (get r "college_name") name) eqn:E.
      + apply names_distinct_cons. split; [|done].
        apply Forall_forall. intros r' Hr'.
        rewrite Forall_forall in Hr. specialize (Hr r' Hr').
        destruct (py_eq (get record "college_name") (get r' "college_name"))
          eqn:E'; [|done].
        rewrite (py_eq_trans _ _ _ E E') in Hr. done.
      + specialize (IH Hd).
        destruct (replace_first name record inputs) as [l|] eqn:El; simpl in *.
        * apply names_distinct_cons. split; [|done].
          destruct (replace_first_Some _ _ _ _ El)
            as (b & r0 & a & -> & -> & _ & _).
          apply Forall_app in Hr as [Hb Ha].
          apply Forall_cons in Ha as [_ Ha].
          apply Forall_app. split; [done|]. constructor; [done|done].
        * apply names_distinct_cons. split; [|done].
          apply Forall_app. split; [done|]. by repeat constructor. }
  exact Hd'.
Qed.

(** X17. [upsert] keeps the stored college names pairwise different, and
    then no two stored records bear the same name: the cohort it builds
    meets the precondition of the cardinality property. *)
Theorem upsert_names_distinct (inputs : list (gmap string pyval))
    (record : gmap string pyval) :
  names_distinct inputs ->
  names_distinct (upsert inputs record) /\
  NoDup (map (fun r => get r "college_name") (upsert inputs record)).
Proof.
  intros Hd.
  assert (names_distinct (upsert inputs record)) as Hd'
    by by apply upsert_keeps_distinct.
  split; [exact Hd'|].
  apply NoDup_alt. intros i j x Hi Hj.
  rewrite list_lookup_fmap in Hi, Hj.
  destruct (upsert inputs record !! i) as [ri|] eqn:Ei; [|done].
  destruct (upsert inputs record !! j) as [rj|] eqn:Ej; [|done].
  simpl in *. injection Hi as <-. injection Hj as Hj.
  apply (Hd' i j ri rj Ei Ej). rewrite Hj. apply py_eq_refl.
Qed.

Lemma upsert_names_distinct_witness :
  NoDup (map (fun r => get r "college_name")
           (upsert [r_univ; r_small] r_univ_as_college)).
Proof.
  apply (upsert_names_distinct [r_univ; r_small] r_univ_as_college).
  intros [|[|[|i]]] [|[|[|j]]] ri rj; simpl; try done;
    intros [= <-] [= <-]; vm_compute; done.
Defined.

(** ** The summary table *)

Lemma insert_by_total_Permutation s l :
  Permutation (insert_by_total s l) (s :: l).
Proof.
  induction l as [|t l IH]; simpl; [done|].
  destruct (Qleb (res_Total t) (res_Total s)); [done|].
  rewrite IH. apply perm_swap.
Qed.

Lemma sorted_by_total_Permutation scores :
  Permutation (sorted_by_total scores) scores.
Proof.
  induction scores as [|s scores IH]; simpl; [done|].
  rewrite insert_by_total_Permutation. by constructor.
Qed.









(** ** Defaults for scraped data *)

Lemma apply_default_kept data kv k v :
  data !! k = Some v -> v <> PNone -> apply_default data kv !! k = Some v.
Proof.
  intros Hk Hv. unfold apply_default.
  destruct (decide (kv.1 = k)) as [->|Hne].
  - rewrite Hk. by destruct v.
  - destruct (data !! kv.1) as [[]|]; try done; by rewrite lookup_insert_ne.
Qed.

Lemma fold_apply_default_kept d : forall data k v,
  data !! k = Some v -> v <> PNone ->
  fold_left apply_default d data !! k = Some v.
Proof.
  induction d as [|kv d IH]; intros data k v Hk Hv; simpl; [done|].
  apply IH; [|done]. by apply apply_default_kept.
Qed.

Lemma fold_apply_default_other d : forall data k,
  ~ In k (map fst d) ->
  fold_left apply_default d data !! k = data !! k.
Proof.
  induction d as [|kv d IH]; intros data k Hk; simpl; [done|].
  simpl in Hk. rewrite IH by tauto.
  unfold apply_default.
  destruct (data !! kv.1) as [[]|]; try done; rewrite lookup_insert_ne; tauto.
Qed.

Lemma fold_apply_default_filled d : forall data k,
  Forall (fun kv => kv.2 <> PNone) d ->
  In k (map fst d) ->
  exists v, fold_left apply_default d data !! k = Some v /\ v <> PNone.
Proof.
  induction d as [|kv d IH]; intros data k Hd Hk; simpl in *; [done|].
  inversion Hd as [|? ? Hkv Hd']; subst.
  destruct Hk as [<-|Hk]; [|by apply IH].
  assert (exists v, apply_default data kv !! kv.1 = Some v /\ v <> PNone)
    as (v & Hv & Hne).
  { unfold apply_default.
    destruct (data !! kv.1) as [w|] eqn:E.
    - destruct w; try (eexists; split; [exact E|done]).
      exists kv.2. by rewrite lookup_insert_eq.
    - exists kv.2. by rewrite lookup_insert_eq. }
  exists v. split; [|done]. by apply fold_apply_default_kept.
Qed.

Lemma defaults_for_keys college_name :
  map fst (defaults_for college_name) = map fst base_defaults /\
  Forall (fun kv => kv.2 <> PNone) (defaults_for college_name).
Proof.
  unfold defaults_for. destruct (is_premier college_name).
  - split; [vm_compute; reflexivity|].
    vm_compute. repeat constructor; discriminate.
  - split; [reflexivity|]. repeat constructor; discriminate.
Qed.

Lemma key_in_In k keys : key_in k keys = true <-> In k keys.
Proof.
  unfold key_in. rewrite existsb_exists. split.
  - intros (x & Hx & E). apply String.eqb_eq in E. by subst.
  - intros H. exists k. split; [done|apply String.eqb_refl].
Qed.

(** X21. [apply_intelligent_defaults] only fills gaps: a value that is
    present and not [None] (0 included) is kept, a key outside the defaults
    is left as it is, and afterwards each of the fifteen default keys holds
    a value that is not [None]. *)
Theorem defaults_fill_gaps (data : gmap string pyval) (college_name k : string) :
  let filled := apply_intelligent_defaults data college_name in
  (forall v, data !! k = Some v -> v <> PNone -> filled !! k = Some v) /\
  (key_in k (map fst base_defaults) = false -> filled !! k = data !! k) /\
  (key_in k (map fst base_defaults) = true ->
     exists v, filled !! k = Some v /\ v <> PNone).
Proof.
  unfold apply_intelligent_defaults.
  destruct (defaults_for_keys college_name) as [Hkeys Hvals].
  repeat split.
  - intros v Hk Hv. by apply fold_apply_default_kept.
  - intros Hk. apply fold_apply_default_other. rewrite Hkeys.
    intros Hin. apply key_in_In in Hin. congruence.
  - intros Hk. apply fold_apply_default_filled; [done|].
    rewrite Hkeys. by apply key_in_In.
Qed.

Lemma defaults_fill_gaps_witness :
  apply_intelligent_defaults {["faculty_count" := PNum 0]} "IIT Delhi"
    !! "faculty_count" = Some (PNum 0) /\
  exists v,
    apply_intelligent_defaults {["faculty_count" := PNum 0]} "IIT Delhi"
      !! "patents" = Some v /\ v <> PNone.
Proof.
  destruct (defaults_fill_gaps {["faculty_count" := PNum 0]} "IIT Delhi"
              "faculty_count") as (H1 & _ & _).
  destruct (defaults_fill_gaps {["faculty_count" := PNum 0]} "IIT Delhi"
              "patents") as (_ & _ & H3).
  split.
  - apply H1; [reflexivity|discriminate].
  - apply H3. reflexivity.
Defined.

Lemma fold_update_None (subs : list (gmap string pyval)) k : forall data,
  Forall (fun s : gmap string pyval => s !! k = None) subs ->
  fold_left (fun data sub => sub ∪ data) subs data !! k = data !! k.
Proof.
  induction subs as [|s subs IH]; intros data H; simpl; [done|].
  inversion H as [|? ? Hs Hrest]; subst.
  rewrite IH by done. by apply lookup_union_r.
Qed.

(** X22. In [advanced_scraping] a later source overrides an earlier one
    and no default overrides a source: a value (not [None]) found by the
    search is the result; else the value of the last subpage that has the
    key; else the value of the main page. *)
Theorem scraped_value_precedence (main_data : gmap string pyval)
    (subpage_data : list (gmap string pyval)) (search_data : gmap string pyval)
    (college_name k : string) (v : pyval) :
  v <> PNone ->
  let result :=
    advanced_scraping main_data subpage_data search_data college_name in
  (search_data !! k = Some v -> result !! k = Some v) /\
  (search_data !! k = None ->
   forall earlier sub later,
     subpage_data = earlier ++ sub :: later ->
     sub !! k = Some v ->
     Forall (fun s : gmap string pyval => s !! k = None) later ->
     result !! k = Some v) /\
  (search_data !! k = None ->
   Forall (fun s : gmap string pyval => s !! k = None) subpage_data ->
   main_data !! k = Some v ->
   result !! k = Some v).
Proof.
  intros Hv. unfold advanced_scraping. cbv zeta.
  unfold apply_intelligent_defaults. repeat split.
  - intros Hs. apply fold_apply_default_kept; [|done].
    by apply lookup_union_Some_l.
  - intros Hs earlier sub later -> Hsub Hlater.
    apply fold_apply_default_kept; [|done].
    rewrite lookup_union_r by done.
    rewrite fold_left_app. cbn [fold_left].
    rewrite fold_update_None by done. by apply lookup_union_Some_l.
  - intros Hs Hsubs Hmain.
    apply fold_apply_default_kept; [|done].
    rewrite lookup_union_r by done.
    rewrite fold_update_None by done. by apply lookup_union_Some_l.
Qed.

Lemma scraped_value_precedence_witness :
  advanced_scraping {["citations" := PNum 10]}
    [{["citations" := PNum 20]}; {["citations" := PNum 30]}] ∅ "X"
    !! "citations" = Some (PNum 30).
Proof.
  destruct (scraped_value_precedence {["citations" := PNum 10]}
              [{["citations" := PNum 20]}; {["citations" := PNum 30]}] ∅ "X"
              "citations" (PNum 30)) as (_ & H & _); [discriminate|].
  apply (H eq_refl [{["citations" := PNum 20]}] {["citations" := PNum 30]} []);
    [reflexivity | reflexivity | constructor].
Defined.

(** ** Records made from scraped data *)

Lemma round_half_even_between (a b : Z) (y : Q) :
  inject_Z a <= y -> y <= inject_Z b ->
  (a <= round_half_even y <= b)%Z.
Proof.
  intros Ha Hb. unfold round_half_even.
  pose proof (Qfloor_le y) as Hf. pose proof (Qlt_floor y) as Hf'.
  set (f := Qfloor y) in *.
  assert (a <= f)%Z as Haf.
  { assert (inject_Z a < inject_Z (f + 1)) as H by lra.
    rewrite <- Zlt_Qlt in H. lia. }
  assert (f <= b)%Z as Hfb.
  { assert (inject_Z f <= inject_Z b) as H by lra.
    by rewrite <- Zle_Qle in H. }
  assert (1 # 2 <= y - inject_Z f -> (f + 1 <= b)%Z) as Hup.
  { intros Hd. assert (inject_Z f < inject_Z b) as H by lra.
    rewrite <- Zlt_Qlt in H. lia. }
  destruct (Qltb (y - inject_Z f) (1 # 2)) eqn:E1; [lia|].
  apply Qltb_ge in E1. specialize (Hup E1).
  destruct (Qltb (1 # 2) (y - inject_Z f)); [lia|].
  destruct (Z.even f); lia.
Qed.

Lemma round2_percent x : 0 <= x -> x <= 100 -> 0 <= round2 x /\ round2 x <= 100.
Proof.
  intros H0 H100. unfold round2.
  destruct (round_half_even_between 0 10000 (x * 100)) as [Hlo Hhi].
  { change (inject_Z 0) with 0. lra. }
  { change (inject_Z 10000) with 10000. lra. }
  rewrite Zle_Qle in Hlo, Hhi.
  change (inject_Z 0) with 0 in Hlo. change (inject_Z 10000) with 10000 in Hhi.
  split; qlra.
Qed.

Section ScrapedFacts.

Context (float_of_str : string -> option Q).

Lemma numeric_data_get scraped k :
  numeric_data scraped ->
  get scraped k = PNone \/ exists q, get scraped k = PNum q.
Proof.
  intros H. unfold get. destruct (scraped !! k) as [v|] eqn:E; [|by left].
  right. destruct (H k v E) as (q & ->). by exists q.
Qed.

Lemma or_zero_number scraped k :
  numeric_data scraped ->
  safe_float float_of_str (or_zero (get scraped k)) 0
  == num float_of_str scraped k.
Proof.
  intros H. unfold num.
  destruct (numeric_data_get scraped k H) as [->|(q & ->)]; [reflexivity|].
  unfold or_zero, truthy. destruct (Qeq_bool q 0) eqn:E; simpl; [|reflexivity].
  apply Qeq_bool_iff in E. by rewrite E.
Qed.

Lemma scraped_phd_percent_numeric v w :
  (v = PNone \/ exists q, v = PNum q) ->
  (w = PNone \/ exists q, w = PNum q) ->
  exists x, scraped_phd_percent float_of_str v w = Ok x.
Proof.
  intros [->|(f & ->)] [->|(p & ->)]; unfold scraped_phd_percent; simpl;
    try (by eexists).
  - rewrite andb_false_r. by eexists.
  - destruct (negb (Qeq_bool f 0) && negb (Qeq_bool p 0)); [|by eexists].
    step_bind. destruct (Qltb 0 f); [|by eexists].
    destruct (truediv p f); by eexists.
Qed.

Lemma map_scraped_returns college_name website_url scraped :
  numeric_data scraped ->
  exists record,
    map_scraped_to_record float_of_str college_name website_url scraped
      = Ok record /\
    get record "scraping_status" =
      PStr (if decide (scraped = ∅) then "manual_input" else "success") /\
    get record "college_name" = PStr college_name /\
    institution_type_of record = Ok "college" /\
    F_total_of float_of_str record == num float_of_str scraped "faculty_count".
Proof.
  intros Hnum. unfold map_scraped_to_record.
  destruct (scraped_phd_percent_numeric _ _
              (numeric_data_get scraped "faculty_count" Hnum)
              (numeric_data_get scraped "phd_count" Hnum)) as (x & ->).
  step_bind. eexists. split; [reflexivity|]. split; [reflexivity|].
  split; [reflexivity|]. split; [reflexivity|].
  unfold F_total_of.
  change (get _ "F1") with (or_zero (get scraped "faculty_count")).
  change (get _ "F2") with (PNum 0).
  rewrite (or_zero_number scraped "faculty_count" Hnum). simpl. ring.
Qed.

(** X23. From scraped data whose values are numbers,
    [map_scraped_to_record] returns a record; it bears the given name and
    site, the institution type [college], and the status [success] unless
    the scraped dictionary is empty; the engine reads from it the scraped
    faculty count as effective faculty, the student count as seats, half
    the publications and half the citations as composite scores, and the
    patents as patents granted. *)
Theorem map_scraped_numeric (college_name website_url : string)
    (scraped : gmap string pyval) :
  numeric_data scraped ->
  exists record,
    map_scraped_to_record float_of_str college_name website_url scraped
      = Ok record /\
    get record "college_name" = PStr college_name /\
    get record "website_url" = PStr website_url /\
    institution_type_of record = Ok "college" /\
    get record "scraping_status" =
      PStr (if decide (scraped = ∅) then "manual_input" else "success") /\
    F_total_of float_of_str record == num float_of_str scraped "faculty_count" /\
    num float_of_str record "seats_N" == num float_of_str scraped "student_count" /\
    P_of float_of_str record
      == (1 # 2) * num float_of_str scraped "publications" /\
    CC_of float_of_str record
      == (1 # 2) * num float_of_str scraped "citations" /\
    num float_of_str record "PG_granted" == num float_of_str scraped "patents".
Proof.
  intros Hnum. unfold map_scraped_to_record.
  destruct (scraped_phd_percent_numeric _ _
              (numeric_data_get scraped "faculty_count" Hnum)
              (numeric_data_get scraped "phd_count" Hnum)) as (x & ->).
  step_bind. eexists. split; [reflexivity|].
  split; [reflexivity|]. split; [reflexivity|]. split; [reflexivity|].
  split; [reflexivity|].
  pose proof (or_zero_number scraped "faculty_count" Hnum) as HF.
  pose proof (or_zero_number scraped "student_count" Hnum) as HS.
  pose proof (or_zero_number scraped "publications" Hnum) as HP.
  pose proof (or_zero_number scraped "citations" Hnum) as HC.
  pose proof (or_zero_number scraped "patents" Hnum) as HG.
  repeat split.
  - unfold F_total_of.
    change (get _ "F1") with (or_zero (get scraped "faculty_count")).
    change (get _ "F2") with (PNum 0).
    rewrite HF. simpl. ring.
  - unfold num at 1.
    change (get _ "seats_N") with (or_zero (get scraped "student_count")).
    exact HS.
  - unfold P_of.
    change (get _ "PS") with (or_zero (get scraped "publications")).
    change (get _ "PW") with (PNum 0). change (get _ "PG") with (PNum 0).
    change (get _ "PI") with (PNum 0).
    rewrite HP. simpl. ring.
  - unfold CC_of.
    change (get _ "CCS") with (or_zero (get scraped "citations")).
    change (get _ "CCW") with (PNum 0). change (get _ "CCG") with (PNum 0).
    change (get _ "CCI") with (PNum 0).
    rewrite HC. simpl. ring.
  - unfold num at 1.
    change (get _ "PG_granted") with (or_zero (get scraped "patents")).
    exact HG.
Qed.

(** X24. The PhD percentage of the record is the rounded ratio of the two
    scraped counts when the faculty count is positive and the PhD count is
    not zero, and lies between 0 and 100 when the PhD count does not exceed
    the faculty count; no division by zero occurs. *)
Theorem scraped_phd_percent_range (college_name website_url : string)
    (scraped : gmap string pyval) (f p : Q) :
  get scraped "faculty_count" = PNum f ->
  get scraped "phd_count" = PNum p ->
  0 <= p -> p <= f ->
  exists record,
    map_scraped_to_record float_of_str college_name website_url scraped
      = Ok record /\
    0 <= num float_of_str record "phd_percent" /\
    num float_of_str record "phd_percent" <= 100 /\
    (0 < p -> num float_of_str record "phd_percent" = round2 (p / f * 100)).
Proof.
  intros Hf Hp Hp0 Hpf. unfold map_scraped_to_record, scraped_phd_percent.
  rewrite Hf, Hp. cbn [truthy py_gt_zero py_float].
  destruct (Qeq_bool f 0) eqn:Ef0; cbn [negb andb].
  - apply Qeq_bool_iff in Ef0. step_bind. eexists. split; [reflexivity|].
    change (num float_of_str _ "phd_percent") with (round2 0).
    split; [done|]. split; [done|]. intros Hpos. lra.
  - destruct (Qeq_bool p 0) eqn:Ep0; cbn [negb].
    + apply Qeq_bool_iff in Ep0. step_bind. eexists. split; [reflexivity|].
      change (num float_of_str _ "phd_percent") with (round2 0).
      split; [done|]. split; [done|]. intros Hpos. lra.
    + assert (0 < f) as Hfpos.
      { apply Qeq_bool_neq in Ef0. apply Qeq_bool_neq in Ep0.
        destruct (Qlt_le_dec 0 f) as [|Hle]; [done|].
        assert (p == 0) by lra. contradiction. }
      step_bind. apply Qltb_lt in Hfpos as Hlt. rewrite Hlt.
      rewrite truediv_pos by done. step_bind.
      eexists. split; [reflexivity|].
      change (num float_of_str _ "phd_percent") with (round2 (p / f * 100)).
      assert (0 <= p / f /\ p / f <= 1) as [H0 H1].
      { split.
        - apply Qle_shift_div_l; [done|]. lra.
        - apply Qle_shift_div_r; [done|]. lra. }
      destruct (round2_percent (p / f * 100)) as [Hlo Hhi]; [lra|lra|].
      repeat split; done.
Qed.

End ScrapedFacts.

Lemma map_scraped_numeric_witness :
  exists record,
    map_scraped_to_record no_strings "Demo" "http://demo"
      {["faculty_count" := PNum 50]} = Ok record /\
    get record "scraping_status" = PStr "success" /\
    F_total_of no_strings record == 50.
Proof.
  destruct (map_scraped_numeric no_strings "Demo" "http://demo"
              {["faculty_count" := PNum 50]})
    as (record & H1 & _ & _ & _ & H5 & H6 & _).
  - intros k v Hk. apply lookup_singleton_Some in Hk as [_ <-]. by eexists.
  - exists record. split; [exact H1|]. split; [exact H5|].
    rewrite H6. reflexivity.
Defined.

Lemma scraped_phd_percent_range_witness :
  exists record,
    map_scraped_to_record no_strings "Demo" "http://demo"
      (<["phd_count" := PNum 30]> {["faculty_count" := PNum 50]}) = Ok record /\
    num no_strings record "phd_percent" = round2 (30 / 50 * 100).
Proof.
  destruct (scraped_phd_percent_range no_strings "Demo" "http://demo"
              (<["phd_count" := PNum 30]> {["faculty_count" := PNum 50]}) 50 30)
    as (record & H1 & _ & _ & H4);
    [reflexivity | reflexivity | vm_compute; congruence
    | vm_compute; congruence |].
  exists record. split; [exact H1|]. apply H4. reflexivity.
Defined.

(** ** From the scraper to the record *)

Lemma numeric_data_union (a b : gmap string pyval) :
  numeric_data a -> numeric_data b -> numeric_data (a ∪ b).
Proof.
  intros Ha Hb k v Hk. apply lookup_union_Some_raw in Hk as [Hk|[_ Hk]].
  - by apply (Ha k).
  - by apply (Hb k).
Qed.

Lemma numeric_data_fold_update (subs : list (gmap string pyval)) : forall data,
  Forall numeric_data subs -> numeric_data data ->
  numeric_data (fold_left (fun data sub => sub ∪ data) subs data).
Proof.
  induction subs as [|s subs IH]; intros data Hs Hd; simpl; [done|].
  inversion Hs; subst. apply IH; [done|]. by apply numeric_data_union.
Qed.

Lemma numeric_data_fold_defaults d : forall data,
  Forall (fun kv : string * pyval => exists q, kv.2 = PNum q) d ->
  numeric_data data ->
  numeric_data (fold_left apply_default d data).
Proof.
  induction d as [|kv d IH]; intros data Hd Hdata; simpl; [done|].
  inversion Hd as [|? ? (q & Hq) Hd']; subst. apply IH; [done|].
  unfold apply_default.
  destruct (data !! kv.1) as [[]|]; try done;
    intros k v Hk; (destruct (decide (kv.1 = k)) as [<-|Hne];
      [rewrite lookup_insert_eq in Hk; injection Hk as <-; by exists q
      |rewrite lookup_insert_ne in Hk by done; by apply (Hdata k)]).
Qed.

Lemma defaults_for_numeric college_name :
  Forall (fun kv : string * pyval => exists q, kv.2 = PNum q)
    (defaults_for college_name).
Proof.
  unfold defaults_for. destruct (is_premier college_name).
  - vm_compute. repeat constructor; by eexists.
  - repeat constructor; by eexists.
Qed.

Lemma advanced_scraping_numeric main_data subpage_data search_data college_name :
  numeric_data main_data -> Forall numeric_data subpage_data ->
  numeric_data search_data ->
  numeric_data
    (advanced_scraping main_data subpage_data search_data college_name).
Proof.
  intros Hm Hs Hq. unfold advanced_scraping, apply_intelligent_defaults.
  apply numeric_data_fold_defaults; [apply defaults_for_numeric|].
  apply numeric_data_union; [done|].
  apply numeric_data_fold_update; [done|].
  apply numeric_data_union; [done|]. intros k v Hk. done.
Qed.

Lemma defaults_for_faculty college_name :
  exists rest,
    defaults_for college_name =
    ("faculty_count", PNum (if is_premier college_name then 400 else 200))
    :: rest.
Proof.
  unfold defaults_for. destruct (is_premier college_name);
    eexists; vm_compute; reflexivity.
Qed.

Section ScraperFacts.

Context (float_of_str : string -> option Q).

(** X25. Whatever the scraper finds, numbers or nothing at all, the record
    made from [advanced_scraping] is returned with status [success]: the
    defaults make the scraped dictionary non-empty.  When no source gives a
    faculty count the record carries the default, 400 for a premier
    institution and 200 otherwise, as effective faculty. *)
Theorem scraped_record_always_success (main_data : gmap string pyval)
    (subpage_data : list (gmap string pyval)) (search_data : gmap string pyval)
    (college_name website_url : string) :
  numeric_data main_data ->
  Forall numeric_data subpage_data ->
  numeric_data search_data ->
  exists record,
    map_scraped_to_record float_of_str college_name website_url
      (advanced_scraping main_data subpage_data search_data college_name)
      = Ok record /\
    get record "scraping_status" = PStr "success" /\
    (main_data !! "faculty_count" = None ->
     Forall (fun s : gmap string pyval => s !! "faculty_count" = None)
       subpage_data ->
     search_data !! "faculty_count" = None ->
     F_total_of float_of_str record
       == (if is_premier college_name then 400 else 200)).
Proof.
  intros Hm Hs Hq.
  set (scraped :=
         advanced_scraping main_data subpage_data search_data college_name).
  assert (numeric_data scraped) as Hnum by by apply advanced_scraping_numeric.
  destruct (map_scraped_returns float_of_str college_name website_url scraped Hnum)
    as (record & E & Hst & _ & _ & HF).
  exists record. split; [exact E|].
  assert (scraped <> ∅) as Hne.
  { destruct (defaults_for_keys college_name) as [Hkeys Hvals].
    destruct (fold_apply_default_filled (defaults_for college_name)
                (search_data ∪ fold_left (fun data sub => sub ∪ data) subpage_data
                                 (main_data ∪ ∅))
                "faculty_count" Hvals) as (v & Hv & _).
    { rewrite Hkeys. simpl. by left. }
    intros Hempty.
    unfold scraped, advanced_scraping, apply_intelligent_defaults in Hempty.
    cbv zeta in *. rewrite Hempty in Hv. by rewrite lookup_empty in Hv. }
  split.
  - rewrite Hst. by destruct (decide (scraped = ∅)).
  - intros Hmain Hsubs Hsearch. rewrite HF.
    unfold num, get, scraped, advanced_scraping, apply_intelligent_defaults.
    destruct (defaults_for_faculty college_name) as (rest & ->).
    cbn [fold_left]. unfold apply_default at 2. cbn [fst snd].
    assert ((search_data ∪ fold_left (fun data sub => sub ∪ data) subpage_data
                             (main_data ∪ ∅)) !! "faculty_count" = None) as ->.
    { rewrite lookup_union_r by done. rewrite fold_update_None by done.
      rewrite lookup_union_r by done. apply lookup_empty. }
    erewrite fold_apply_default_kept;
      [|apply lookup_insert_eq |by destruct (is_premier college_name)].
    by destruct (is_premier college_name).
Qed.

End ScraperFacts.

Lemma scraped_record_always_success_witness :
  exists record,
    map_scraped_to_record no_strings "NIT Trichy" "http://nitt"
      (advanced_scraping ∅ [] ∅ "NIT Trichy") = Ok record /\
    get record "scraping_status" = PStr "success" /\
    F_total_of no_strings record == 400.
Proof.
  destruct (scraped_record_always_success no_strings ∅ [] ∅ "NIT Trichy"
              "http://nitt") as (record & H1 & H2 & H3);
    [done | constructor | done |].
  exists record. split; [exact H1|]. split; [exact H2|].
  rewrite H3; [reflexivity | apply lookup_empty | constructor | apply lookup_empty].
Defined.

(** ** Submitting the form *)

Lemma replace_first_Forall (P : gmap string pyval -> Prop) name record inputs l :
  Forall P inputs -> P record ->
  replace_first name record inputs = Some l -> Forall P l.
Proof.
  intros Hi Hr E.
  destruct (replace_first_Some _ _ _ _ E) as (b & r & a & -> & -> & _ & _).
  apply Forall_app in Hi as [Hb Ha]. apply Forall_cons in Ha as [_ Ha].
  apply Forall_app. split; [done|]. by constructor.
Qed.

Lemma upsert_Forall (P : gmap string pyval -> Prop) inputs record :
  Forall P inputs -> P record -> Forall P (upsert inputs record).
Proof.
  intros Hi Hr. unfold upsert.
  destruct (replace_first (get record "college_name") record inputs) as [l|] eqn:E.
  - by eapply replace_first_Forall.
  - apply Forall_app. split; [done|]. by constructor.
Qed.

Lemma upsert_lookup inputs record :
  exists i, upsert inputs record !! i = Some record.
Proof.
  unfold upsert.
  destruct (replace_first (get record "college_name") record inputs) as [l|] eqn:E.
  - destruct (replace_first_Some _ _ _ _ E) as (b & r & a & _ & -> & _ & _).
    exists (length b). by rewrite lookup_app_r, Nat.sub_diag.
  - exists (length inputs). by rewrite lookup_app_r, Nat.sub_diag.
Qed.

Lemma upsert_not_nil inputs record : upsert inputs record <> [].
Proof.
  destruct (upsert_lookup inputs record) as (i & Hi). intros E.
  rewrite E in Hi. by rewrite lookup_nil in Hi.
Qed.

Lemma form_record_typed form : category_typed (form_record form) = true.
Proof. reflexivity. Qed.

Section InputMetricsFacts.

Context (float_of_str : string -> option Q).

Lemma compute_scores_names env records :
  weights_usable env = true ->
  Forall (fun r => category_typed r = true) records ->
  exists scores,
    compute_scores float_of_str env records = Ok scores /\
    Forall2 (fun r s => college_name s = get r "college_name") records scores.
Proof.
  intros Hw Ht. unfold compute_scores.
  rewrite first_pass_returns. step_bind.
  destruct (second_pass_returns float_of_str env (vectors_of float_of_str records)
              (R_star_of (PR_SR_ratio_list (vectors_of float_of_str records)))
              records 0%nat [] Hw Ht) as (out & -> & Hout).
  { intros i r Hr. cbn [Nat.add].
    rewrite (internals_at float_of_str records i r Hr). by eexists. }
  by exists out.
Qed.

(** X26. A submitted form is stored before the scores are computed: with a
    weights mapping that lacks [TLR] the request fails with [KeyError], the
    submitted record is in [inputs.json] all the same, and the score files
    and the history are left as they were. *)
Theorem submission_stored_when_scoring_fails (m : gmap string pyval)
    (now : string) (form : gmap string string) (st : store) :
  m !! "TLR" = None ->
  Forall (fun r => category_typed r = true) (load_list (inputs_json st)) ->
  let after :=
    input_metrics_post float_of_str (Loaded (YMapping m)) now form st in
  after.2 = Raise (KeyError "TLR") /\
  inputs_json after.1
    = Holds (upsert (load_list (inputs_json st)) (form_record form)) /\
  nirf_scores_csv after.1 = nirf_scores_csv st /\
  results_summary_csv after.1 = results_summary_csv st /\
  history_json after.1 = history_json st.
Proof.
  intros Hm Ht. unfold input_metrics_post.
  rewrite (compute_scores_total_raises float_of_str (Loaded (YMapping m))
             (upsert (load_list (inputs_json st)) (form_record form))
             (KeyError "TLR")).
  - pose proof (upsert_not_nil (load_list (inputs_json st)) (form_record form)).
    destruct (upsert (load_list (inputs_json st)) (form_record form));
      [done|]. repeat split.
  - by apply upsert_Forall.
  - intros. by apply total_block_missing_TLR.
Qed.

(** X27. With a weights file that is absent, unreadable or complete, and
    stored records whose institution category is a string or absent, a
    submission succeeds: the inputs hold the submitted record, there is one
    score and one summary row per stored input, and the history grows by
    exactly one entry, for the submitted record and with the score of a
    college of its name. *)
Theorem submission_scored (env : weights_file) (now : string)
    (form : gmap string string) (st : store) :
  weights_usable env = true ->
  Forall (fun r => category_typed r = true) (load_list (inputs_json st)) ->
  let inputs := upsert (load_list (inputs_json st)) (form_record form) in
  let after := input_metrics_post float_of_str env now form st in
  after.2 = Ok () /\
  inputs_json after.1 = Holds inputs /\
  (exists i, inputs !! i = Some (form_record form)) /\
  exists scores entry,
    nirf_scores_csv after.1 = Holds scores /\
    length scores = length inputs /\
    results_summary_csv after.1 = Holds (summary_rows scores) /\
    length (summary_rows scores) = length inputs /\
    history_json after.1 = Holds (load_list (history_json st) ++ [entry]) /\
    h_record entry = form_record form /\
    In (h_scores entry) scores /\
    py_eq (college_name (h_scores entry))
          (get (form_record form) "college_name") = true.
Proof.
  intros Hw Ht inputs. unfold input_metrics_post. fold inputs.
  destruct (compute_scores_names env inputs Hw) as (scores & -> & Hnames).
  { apply upsert_Forall; [done|apply form_record_typed]. }
  destruct (upsert_lookup (load_list (inputs_json st)) (form_record form))
    as (i & Hi). fold inputs in Hi.
  destruct (Forall2_lookup_l _ _ _ _ _ Hnames Hi) as (s & Hs & Hn).
  destruct (List.find
              (fun s => py_eq (college_name s)
                          (get (form_record form) "college_name")) scores)
    as [s'|] eqn:Efind.
  - apply find_some in Efind as [Hin Heq].
    cbn [fst snd]. split; [done|]. split; [done|]. split; [by exists i|].
    exists scores. eexists. split; [done|].
    split; [symmetry; by eapply Forall2_length|].
    split; [done|]. split.
    { unfold summary_rows. rewrite length_imap.
      rewrite (Permutation_length (sorted_by_total_Permutation scores)).
      symmetry. by eapply Forall2_length. }
    split; [reflexivity|]. repeat split; done.
  - exfalso. pose proof (find_none _ _ Efind s) as Hf. simpl in Hf.
    rewrite Hn, py_eq_refl in Hf. enough (true = false) by done.
    apply Hf. apply list_elem_of_In. by eapply list_elem_of_lookup_2.
Qed.

End InputMetricsFacts.

Lemma submission_stored_when_scoring_fails_witness :
  (input_metrics_post no_strings (Loaded (YMapping (delete "TLR" default_weights)))
     "2024-01-01T00:00:00" {["college_name" := " Demo "]}
     {| inputs_json := Holds [r_univ]; nirf_scores_csv := Missing;
        results_summary_csv := Missing; history_json := Missing |}).2
  = Raise (KeyError "TLR").
Proof.
  apply (submission_stored_when_scoring_fails no_strings
           (delete "TLR" default_weights)).
  - reflexivity.
  - repeat constructor.
Defined.

Lemma submission_scored_witness :
  (input_metrics_post no_strings FileAbsent "2024-01-01T00:00:00"
     {["college_name" := " Demo "]}
     {| inputs_json := Holds [r_univ]; nirf_scores_csv := Missing;
        results_summary_csv := Missing; history_json := Unreadable |}).2
  = Ok ().
Proof.
  apply (submission_scored no_strings FileAbsent).
  - reflexivity.
  - repeat constructor.
Defined.

(** ** Premier institutions by keyword *)

Lemma lower_append a b : lower (a +:+ b) = lower a +:+ lower b.
Proof. induction a as [|c a IH]; simpl; [done|]. by rewrite IH. Qed.

Lemma prefix_append a b : String.prefix a (a +:+ b) = true.
Proof.
  induction a as [|c a IH]; simpl; [by destruct b|].
  destruct (ascii_dec c c); [exact IH|done].
Qed.

Lemma contains_append needle pre post :
  contains needle (pre +:+ needle +:+ post) = true.
Proof.
  induction pre as [|c pre IH].
  - change ("" +:+ needle +:+ post) with (needle +:+ post).
    pose proof (prefix_append needle post) as H.
    destruct (needle +:+ post); cbn [contains]; [exact H|by rewrite H].
  - change (String c pre +:+ needle +:+ post)
      with (String c (pre +:+ needle +:+ post)).
    cbn [contains]. by rewrite IH, orb_true_r.
Qed.

(** X28. The premier defaults go to every college whose name contains
    [iit], [iim], [nit] or [central] anywhere and in any letter case, also
    inside another word: its default faculty count is 400. *)
Theorem premier_by_substring (before keyword after : string)
    (data : gmap string pyval) :
  In (lower keyword) ["iit"; "iim"; "nit"; "central"] ->
  data !! "faculty_count" = None ->
  is_premier (before +:+ keyword +:+ after) = true /\
  apply_intelligent_defaults data (before +:+ keyword +:+ after)
    !! "faculty_count" = Some (PNum 400).
Proof.
  intros Hkw Hdata.
  assert (is_premier (before +:+ keyword +:+ after) = true) as Hp.
  { unfold is_premier. rewrite !lower_append.
    apply existsb_exists. exists (lower keyword). split; [done|].
    apply contains_append. }
  split; [exact Hp|].
  unfold apply_intelligent_defaults.
  destruct (defaults_for_faculty (before +:+ keyword +:+ after)) as (rest & ->).
  rewrite Hp. cbn [fold_left]. unfold apply_default at 2. cbn [fst snd].
  rewrite Hdata. apply fold_apply_default_kept; [|done].
  apply lookup_insert_eq.
Qed.

Lemma premier_by_substring_witness :
  is_premier "Community College" = true /\
  apply_intelligent_defaults ∅ "Community College" !! "faculty_count"
  = Some (PNum 400).
Proof.
  apply (premier_by_substring "Commu" "nit" "y College" ∅).
  - simpl. tauto.
  - apply lookup_empty.
Defined.

(** ** Adding a college by scraping *)

Section AutoScrapeFacts.

Context (float_of_str : string -> option Q).

(** X29. With a college name that is not blank, the scraper at hand and
    scraped values that are numbers, [auto_scrape] redirects to the form of
    that college and stores one record, by insert-or-replace: the record
    bears the stripped name and the institution type [college], the other
    files are untouched, and stored names that were pairwise different
    stay so. *)
Theorem auto_scrape_stores (head : string -> option (nat * string))
    (scrape : string -> string -> option (gmap string pyval))
    (form : gmap string string) (st : store) :
  let college_name := strip (default "" (form !! "college_name")) in
  college_name <> "" ->
  (forall site name data, scrape site name = Some data -> numeric_data data) ->
  exists record,
    auto_scrape_post float_of_str head true scrape form st =
      ({| inputs_json := Holds (upsert (load_list (inputs_json st)) record);
          nirf_scores_csv := nirf_scores_csv st;
          results_summary_csv := results_summary_csv st;
          history_json := history_json st |},
       Ok (Redirected college_name)) /\
    get record "college_name" = PStr college_name /\
    institution_type_of record = Ok "college" /\
    (names_distinct (load_list (inputs_json st)) ->
     names_distinct (upsert (load_list (inputs_json st)) record)).
Proof.
  intros college_name Hname Hscrape. unfold auto_scrape_post.
  fold college_name. apply String.eqb_neq in Hname. rewrite Hname.
  cbn [negb].
  set (website_url := strip (default "" (form !! "website_url"))).
  assert (numeric_data (∅ : gmap string pyval)) as Hempty by (intros k v; done).
  assert (forall url data, numeric_data data ->
            exists record,
              map_scraped_to_record float_of_str college_name url data
                = Ok record /\
              get record "college_name" = PStr college_name /\
              institution_type_of record = Ok "college") as Hmap.
  { intros url data Hd.
    destruct (map_scraped_returns float_of_str college_name url data Hd)
      as (record & E & _ & H1 & H2 & _). by exists record. }
  destruct (resolve_official_site head college_name
              (if String.eqb website_url "" then None else Some website_url))
    as [site_url|].
  - destruct (String.eqb site_url "").
    + destruct (Hmap website_url ∅ Hempty) as (record & -> & H1 & H2).
      exists record. repeat split; try done. apply upsert_keeps_distinct.
    + assert (numeric_data (default ∅ (scrape site_url college_name))) as Hd.
      { destruct (scrape site_url college_name) as [d|] eqn:E; simpl;
          [by eapply Hscrape|done]. }
      destruct (Hmap site_url _ Hd) as (record & -> & H1 & H2).
      exists record. repeat split; try done. apply upsert_keeps_distinct.
  - destruct (Hmap website_url ∅ Hempty) as (record & -> & H1 & H2).
    exists record. repeat split; try done. apply upsert_keeps_distinct.
Qed.

(** The minimal record holds a number, which is 0, under every numeric
    field. *)
Lemma minimal_record_numbers college_name website_url :
  exists minimal,
    map_scraped_to_record float_of_str college_name website_url ∅ = Ok minimal /\
    get minimal "scraping_status" = PStr "manual_input" /\
    forall k, key_in k numeric_keys = true ->
      numeric (get minimal k) = true /\ num float_of_str minimal k == 0.
Proof.
  eexists. split; [reflexivity|]. split; [reflexivity|].
  intros k Hk. apply key_in_In in Hk. cbn [numeric_keys In] in Hk.
  repeat (destruct Hk as [<-|Hk]; [split; reflexivity|]). destruct Hk.
Qed.

(** X30. For a form in ASCII text with a college name that is not blank
    and no URL, when the scraper could be imported and no HEAD request is
    answered, [auto_scrape] stores a minimal record and redirects to the
    input form of the college: the record has status [manual_input] and
    holds a number, which is 0, under every numeric field. *)
Theorem auto_scrape_unresolved (head : string -> option (nat * string))
    (scraper_available : bool)
    (scrape : string -> string -> option (gmap string pyval))
    (form : gmap string string) (st : store) :
  let college_name := strip (default "" (form !! "college_name")) in
  ascii_text (default "" (form !! "college_name")) = true ->
  ascii_text (default "" (form !! "website_url")) = true ->
  college_name <> "" ->
  strip (default "" (form !! "website_url")) = "" ->
  scraper_available = true ->
  (forall url, head url = None) ->
  exists minimal,
    auto_scrape_post float_of_str head scraper_available scrape form st =
      ({| inputs_json := Holds (upsert (load_list (inputs_json st)) minimal);
          nirf_scores_csv := nirf_scores_csv st;
          results_summary_csv := results_summary_csv st;
          history_json := history_json st |},
       Ok (Redirected college_name)) /\
    get minimal "scraping_status" = PStr "manual_input" /\
    forall k, key_in k numeric_keys = true ->
      numeric (get minimal k) = true /\ num float_of_str minimal k == 0.
Proof.
  intros college_name _ _ Hname Hurl -> Hhead. unfold auto_scrape_post.
  fold college_name. apply String.eqb_neq in Hname. rewrite Hname, Hurl.
  cbn [negb String.eqb]. unfold resolve_official_site.
  assert (forall l, first_reachable head l = None) as ->.
  { induction l as [|url l IH]; simpl; [done|]. by rewrite Hhead. }
  destruct (minimal_record_numbers college_name "") as (minimal & -> & H1 & H2).
  by exists minimal.
Qed.

End AutoScrapeFacts.

Lemma auto_scrape_stores_witness :
  exists record,
    auto_scrape_post no_strings (fun _ => None) true (fun _ _ => None)
      {["college_name" := " Demo College "]}
      {| inputs_json := Missing; nirf_scores_csv := Missing;
         results_summary_csv := Missing; history_json := Missing |} =
      ({| inputs_json := Holds [record]; nirf_scores_csv := Missing;
          results_summary_csv := Missing; history_json := Missing |},
       Ok (Redirected "Demo College")) /\
    get record "college_name" = PStr "Demo College".
Proof.
  destruct (auto_scrape_stores no_strings (fun _ => None) (fun _ _ => None)
              {["college_name" := " Demo College "]}
              {| inputs_json := Missing; nirf_scores_csv := Missing;
                 results_summary_csv := Missing; history_json := Missing |})
    as (record & H1 & H2 & _); [discriminate | discriminate |].
  exists record. split; [exact H1|exact H2].
Defined.

Lemma auto_scrape_unresolved_witness :
  exists minimal,
    auto_scrape_post no_strings (fun _ => None) true (fun _ _ => None)
      {["college_name" := " Demo College "]}
      {| inputs_json := Missing; nirf_scores_csv := Missing;
         results_summary_csv := Missing; history_json := Missing |} =
      ({| inputs_json := Holds [minimal]; nirf_scores_csv := Missing;
          results_summary_csv := Missing; history_json := Missing |},
       Ok (Redirected "Demo College")) /\
    get minimal "scraping_status" = PStr "manual_input".
Proof.
  destruct (auto_scrape_unresolved no_strings (fun _ => None) true
              (fun _ _ => None)
              {["college_name" := " Demo College "]}
              {| inputs_json := Missing; nirf_scores_csv := Missing;
                 results_summary_csv := Missing; history_json := Missing |})
    as (minimal & H1 & H2 & _);
    [reflexivity | reflexivity | discriminate | reflexivity | reflexivity
    | reflexivity |].
  exists minimal. split; [exact H1|exact H2].
Defined.



(** ** Facts on the engine over floats *)

Lemma float_positive_divides x d :
  Float.flt (Float.Fin 0) d = true -> exists y, Float.truediv x d = Ok y.
Proof.
  destruct d as [b| | |]; simpl; try discriminate.
  - intros H. apply Qltb_lt in H.
    destruct (Qeq_bool b 0) eqn:E.
    + apply Qeq_bool_iff in E. rewrite E in H. lra.
    + destruct x; by eexists.
  - intros _. destruct x; by eexists.
Qed.

Lemma float_positive_or_one_pos d :
  Float.flt (Float.Fin 0) (Float.positive_or_one d) = true.
Proof.
  unfold Float.positive_or_one.
  destruct (Float.flt (Float.Fin 0) d) eqn:E; [exact E|reflexivity].
Qed.

Lemma float_truediv_guarded x d :
  Float.truediv x (Float.positive_or_one d) = Ok (Float.ratio x d).
Proof.
  unfold Float.ratio.
  destruct (float_positive_divides x _ (float_positive_or_one_pos d))
    as (y & ->).
  reflexivity.
Qed.

Lemma float_fle_refl x : Float.is_nan x = false -> Float.fle x x = true.
Proof.
  destruct x; simpl; try done. intros _. apply Qleb_le. lra.
Qed.

Lemma float_fle_nan_l x : Float.fle Float.NaN x = false.
Proof. by destruct x. Qed.

Lemma float_fle_nan_r x : Float.fle x Float.NaN = false.
Proof. by destruct x. Qed.

Lemma float_count_le_length vals t :
  (Float.count_le vals t <= length vals)%nat.
Proof.
  induction vals as [|v vals IH]; simpl; [lia|].
  destruct (Float.fle v t); lia.
Qed.

Lemma float_count_le_Permutation vals vals' t :
  Permutation vals vals' -> Float.count_le vals t = Float.count_le vals' t.
Proof. induction 1; simpl; try lia. Qed.

Lemma float_count_le_nan vals : Float.count_le vals Float.NaN = 0%nat.
Proof.
  induction vals as [|v vals IH]; simpl; [done|].
  by rewrite float_fle_nan_r, IH.
Qed.

Lemma float_percentile_returns values target :
  Float.percentile values target = Ok (Float.percentile_value values target).
Proof.
  destruct values as [|v values]; [reflexivity|].
  unfold Float.percentile, Float.percentile_value.
  set (s := merge_sort _ (v :: values)).
  assert (Permutation s (v :: values)) as Hp by apply merge_sort_Permutation.
  assert (length s = S (length values)) as Hl by (by rewrite Hp).
  rewrite (float_count_le_Permutation _ _ _ Hp), Hl.
  unfold Float.truediv.
  destruct (Qeq_bool (inject_Z (Z.of_nat (S (length values)))) 0) eqn:E.
  - apply Qeq_bool_iff in E. unfold Qeq, inject_Z in E; simpl in E. lia.
  - reflexivity.
Qed.

Section FloatEngineFacts.

Context (float_of_str : string -> option Float.pyfloat).

Lemma float_per_student_returns seats_N EXLIP EXLIE EXLB :
  exists x,
    Float.per_student seats_N EXLIP EXLIE EXLB
    = Ok (x, if Float.flt (Float.Fin 0) seats_N then EXLB else Float.Fin 0).
Proof.
  unfold Float.per_student.
  destruct (Float.flt (Float.Fin 0) seats_N) eqn:E; [|by eexists].
  destruct (float_positive_divides EXLIP _ E) as (a & ->).
  destruct (float_positive_divides (Float.fmul (Float.Fin 2) EXLIE) _ E)
    as (b & ->).
  by eexists.
Qed.

Lemma float_SR_ratio_of_returns A_apps S_intake :
  exists x, Float.SR_ratio_of A_apps S_intake = Ok x.
Proof.
  unfold Float.SR_ratio_of.
  destruct (Float.flt (Float.Fin 0) S_intake) eqn:E; [|by eexists].
  apply (float_positive_divides _ _ E).
Qed.

Lemma float_first_pass_step_returns acc r :
  Float.first_pass_step float_of_str acc r
  = Ok (Float.snoc_row float_of_str acc r).
Proof.
  unfold Float.first_pass_step, Float.snoc_row, Float.internals_of,
    Float.EXLI_per_student_of, Float.EXLB_per_student_of,
    Float.SR_ratio_value.
  destruct (float_per_student_returns
              (Float.safe_float float_of_str (get r "seats_N") (Float.Fin 0))
              (Float.safe_float float_of_str (get r "EXLIP") (Float.Fin 0))
              (Float.safe_float float_of_str (get r "EXLIE") (Float.Fin 0))
              (Float.safe_float float_of_str (get r "EXLB") (Float.Fin 0)))
    as (x & ->).
  destruct (float_SR_ratio_of_returns
              (Float.safe_float float_of_str (get r "applications_A") (Float.Fin 0))
              (Float.safe_float float_of_str (get r "sanctioned_S") (Float.Fin 0)))
    as (y & ->).
  rewrite !float_truediv_guarded. reflexivity.
Qed.

Lemma float_first_pass_from_returns records : forall acc,
  Float.first_pass_from float_of_str acc records
  = Ok (fold_left (Float.snoc_row float_of_str) records acc).
Proof.
  induction records as [|r records IH]; intros acc; simpl; [done|].
  rewrite float_first_pass_step_returns. simpl. apply IH.
Qed.

Lemma float_first_pass_returns records :
  Float.first_pass float_of_str records
  = Ok (Float.vectors_of float_of_str records).
Proof. apply float_first_pass_from_returns. Qed.

Lemma float_fold_snoc_row_fields records : forall acc,
  let vs := fold_left (Float.snoc_row float_of_str) records acc in
  Float.P_list vs = Float.P_list acc
    ++ map (fun r => Float.ratio (Float.P_of float_of_str r)
                       (Float.F_total_of float_of_str r)) records /\
  Float.CC_over_F_list vs = Float.CC_over_F_list acc
    ++ map (fun r => Float.ratio (Float.CC_of float_of_str r)
                       (Float.P_of float_of_str r)) records /\
  Float.PF_over_F_list vs = Float.PF_over_F_list acc
    ++ map (fun r => Float.ratio
                       (Float.safe_float float_of_str (get r "PF_filed") (Float.Fin 0))
                       (Float.F_total_of float_of_str r)) records /\
  Float.PG_over_F_list vs = Float.PG_over_F_list acc
    ++ map (fun r => Float.ratio
                       (Float.safe_float float_of_str (get r "PG_granted") (Float.Fin 0))
                       (Float.F_total_of float_of_str r)) records /\
  Float.EP_over_F_list vs = Float.EP_over_F_list acc
    ++ map (fun r => Float.ratio
                       (Float.safe_float float_of_str (get r "EP_revenue") (Float.Fin 0))
                       (Float.F_total_of float_of_str r)) records /\
  Float.EXLI_per_student_list vs = Float.EXLI_per_student_list acc
    ++ map (Float.EXLI_per_student_of float_of_str) records /\
  Float.EXLB_per_student_list vs = Float.EXLB_per_student_list acc
    ++ map (Float.EXLB_per_student_of float_of_str) records /\
  Float.PE_index_list vs = Float.PE_index_list acc
    ++ map (fun r => Float.safe_float float_of_str (get r "PE_index") (Float.Fin 0))
         records /\
  Float.CES_N_list vs = Float.CES_N_list acc
    ++ map (fun r => Float.safe_float float_of_str (get r "CES_N") (Float.Fin 0))
         records /\
  Float.RD_other_states_list vs = Float.RD_other_states_list acc
    ++ map (fun r => Float.safe_float float_of_str (get r "RD_other_states")
                       (Float.Fin 0)) records /\
  Float.RD_other_countries_list vs = Float.RD_other_countries_list acc
    ++ map (fun r => Float.safe_float float_of_str (get r "RD_other_countries")
                       (Float.Fin 0)) records /\
  Float.PR_SR_ratio_list vs = Float.PR_SR_ratio_list acc
    ++ map (Float.SR_ratio_value float_of_str) records /\
  Float.computed_internals vs = Float.computed_internals acc
    ++ map (Float.internals_of float_of_str) records.
Proof.
  induction records as [|r records IH]; intros acc; simpl.
  - rewrite !app_nil_r. repeat split.
  - specialize (IH (Float.snoc_row float_of_str acc r)). simpl in IH.
    destruct IH as (-> & -> & -> & -> & -> & -> & -> & -> & -> & -> & -> & -> & ->).
    rewrite <- !app_assoc. repeat split.
Qed.

Lemma float_internals_at records idx r :
  records !! idx = Some r ->
  Float.computed_internals (Float.vectors_of float_of_str records) !! idx
  = Some (Float.internals_of float_of_str r).
Proof.
  intros Hr.
  destruct (float_fold_snoc_row_fields records Float.empty_vectors)
    as (_ & _ & _ & _ & _ & _ & _ & _ & _ & _ & _ & _ & H).
  unfold Float.vectors_of. rewrite H. simpl.
  by rewrite list_lookup_fmap, Hr.
Qed.

(** The blocks of the second pass return. *)
Lemma float_LL_block_returns vs inst_type ints :
  exists ll,
    Float.LL_block vs inst_type ints = Ok ll /\
    Float.ll_p_EXLI ll
      = Float.percentile_value (Float.EXLI_per_student_list vs)
          (Float.in_EXLI_per_student ints) /\
    Float.ll_p_EXLB ll
      = Float.percentile_value (Float.EXLB_per_student_list vs)
          (Float.in_EXLB_per_student ints).
Proof.
  unfold Float.LL_block. rewrite !float_percentile_returns.
  eexists. split; [reflexivity|]. split; reflexivity.
Qed.

Lemma float_RPII_block_returns vs ints r :
  exists rp,
    Float.RPII_block float_of_str vs ints r = Ok rp /\
    Float.rp_p_pub rp
      = Float.percentile_value (Float.P_list vs)
          (Float.ratio (Float.in_P ints) (Float.in_F_total ints)) /\
    Float.rp_base_citation_index rp
      = Float.fmul (Float.ratio (Float.in_CC ints) (Float.in_P ints))
          (Float.fdivc (Float.rp_p_pub rp) 100) /\
    Float.rp_p_citation rp
      = Float.percentile_value (Float.CC_over_F_list vs)
          (Float.rp_base_citation_index rp) /\
    Float.rp_p_PF rp
      = Float.percentile_value (Float.PF_over_F_list vs)
          (Float.ratio
             (Float.safe_float float_of_str (get r "PF_filed") (Float.Fin 0))
             (Float.in_F_total ints)) /\
    Float.rp_p_PG rp
      = Float.percentile_value (Float.PG_over_F_list vs)
          (Float.ratio
             (Float.safe_float float_of_str (get r "PG_granted") (Float.Fin 0))
             (Float.in_F_total ints)) /\
    Float.rp_p_EP rp
      = Float.percentile_value (Float.EP_over_F_list vs)
          (Float.ratio
             (Float.safe_float float_of_str (get r "EP_revenue") (Float.Fin 0))
             (Float.in_F_total ints)).
Proof.
  unfold Float.RPII_block.
  rewrite !float_truediv_guarded.
  cbn [mbind result_bind mret result_ret].
  rewrite !float_percentile_returns.
  cbn [mbind result_bind mret result_ret].
  rewrite !float_percentile_returns.
  cbn [mbind result_bind mret result_ret].
  eexists. split; [reflexivity|]. repeat split.
Qed.

Lemma float_GO_block_returns vs r :
  exists go,
    Float.GO_block float_of_str vs r = Ok go /\
    Float.go_p_pe go
      = Float.percentile_value (Float.PE_index_list vs)
          (Float.safe_float float_of_str (get r "PE_index") (Float.Fin 0)).
Proof.
  unfold Float.GO_block. rewrite float_percentile_returns.
  eexists. split; reflexivity.
Qed.

Lemma float_OI_block_returns vs r :
  exists oi,
    Float.OI_block float_of_str vs r = Ok oi /\
    Float.oi_p_CES oi
      = Float.percentile_value (Float.CES_N_list vs)
          (Float.safe_float float_of_str (get r "CES_N") (Float.Fin 0)) /\
    Float.oi_p_RD_states oi
      = Float.percentile_value (Float.RD_other_states_list vs)
          (Float.safe_float float_of_str (get r "RD_other_states") (Float.Fin 0)) /\
    Float.oi_p_RD_countries oi
      = Float.percentile_value (Float.RD_other_countries_list vs)
          (Float.safe_float float_of_str (get r "RD_other_countries") (Float.Fin 0)).
Proof.
  unfold Float.OI_block. rewrite !float_percentile_returns.
  eexists. split; [reflexivity|]. repeat split.
Qed.


Lemma float_F_over_N_of_returns F_total seats_N :
  exists x, Float.F_over_N_of F_total seats_N = Ok x.
Proof.
  unfold Float.F_over_N_of.
  destruct (Float.flt (Float.Fin 0) seats_N) eqn:E; [|by eexists].
  apply (float_positive_divides _ _ E).
Qed.

Lemma float_FSR_block_returns inst_type F_total r :
  exists x, Float.FSR_block float_of_str inst_type F_total r = Ok x.
Proof.
  unfold Float.FSR_block.
  destruct (float_F_over_N_of_returns F_total
              (Float.safe_float float_of_str (get r "seats_N") (Float.Fin 0)))
    as (x & ->).
  by eexists.
Qed.

Lemma float_PR_block_returns R_star ints r :
  exists q,
    (if Float.flt (Float.Fin 0) R_star
     then Float.truediv (Float.in_SR_ratio ints) R_star
     else Ok (Float.Fin 0)) = Ok q /\
    Float.PR_block float_of_str R_star ints r
    = Ok {| Float.pr_SR := Float.fmul (Float.Fin 50) q;
            Float.pr_PR :=
              Float.fadd
                (Float.safe_float float_of_str (get r "PR_survey") (Float.Fin 0))
                (Float.fmul (Float.Fin 50) q) |}.
Proof.
  unfold Float.PR_block.
  destruct (Float.flt (Float.Fin 0) R_star) eqn:E.
  - destruct (float_positive_divides (Float.in_SR_ratio ints) _ E) as (q & ->).
    by exists q.
  - by exists (Float.Fin 0).
Qed.

Lemma float_pymul_numeric x w :
  numeric w = true -> exists y, Float.pymul x w = Ok y.
Proof. destruct w; try discriminate; intros _; by eexists. Qed.

Lemma float_total_block_returns env TLR RPII GO OI PR :
  weights_usable env = true ->
  exists total, Float.total_block env TLR RPII GO OI PR = Ok total.
Proof.
  unfold weights_usable, Float.total_block.
  destruct (load_weights env) as [m|]; [|discriminate].
  rewrite !andb_true_iff. intros ((((H1 & H2) & H3) & H4) & H5).
  destruct (subscript_numeric m "TLR" H1) as (w1 & -> & N1).
  destruct (subscript_numeric m "GO" H3) as (w3 & -> & N3).
  destruct (subscript_numeric m "OI" H4) as (w4 & -> & N4).
  destruct (subscript_numeric m "PR" H5) as (w5 & -> & N5).
  step_bind.
  destruct (float_pymul_numeric TLR w1 N1) as (t1 & ->). step_bind.
  destruct (float_pymul_numeric RPII _ H2) as (t2 & ->). step_bind.
  destruct (float_pymul_numeric GO w3 N3) as (t3 & ->). step_bind.
  destruct (float_pymul_numeric OI w4 N4) as (t4 & ->). step_bind.
  destruct (float_pymul_numeric PR w5 N5) as (t5 & ->). step_bind.
  by eexists.
Qed.

(** A record is scored on floats, and keeps its name, when its internals
    are there. *)
Lemma float_score_record_returns env vs R_star idx r ints :
  weights_usable env = true ->
  category_typed r = true ->
  Float.computed_internals vs !! idx = Some ints ->
  exists s,
    Float.score_record float_of_str env vs R_star idx r = Ok s /\
    Float.college_name s = get r "college_name".
Proof.
  intros Hw Ht Hi. unfold Float.score_record. rewrite Hi. step_bind.
  destruct (institution_type_of_typed r Ht) as (t & ->). step_bind.
  destruct (float_FSR_block_returns t (Float.in_F_total ints) r) as (fsr & ->).
  step_bind.
  destruct (float_LL_block_returns vs t ints) as (ll & -> & _). step_bind.
  destruct (float_RPII_block_returns vs ints r) as (rp & -> & _). step_bind.
  destruct (float_GO_block_returns vs r) as (go & -> & _). step_bind.
  destruct (float_OI_block_returns vs r) as (oi & -> & _). step_bind.
  destruct (float_PR_block_returns R_star ints r) as (q & _ & ->). step_bind.
  match goal with
  | |- context [Float.total_block env ?a ?b ?c ?d ?e] =>
      destruct (float_total_block_returns env a b c d e Hw) as (total & ->)
  end.
  step_bind. eexists. split; reflexivity.
Qed.

Lemma float_second_pass_returns env vs R_star records : forall idx results,
  weights_usable env = true ->
  Forall (fun r => category_typed r = true) records ->
  (forall i r, records !! i = Some r ->
     is_Some (Float.computed_internals vs !! (idx + i)%nat)) ->
  exists out,
    Float.second_pass float_of_str env vs R_star idx records results
      = Ok (results ++ out) /\
    Forall2 (fun r s => Float.college_name s = get r "college_name")
      records out.
Proof.
  induction records as [|r records IH]; intros idx results Hw Ht Hi.
  - exists []. rewrite app_nil_r. split; [reflexivity|constructor].
  - inversion Ht as [|? ? Hr Hrest]; subst.
    destruct (Hi 0%nat r eq_refl) as (ints & Hints).
    rewrite Nat.add_0_r in Hints.
    destruct (float_score_record_returns env vs R_star idx r ints Hw Hr Hints)
      as (s & Es & Hname).
    destruct (IH (S idx) (results ++ [s]) Hw Hrest) as (out & Eout & Hout).
    { intros i r' Hr'. replace (S idx + i)%nat with (idx + S i)%nat by lia.
      by apply (Hi (S i) r'). }
    exists (s :: out). cbn [Float.second_pass]. rewrite Es. step_bind.
    rewrite Eout, <- app_assoc. split; [reflexivity|].
    by constructor.
Qed.

(** *** Ranking a value against itself *)

Lemma float_percentile_value_single v t :
  Float.feq (Float.percentile_value [v] t)
    (Float.Fin (if Float.fle v t then 100 else 0)) = true.
Proof.
  unfold Float.percentile_value, Float.count_le.
  destruct (Float.fle v t); reflexivity.
Qed.

Lemma float_fle_scaled x :
  Float.is_nan x = false ->
  Float.fle x (Float.fmul x (Float.fdivc (Float.Fin (1 / 1 * 100)) 100)) = true.
Proof.
  destruct x as [a| | |]; try done. intros _. simpl.
  apply Qleb_le. apply Qle_lteq. right. field.
Qed.

(** C6 (amended). In a cohort of one record none of whose ranked values is
    [nan], every percentile-ranked component of that record is returned
    and is 100: library, laboratory, publication, citation, patents filed,
    patents granted, patent revenue, placement index, community
    engagement, other states, other countries. *)
Theorem single_record_percentiles_without_nan (r : gmap string pyval) :
  Forall (fun x => Float.is_nan x = false)
    (Float.ranked_values float_of_str r) ->
  exists vs ints,
    Float.first_pass float_of_str [r] = Ok vs /\
    Float.computed_internals vs !! 0%nat = Some ints /\
    (forall inst_type, exists ll,
       Float.LL_block vs inst_type ints = Ok ll /\
       Float.feq (Float.ll_p_EXLI ll) (Float.Fin 100) = true /\
       Float.feq (Float.ll_p_EXLB ll) (Float.Fin 100) = true) /\
    (exists rp,
       Float.RPII_block float_of_str vs ints r = Ok rp /\
       Float.feq (Float.rp_p_pub rp) (Float.Fin 100) = true /\
       Float.feq (Float.rp_p_citation rp) (Float.Fin 100) = true /\
       Float.feq (Float.rp_p_PF rp) (Float.Fin 100) = true /\
       Float.feq (Float.rp_p_PG rp) (Float.Fin 100) = true /\
       Float.feq (Float.rp_p_EP rp) (Float.Fin 100) = true) /\
    (exists go,
       Float.GO_block float_of_str vs r = Ok go /\
       Float.feq (Float.go_p_pe go) (Float.Fin 100) = true) /\
    (exists oi,
       Float.OI_block float_of_str vs r = Ok oi /\
       Float.feq (Float.oi_p_CES oi) (Float.Fin 100) = true /\
       Float.feq (Float.oi_p_RD_states oi) (Float.Fin 100) = true /\
       Float.feq (Float.oi_p_RD_countries oi) (Float.Fin 100) = true).
Proof.
  intros H. unfold Float.ranked_values in H.
  repeat match goal with
         | H : Forall _ (_ :: _) |- _ =>
             let Hx := fresh "Hx" in
             apply Forall_cons in H as [Hx H]
         end.
  clear H.
  assert (forall v, Float.is_nan v = false ->
            Float.feq (Float.percentile_value [v] v) (Float.Fin 100) = true)
    as Hself.
  { intros v Hv. pose proof (float_percentile_value_single v v) as Hp.
    by rewrite (float_fle_refl v Hv) in Hp. }
  exists (Float.vectors_of float_of_str [r]),
    (Float.internals_of float_of_str r).
  split; [apply float_first_pass_returns|]. split; [reflexivity|].
  split; [|split; [|split]].
  - intros inst_type.
    destruct (float_LL_block_returns (Float.vectors_of float_of_str [r])
                inst_type (Float.internals_of float_of_str r))
      as (ll & E & H1 & H2).
    exists ll. split; [exact E|]. rewrite H1, H2. split; by apply Hself.
  - destruct (float_RPII_block_returns (Float.vectors_of float_of_str [r])
                (Float.internals_of float_of_str r) r)
      as (rp & E & Hpub & Hidx & Hcit & HPF & HPG & HEP).
    exists rp. split; [exact E|].
    rewrite Hcit, Hidx, Hpub, HPF, HPG, HEP.
    split; [by apply Hself|]. split; [|repeat split; by apply Hself].
    cbn [Float.vectors_of fold_left Float.snoc_row Float.empty_vectors
         Float.P_list Float.CC_over_F_list app Float.internals_of
         Float.in_P Float.in_F_total Float.in_CC].
    set (x := Float.ratio (Float.P_of float_of_str r)
                (Float.F_total_of float_of_str r)) in *.
    set (y := Float.ratio (Float.CC_of float_of_str r)
                (Float.P_of float_of_str r)) in *.
    assert (Float.percentile_value [x] x = Float.Fin (1 / 1 * 100)) as ->.
    { unfold Float.percentile_value, Float.count_le.
      by rewrite (float_fle_refl x). }
    pose proof (float_percentile_value_single y
                  (Float.fmul y (Float.fdivc (Float.Fin (1 / 1 * 100)) 100)))
      as Hp.
    by rewrite (float_fle_scaled y) in Hp.
  - destruct (float_GO_block_returns (Float.vectors_of float_of_str [r]) r)
      as (go & E & H1).
    exists go. split; [exact E|]. rewrite H1. by apply Hself.
  - destruct (float_OI_block_returns (Float.vectors_of float_of_str [r]) r)
      as (oi & E & H1 & H2 & H3).
    exists oi. split; [exact E|]. rewrite H1, H2, H3.
    repeat split; by apply Hself.
Qed.

(** C9 (amended). Cardinality preservation: for a cohort of records with
    pairwise distinct college names, each with a string or no institution
    category, and a weights file that is absent, unreadable or complete,
    the engine returns one result per record, in order, under the name of
    that record; no result bears the name of another record.  Fields that
    read as [nan] or as an infinity do not change that. *)
Theorem compute_scores_cardinality_floats (env : weights_file)
    (records : list (gmap string pyval)) :
  weights_usable env = true ->
  Forall (fun r => category_typed r = true) records ->
  NoDup (map (fun r => get r "college_name") records) ->
  exists results,
    Float.compute_scores float_of_str env records = Ok results /\
    length results = length records /\
    (forall i r, records !! i = Some r ->
       exists s, results !! i = Some s /\
                 Float.college_name s = get r "college_name") /\
    (forall i j s r, results !! i = Some s -> records !! j = Some r ->
       Float.college_name s = get r "college_name" -> i = j).
Proof.
  intros Hw Ht Hnd. unfold Float.compute_scores.
  rewrite float_first_pass_returns. step_bind.
  destruct (float_second_pass_returns env (Float.vectors_of float_of_str records)
              (Float.R_star_of
                 (Float.PR_SR_ratio_list (Float.vectors_of float_of_str records)))
              records 0%nat [] Hw Ht) as (out & -> & Hout).
  { intros i r Hr. cbn [Nat.add].
    rewrite (float_internals_at records i r Hr). by eexists. }
  exists out. split; [reflexivity|].
  assert (forall i r, records !! i = Some r ->
            exists s, out !! i = Some s
                      /\ Float.college_name s = get r "college_name")
    as Hsame.
  { intros i r Hr.
    destruct (Forall2_lookup_l _ _ _ _ _ Hout Hr) as (s & Hs & Hn). by exists s. }
  split; [symmetry; by eapply Forall2_length|].
  split; [exact Hsame|].
  intros i j s r Hs Hr Hname.
  destruct (Forall2_lookup_r _ _ _ _ _ Hout Hs) as (ri & Hri & Hni).
  apply (NoDup_lookup _ i j (get r "college_name") Hnd).
  - rewrite list_lookup_fmap, Hri. simpl. congruence.
  - by rewrite list_lookup_fmap, Hr.
Qed.

(** *** The anchor of the application ratios *)








End FloatEngineFacts.

(** C6, as stated, fails for a record with a ranked value that is [nan]:
    [float] reads the string [nan] as a float, [safe_float] returns it, and
    [nan] is not at or below itself; the placement index of the only
    record of the cohort is ranked at 0, not at 100. *)
Lemma single_record_nan_counterexample :
  exists vs go,
    Float.first_pass Float.nan_inf_reader [r_nan_index] = Ok vs /\
    Float.PE_index_list vs = [Float.NaN] /\
    Float.GO_block Float.nan_inf_reader vs r_nan_index = Ok go /\
    Float.feq (Float.go_p_pe go) (Float.Fin 0) = true /\
    Float.feq (Float.go_p_pe go) (Float.Fin 100) = false.
Proof.
  eexists _, _. split; [vm_compute; reflexivity|].
  split; [reflexivity|]. split; [vm_compute; reflexivity|].
  split; reflexivity.
Qed.

Lemma single_record_percentiles_without_nan_witness :
  exists vs ints,
    Float.first_pass Float.nan_inf_reader [r_univ] = Ok vs /\
    Float.computed_internals vs !! 0%nat = Some ints /\
    (forall inst_type, exists ll,
       Float.LL_block vs inst_type ints = Ok ll /\
       Float.feq (Float.ll_p_EXLI ll) (Float.Fin 100) = true /\
       Float.feq (Float.ll_p_EXLB ll) (Float.Fin 100) = true) /\
    (exists rp,
       Float.RPII_block Float.nan_inf_reader vs ints r_univ = Ok rp /\
       Float.feq (Float.rp_p_pub rp) (Float.Fin 100) = true /\
       Float.feq (Float.rp_p_citation rp) (Float.Fin 100) = true /\
       Float.feq (Float.rp_p_PF rp) (Float.Fin 100) = true /\
       Float.feq (Float.rp_p_PG rp) (Float.Fin 100) = true /\
       Float.feq (Float.rp_p_EP rp) (Float.Fin 100) = true) /\
    (exists go,
       Float.GO_block Float.nan_inf_reader vs r_univ = Ok go /\
       Float.feq (Float.go_p_pe go) (Float.Fin 100) = true) /\
    (exists oi,
       Float.OI_block Float.nan_inf_reader vs r_univ = Ok oi /\
       Float.feq (Float.oi_p_CES oi) (Float.Fin 100) = true /\
       Float.feq (Float.oi_p_RD_states oi) (Float.Fin 100) = true /\
       Float.feq (Float.oi_p_RD_countries oi) (Float.Fin 100) = true).
Proof.
  apply (single_record_percentiles_without_nan Float.nan_inf_reader r_univ).
  vm_compute. repeat constructor.
Defined.

(** C9, as stated, fails for a record whose institution type is neither
    false nor a string: the number 5 has no [lower], the engine raises and
    returns no result at all. *)
Lemma numeric_institution_type_counterexample :
  NoDup (map (fun r => get r "college_name") [r_numeric_type]) /\
  Float.compute_scores Float.nan_inf_reader FileAbsent [r_numeric_type]
  = Raise AttributeError.
Proof.
  split; [|vm_compute; reflexivity].
  apply NoDup_cons. split; [|apply NoDup_nil_2].
  intros H. inversion H.
Qed.

Lemma compute_scores_cardinality_floats_witness :
  exists results,
    Float.compute_scores Float.nan_inf_reader FileAbsent
      [r_five_per_seat; r_nan_applications] = Ok results /\
    length results = 2%nat /\
    (forall i r, [r_five_per_seat; r_nan_applications] !! i = Some r ->
       exists s, results !! i = Some s /\
                 Float.college_name s = get r "college_name") /\
    (forall i j s r, results !! i = Some s ->
       [r_five_per_seat; r_nan_applications] !! j = Some r ->
       Float.college_name s = get r "college_name" -> i = j).
Proof.
  apply (compute_scores_cardinality_floats Float.nan_inf_reader FileAbsent
           [r_five_per_seat; r_nan_applications]).
  - reflexivity.
  - repeat constructor.
  - apply NoDup_cons. split.
    + intros H. apply elem_of_cons in H as [H|H]; [discriminate|].
      inversion H.
    + apply NoDup_cons. split; [intros H; inversion H|apply NoDup_nil_2].
Defined.


(** The record of the same cohort whose applications read as [nan] has a
    ratio and an application part that are [nan]: not at most 50. *)
Lemma SR_of_nan_ratio_is_nan :
  exists vs ints pr,
    Float.first_pass Float.nan_inf_reader
      [r_five_per_seat; r_nan_applications] = Ok vs /\
    Float.computed_internals vs !! 1%nat = Some ints /\
    Float.PR_block Float.nan_inf_reader
      (Float.R_star_of (Float.PR_SR_ratio_list vs)) ints r_nan_applications
      = Ok pr /\
    Float.pr_SR pr = Float.NaN /\
    Float.fle (Float.pr_SR pr) (Float.Fin 50) = false.
Proof.
  eexists _, _, _. split; [vm_compute; reflexivity|].
  split; [reflexivity|]. split; [vm_compute; reflexivity|].
  split; reflexivity.
Qed.

(** ** The engine on floats agrees with the engine on finite numbers *)

Lemma percentile_returns_value values target :
  percentile values target = Ok (percentile_value values target).
Proof.
  destruct values as [|v values]; [reflexivity|].
  unfold percentile, percentile_value.
  set (s := merge_sort Qle (v :: values)).
  assert (Permutation s (v :: values)) as Hp by apply merge_sort_Permutation.
  assert (length s = S (length values)) as Hl by (by rewrite Hp).
  rewrite (count_le_Permutation _ _ _ Hp), Hl.
  rewrite truediv_nonzero; [reflexivity|].
  unfold Qeq, inject_Z; simpl. lia.
Qed.

Lemma float_count_le_Fin l t :
  Float.count_le (map Float.Fin l) (Float.Fin t) = count_le l t.
Proof. induction l as [|v l IH]; simpl; [done|]. by rewrite IH. Qed.

Lemma float_percentile_value_Fin l t :
  Float.percentile_value (map Float.Fin l) (Float.Fin t)
  = Float.Fin (percentile_value l t).
Proof.
  destruct l as [|v l]; [reflexivity|].
  unfold Float.percentile_value, percentile_value.
  rewrite float_count_le_Fin, length_map. reflexivity.
Qed.

Lemma float_percentile_Fin l t :
  Float.percentile (map Float.Fin l) (Float.Fin t)
  = Ok (Float.Fin (percentile_value l t)).
Proof. by rewrite float_percentile_returns, float_percentile_value_Fin. Qed.

Lemma float_positive_or_one_Fin x :
  Float.positive_or_one (Float.Fin x) = Float.Fin (positive_or_one x).
Proof.
  unfold Float.positive_or_one, positive_or_one. simpl.
  by destruct (Qltb 0 x).
Qed.

Lemma float_truediv_Fin a b :
  Float.truediv (Float.Fin a) (Float.Fin b) = lift Float.Fin (truediv a b).
Proof.
  unfold Float.truediv, truediv. by destruct (Qeq_bool b 0).
Qed.

Lemma float_ratio_Fin a d :
  Float.ratio (Float.Fin a) (Float.Fin d)
  = Float.Fin (a / positive_or_one d).
Proof.
  unfold Float.ratio.
  by rewrite float_positive_or_one_Fin, float_truediv_Fin, truediv_guarded.
Qed.

Lemma float_fold_pymax_Fin l : forall x,
  fold_left Float.pymax (map Float.Fin l) (Float.Fin x)
  = Float.Fin (fold_left pymax l x).
Proof.
  induction l as [|z l IH]; intros x; simpl; [done|].
  unfold Float.pymax at 2, pymax at 2. simpl.
  destruct (Qltb x z); apply IH.
Qed.

Lemma float_R_star_of_Fin l :
  Float.R_star_of (map Float.Fin l) = Float.Fin (R_star_of l).
Proof.
  destruct l as [|x l]; [reflexivity|]. apply float_fold_pymax_Fin.
Qed.

Section Agreement.

(** A reader of floats and a reader of finite numbers that is its finite
    part. *)
Context (float_of_str : string -> option Float.pyfloat).
Context (finite_str : string -> option Q).
Hypothesis finite_str_reads :
  forall s, finite_str s = Float.finite_part float_of_str s.

Lemma float_safe_float_finite v d :
  Float.finite_value float_of_str v = true ->
  Float.safe_float float_of_str v (Float.Fin d)
  = Float.Fin (safe_float finite_str v d).
Proof.
  destruct v as [|b|q|s]; simpl; try done.
  destruct (String.eqb s ""); [done|]. simpl.
  rewrite finite_str_reads. unfold Float.finite_part.
  by destruct (float_of_str s) as [[q| | |]|].
Qed.

Ltac read_finite Hr :=
  rewrite ?(fun k d => float_safe_float_finite _ d (Hr k)).

Lemma float_F_total_of_finite r :
  Float.finite_record float_of_str r ->
  Float.F_total_of float_of_str r = Float.Fin (F_total_of finite_str r).
Proof.
  intros Hr. unfold Float.F_total_of, F_total_of. read_finite Hr. reflexivity.
Qed.

Lemma float_P_of_finite r :
  Float.finite_record float_of_str r ->
  Float.P_of float_of_str r = Float.Fin (P_of finite_str r).
Proof.
  intros Hr. unfold Float.P_of, P_of. read_finite Hr. reflexivity.
Qed.

Lemma float_CC_of_finite r :
  Float.finite_record float_of_str r ->
  Float.CC_of float_of_str r = Float.Fin (CC_of finite_str r).
Proof.
  intros Hr. unfold Float.CC_of, CC_of. read_finite Hr. reflexivity.
Qed.

Lemma float_EXLI_per_student_of_finite r :
  Float.finite_record float_of_str r ->
  Float.EXLI_per_student_of float_of_str r
  = Float.Fin (EXLI_per_student_of finite_str r).
Proof.
  intros Hr. unfold Float.EXLI_per_student_of, EXLI_per_student_of,
    Float.per_student.
  read_finite Hr. cbn [Float.flt Float.fmul].
  destruct (Qltb 0 (safe_float finite_str (get r "seats_N") 0)) eqn:E;
    [|reflexivity].
  apply Qltb_lt in E.
  rewrite !float_truediv_Fin, !truediv_pos by done. reflexivity.
Qed.

Lemma float_EXLB_per_student_of_finite r :
  Float.finite_record float_of_str r ->
  Float.EXLB_per_student_of float_of_str r
  = Float.Fin (EXLB_per_student_of finite_str r).
Proof.
  intros Hr. unfold Float.EXLB_per_student_of, EXLB_per_student_of.
  read_finite Hr. cbn [Float.flt].
  by destruct (Qltb 0 (safe_float finite_str (get r "seats_N") 0)).
Qed.

Lemma float_SR_ratio_value_finite r :
  Float.finite_record float_of_str r ->
  Float.SR_ratio_value float_of_str r
  = Float.Fin (SR_ratio_value finite_str r).
Proof.
  intros Hr. unfold Float.SR_ratio_value, SR_ratio_value, Float.SR_ratio_of.
  read_finite Hr. cbn [Float.flt].
  destruct (Qltb 0 (safe_float finite_str (get r "sanctioned_S") 0)) eqn:E;
    [|reflexivity].
  apply Qltb_lt in E.
  rewrite float_truediv_Fin, truediv_pos by done. reflexivity.
Qed.

Lemma float_snoc_row_finite acc r :
  Float.finite_record float_of_str r ->
  Float.snoc_row float_of_str (lift_vectors acc) r
  = lift_vectors (snoc_row finite_str acc r).
Proof.
  intros Hr. unfold Float.snoc_row, snoc_row, lift_vectors.
  cbn -[Float.ratio Float.safe_float safe_float].
  rewrite !map_app. cbn [map].
  unfold Float.internals_of, internals_of, lift_internals.
  cbn -[Float.ratio Float.safe_float safe_float].
  rewrite float_F_total_of_finite, float_P_of_finite, float_CC_of_finite,
    float_EXLI_per_student_of_finite, float_EXLB_per_student_of_finite,
    float_SR_ratio_value_finite by done.
  read_finite Hr. rewrite !float_ratio_Fin. reflexivity.
Qed.

Lemma float_vectors_of_finite records :
  Forall (Float.finite_record float_of_str) records ->
  Float.vectors_of float_of_str records
  = lift_vectors (vectors_of finite_str records).
Proof.
  unfold Float.vectors_of, vectors_of.
  change Float.empty_vectors with (lift_vectors empty_vectors).
  generalize empty_vectors as acc.
  induction records as [|r records IH]; intros acc Hf; [reflexivity|].
  inversion Hf as [|? ? Hr Hrest]; subst. cbn [fold_left].
  rewrite float_snoc_row_finite by done. by apply IH.
Qed.

Lemma float_FSR_block_finite inst_type F_total r :
  Float.finite_record float_of_str r ->
  Float.FSR_block float_of_str inst_type (Float.Fin F_total) r
  = lift Float.Fin (FSR_block finite_str inst_type F_total r).
Proof.
  intros Hr. rewrite FSR_block_returns.
  unfold Float.FSR_block, Float.F_over_N_of, num. read_finite Hr.
  cbn [Float.flt].
  destruct (Qltb 0 (safe_float finite_str (get r "seats_N") 0)) eqn:E.
  - apply Qltb_lt in E.
    rewrite float_truediv_Fin, truediv_pos by done.
    cbn [lift mbind result_bind mret result_ret Float.flt Float.fmul].
    destruct (Qltb _ (1 / 50)); [reflexivity|].
    by destruct (String.eqb inst_type "university").
  - cbn [lift mbind result_bind mret result_ret Float.flt Float.fmul].
    destruct (Qltb 0 (1 / 50)); [reflexivity|].
    by destruct (String.eqb inst_type "university").
Qed.

Lemma float_FQE_block_finite r :
  Float.finite_record float_of_str r ->
  Float.FQE_block float_of_str r = Float.Fin (FQE_block finite_str r).
Proof.
  intros Hr. unfold Float.FQE_block, FQE_block. read_finite Hr.
  cbn [Float.fle Float.fmul Float.fdivc Float.fsub].
  unfold Float.pymax, pymax. cbn [Float.flt].
  destruct (Qleb (safe_float finite_str (get r "phd_percent") 0) 95);
    destruct (Qleb (safe_float finite_str (get r "avg_experience_years") 0) 45);
    try destruct (Qltb (safe_float finite_str (get r "avg_experience_years") 0 - 30) 0);
    cbn [Float.fle Float.fmul Float.fdivc Float.fadd];
    match goal with
    | |- context [Qleb ?a 15] => destruct (Qleb a 15)
    end; reflexivity.
Qed.

Lemma float_SEC_block_finite r :
  Float.finite_record float_of_str r ->
  Float.SEC_block float_of_str r = Float.Fin (SEC_block finite_str r).
Proof.
  intros Hr. unfold Float.SEC_block, SEC_block. read_finite Hr.
  cbn [Float.fle Float.fdivc].
  by destruct (Qleb 3 (safe_float finite_str (get r "SEC_winners_count") 0)).
Qed.

Lemma float_LL_block_finite vs inst_type ints :
  exists ll ll',
    LL_block vs inst_type ints = Ok ll /\
    Float.LL_block (lift_vectors vs) inst_type (lift_internals ints) = Ok ll' /\
    Float.ll_LL ll' = Float.Fin (ll_LL ll).
Proof.
  unfold LL_block, Float.LL_block.
  cbn [lift_vectors lift_internals Float.EXLI_per_student_list
       Float.EXLB_per_student_list Float.in_EXLI_per_student
       Float.in_EXLB_per_student].
  rewrite !percentile_returns_value, !float_percentile_Fin. step_bind.
  eexists _, _. split; [reflexivity|]. split; [reflexivity|].
  cbn [Float.ll_LL ll_LL Float.fmul Float.fdivc].
  by destruct (String.eqb inst_type "university").
Qed.

Lemma float_RPII_block_finite vs ints r :
  Float.finite_record float_of_str r ->
  exists rp rp',
    RPII_block finite_str vs ints r = Ok rp /\
    Float.RPII_block float_of_str (lift_vectors vs) (lift_internals ints) r
      = Ok rp' /\
    Float.rp_RPII rp' = Float.Fin (rp_RPII rp).
Proof.
  intros Hr. unfold RPII_block, Float.RPII_block. read_finite Hr.
  cbn [lift_vectors lift_internals Float.P_list Float.CC_over_F_list
       Float.PF_over_F_list Float.PG_over_F_list Float.EP_over_F_list
       Float.in_F_total Float.in_P Float.in_CC].
  rewrite !float_truediv_guarded, !float_ratio_Fin, !truediv_guarded.
  step_bind.
  rewrite !percentile_returns_value, !float_percentile_Fin. step_bind.
  cbn [Float.fmul Float.fdivc].
  rewrite !percentile_returns_value, !float_percentile_Fin. step_bind.
  eexists _, _. split; [reflexivity|]. split; [reflexivity|].
  cbn [Float.rp_RPII rp_RPII Float.fmul Float.fdivc Float.fle].
  destruct (Qleb 1 (safe_float finite_str (get r "PG_granted") 0)
            && Qleb 1 (safe_float finite_str (get r "PL_licensed_count") 0));
    reflexivity.
Qed.

Lemma float_GO_block_finite vs r :
  Float.finite_record float_of_str r ->
  exists go go',
    GO_block finite_str vs r = Ok go /\
    Float.GO_block float_of_str (lift_vectors vs) r = Ok go' /\
    Float.go_GO go' = Float.Fin (go_GO go).
Proof.
  intros Hr. unfold GO_block, Float.GO_block. read_finite Hr.
  cbn [lift_vectors Float.PE_index_list].
  rewrite !percentile_returns_value, !float_percentile_Fin. step_bind.
  eexists _, _. split; [reflexivity|]. split; reflexivity.
Qed.

Lemma float_OI_block_finite vs r :
  Float.finite_record float_of_str r ->
  exists oi oi',
    OI_block finite_str vs r = Ok oi /\
    Float.OI_block float_of_str (lift_vectors vs) r = Ok oi' /\
    Float.oi_OI oi' = Float.Fin (oi_OI oi).
Proof.
  intros Hr. unfold OI_block, Float.OI_block. read_finite Hr.
  cbn [lift_vectors Float.CES_N_list Float.RD_other_states_list
       Float.RD_other_countries_list].
  rewrite !percentile_returns_value, !float_percentile_Fin. step_bind.
  eexists _, _. split; [reflexivity|]. split; [reflexivity|].
  cbn [Float.oi_OI oi_OI Float.fmul Float.fdivc].
  destruct (truthy (get r "DAP_ramps")), (truthy (get r "DAP_lifts")),
    (truthy (get r "DAP_walking_aids")), (truthy (get r "DAP_toilets")),
    (truthy (get r "DAP_braille_labs")), (truthy (get r "DAP_av_aids"));
    reflexivity.
Qed.

Lemma float_PR_block_finite R_star ints r :
  Float.finite_record float_of_str r ->
  exists pr pr',
    PR_block finite_str R_star ints r = Ok pr /\
    Float.PR_block float_of_str (Float.Fin R_star) (lift_internals ints) r
      = Ok pr' /\
    Float.pr_PR pr' = Float.Fin (pr_PR pr).
Proof.
  intros Hr. unfold PR_block, Float.PR_block. read_finite Hr.
  cbn [lift_internals Float.in_SR_ratio Float.flt].
  destruct (Qltb 0 R_star) eqn:E.
  - apply Qltb_lt in E. rewrite float_truediv_Fin, truediv_pos by done.
    cbn [lift]. step_bind.
    eexists _, _. split; [reflexivity|]. split; reflexivity.
  - step_bind. eexists _, _. split; [reflexivity|]. split; reflexivity.
Qed.

Lemma float_pymul_Fin x w :
  Float.pymul (Float.Fin x) w = lift Float.Fin (pymul x w).
Proof. by destruct w. Qed.

Lemma float_total_block_Fin env TLR RPII GO OI PR :
  Float.total_block env (Float.Fin TLR) (Float.Fin RPII) (Float.Fin GO)
    (Float.Fin OI) (Float.Fin PR)
  = lift Float.Fin (total_block env TLR RPII GO OI PR).
Proof.
  unfold Float.total_block, total_block.
  destruct (load_weights env) as [m|]; [|reflexivity].
  destruct (subscript m "TLR") as [w1|e]; [|reflexivity]. step_bind.
  destruct (subscript m "GO") as [w3|e].
  2: { step_bind. rewrite !float_pymul_Fin.
       destruct (pymul TLR w1); [|reflexivity]. cbn [lift]. step_bind.
       destruct (pymul RPII _); reflexivity. }
  destruct (subscript m "OI") as [w4|e].
  2: { step_bind. rewrite !float_pymul_Fin.
       destruct (pymul TLR w1); [|reflexivity]. cbn [lift]. step_bind.
       destruct (pymul RPII _); [|reflexivity]. cbn [lift]. step_bind.
       destruct (pymul GO w3); reflexivity. }
  destruct (subscript m "PR") as [w5|e].
  2: { step_bind. rewrite !float_pymul_Fin.
       destruct (pymul TLR w1); [|reflexivity]. cbn [lift]. step_bind.
       destruct (pymul RPII _); [|reflexivity]. cbn [lift]. step_bind.
       destruct (pymul GO w3); [|reflexivity]. cbn [lift]. step_bind.
       destruct (pymul OI w4); reflexivity. }
  step_bind. rewrite !float_pymul_Fin.
  destruct (pymul TLR w1) as [t1|e]; [|reflexivity]. cbn [lift]. step_bind.
  destruct (pymul RPII _) as [t2|e]; [|reflexivity]. cbn [lift]. step_bind.
  destruct (pymul GO w3) as [t3|e]; [|reflexivity]. cbn [lift]. step_bind.
  destruct (pymul OI w4) as [t4|e]; [|reflexivity]. cbn [lift]. step_bind.
  destruct (pymul PR w5) as [t5|e]; [|reflexivity]. cbn [lift]. step_bind.
  reflexivity.
Qed.

Lemma float_score_record_finite env vs R_star idx r :
  Float.finite_record float_of_str r ->
  Float.score_record float_of_str env (lift_vectors vs) (Float.Fin R_star) idx r
  = lift lift_result (score_record finite_str env vs R_star idx r).
Proof.
  intros Hr. unfold Float.score_record, score_record.
  cbn [lift_vectors Float.computed_internals].
  rewrite list_lookup_fmap.
  destruct (computed_internals vs !! idx) as [ints|]; [|reflexivity].
  cbn [fmap option_fmap option_map]. step_bind.
  destruct (institution_type_of r) as [t|e]; [|reflexivity]. step_bind.
  change (Float.in_F_total (lift_internals ints))
    with (Float.Fin (in_F_total ints)).
  rewrite float_FSR_block_finite, FSR_block_returns by done.
  cbn [lift]. step_bind.
  destruct (float_LL_block_finite vs t ints) as (ll & ll' & -> & -> & Hll).
  step_bind.
  destruct (float_RPII_block_finite vs ints r Hr) as (rp & rp' & -> & -> & Hrp).
  step_bind.
  destruct (float_GO_block_finite vs r Hr) as (go & go' & -> & -> & Hgo).
  step_bind.
  destruct (float_OI_block_finite vs r Hr) as (oi & oi' & -> & -> & Hoi).
  step_bind.
  destruct (float_PR_block_finite R_star ints r Hr)
    as (pr & pr' & -> & -> & Hpr).
  step_bind.
  rewrite Hll, Hrp, Hgo, Hoi, Hpr.
  rewrite float_FQE_block_finite, float_SEC_block_finite by done.
  cbn [Float.fadd]. rewrite float_total_block_Fin.
  match goal with
  | |- context [total_block env ?a ?b ?c ?d ?e] =>
      destruct (total_block env a b c d e) as [total|err]
  end; [|reflexivity].
  cbn [lift]. step_bind. reflexivity.
Qed.

Lemma float_second_pass_finite env vs R_star records : forall idx results,
  Forall (Float.finite_record float_of_str) records ->
  Float.second_pass float_of_str env (lift_vectors vs) (Float.Fin R_star) idx
    records (map lift_result results)
  = lift (map lift_result)
      (second_pass finite_str env vs R_star idx records results).
Proof.
  induction records as [|r records IH]; intros idx results Hf; [reflexivity|].
  inversion Hf as [|? ? Hr Hrest]; subst.
  cbn [Float.second_pass second_pass].
  rewrite float_score_record_finite by done.
  destruct (score_record finite_str env vs R_star idx r) as [s|e];
    [|reflexivity].
  cbn [lift]. step_bind.
  specialize (IH (S idx) (results ++ [s]) Hrest).
  rewrite map_app in IH. exact IH.
Qed.

Lemma float_compute_scores_agree env records :
  Forall (Float.finite_record float_of_str) records ->
  Float.compute_scores float_of_str env records
  = lift (map lift_result) (compute_scores finite_str env records).
Proof.
  intros Hf. unfold Float.compute_scores, compute_scores.
  rewrite float_first_pass_returns, first_pass_returns. step_bind.
  rewrite (float_vectors_of_finite records Hf).
  cbn [lift_vectors Float.PR_SR_ratio_list].
  rewrite float_R_star_of_Fin.
  apply (float_second_pass_finite env _ _ records 0%nat [] Hf).
Qed.

End Agreement.

(** On a cohort whose fields all read as finite numbers the engine on
    floats computes what the engine on finite numbers computes: the same
    results, or the same exception. *)
Theorem float_compute_scores_finite
    (float_of_str : string -> option Float.pyfloat) (env : weights_file)
    (records : list (gmap string pyval)) :
  Forall (Float.finite_record float_of_str) records ->
  Float.compute_scores float_of_str env records
  = lift (map lift_result)
      (compute_scores (Float.finite_part float_of_str) env records).
Proof.
  intros Hf.
  by apply (float_compute_scores_agree float_of_str
              (Float.finite_part float_of_str)).
Qed.

(** A record written as a list of fields holding finite values. *)
Lemma float_finite_record_list
    (float_of_str : string -> option Float.pyfloat)
    (fields : list (string * pyval)) :
  forallb (fun kv => Float.finite_value float_of_str kv.2) fields = true ->
  Float.finite_record float_of_str (list_to_map fields).
Proof.
  intros Hf k. unfold get.
  destruct (list_to_map fields !! k) as [v|] eqn:E; [|reflexivity].
  apply elem_of_list_to_map_2, list_elem_of_In in E.
  rewrite forallb_forall in Hf. apply (Hf (k, v) E).
Qed.

Lemma float_compute_scores_finite_witness :
  Float.compute_scores Float.nan_inf_reader FileAbsent [r_univ; r_small]
  = lift (map lift_result)
      (compute_scores (Float.finite_part Float.nan_inf_reader) FileAbsent
         [r_univ; r_small]).
Proof.
  apply (float_compute_scores_finite Float.nan_inf_reader FileAbsent
           [r_univ; r_small]).
  constructor; [|constructor; [|constructor]];
    by apply float_finite_record_list.
Defined.

(** A record whose fields read as finite numbers has no [nan] among its
    ranked values. *)
Lemma float_finite_record_ranked_values
    (float_of_str : string -> option Float.pyfloat) (r : gmap string pyval) :
  Float.finite_record float_of_str r ->
  Forall (fun x => Float.is_nan x = false)
    (Float.ranked_values float_of_str r).
Proof.
  intros Hr. unfold Float.ranked_values.
  pose proof (fun s => eq_refl (Float.finite_part float_of_str s)) as Hq.
  rewrite (float_F_total_of_finite _ _ Hq), (float_P_of_finite _ _ Hq),
    (float_CC_of_finite _ _ Hq), (float_EXLI_per_student_of_finite _ _ Hq),
    (float_EXLB_per_student_of_finite _ _ Hq) by done.
  rewrite ?(fun k d => float_safe_float_finite _ _ Hq _ d (Hr k)).
  rewrite !float_ratio_Fin. repeat constructor.
Qed.

